(** * Startup research database: ingestion, normalisation and query layer

    A shallow embedding of the Python sources [api.py],
    [parse_results_to_db.py], [research_startups.py] and
    [query_startup_db.py].

    Python values are the JSON fragment the programs manipulate
    ([None], [bool], [int], [str], [list], [dict] with string keys).
    Characters are code points below 256 and numbers are integers:
    floating-point values are not part of the embedding.

    The file has two parts: the program (definitions), then its
    properties (lemmas and theorems). *)

From Stdlib Require Import ZArith NArith List String Ascii Bool Lia QArith.
From Stdlib Require Import Sorted Permutation.
Import ListNotations.

#[local] Open Scope string_scope.
#[local] Open Scope Z_scope.

(* ================================================================== *)
(** * Part I. The program *)
(* ================================================================== *)

(** ** Python values *)

#[local] Set Warnings "-register-all".

Inductive value : Type :=
| VNone
| VBool (b : bool)
| VInt (n : Z)
| VStr (s : string)
| VList (items : list value)
| VDict (entries : list (string * value)).

(** A [dict] keeps insertion order; a well-formed one has no repeated key. *)
Definition dict : Type := list (string * value).

(** Python truthiness: what [x or y] and [if x:] test. *)
Definition truthy (v : value) : bool :=
  match v with
  | VNone => false
  | VBool b => b
  | VInt n => negb (n =? 0)
  | VStr s => negb (s =? "")%string
  | VList l => match l with [] => false | _ :: _ => true end
  | VDict d => match d with [] => false | _ :: _ => true end
  end.

(** [x or y]. *)
Definition py_or (x y : value) : value := if truthy x then x else y.

Fixpoint lookup (d : dict) (k : string) : option value :=
  match d with
  | [] => None
  | (k', v) :: rest => if (k' =? k)%string then Some v else lookup rest k
  end.

(** [d.get(k, default)]. *)
Definition get_or (d : dict) (k : string) (default : value) : value :=
  match lookup d k with
  | Some v => v
  | None => default
  end.

(** [d.get(k)], whose default is [None]. *)
Definition get (d : dict) (k : string) : value := get_or d k VNone.

(** [k in d]. *)
Definition contains (d : dict) (k : string) : bool :=
  match lookup d k with
  | Some _ => true
  | None => false
  end.

(** [d[k] = v]: an existing key keeps its position. *)
Fixpoint dict_set (d : dict) (k : string) (v : value) : dict :=
  match d with
  | [] => [(k, v)]
  | (k', v') :: rest =>
      if (k' =? k)%string then (k', v) :: rest else (k', v') :: dict_set rest k v
  end.

(** [dict(pairs)]. *)
Definition dict_of_pairs (pairs : list (string * value)) : dict :=
  fold_left (fun d kv => dict_set d (fst kv) (snd kv)) pairs [].

(** [isinstance(v, dict)]. *)
Definition is_dict (v : value) : bool :=
  match v with
  | VDict _ => true
  | _ => false
  end.

(** ** Characters and strings *)

Definition dquote : ascii := "034"%char.
Definition backslash : ascii := "092"%char.

Definition code (c : ascii) : N := N_of_ascii c.

Definition is_digit (c : ascii) : bool :=
  ((48 <=? code c) && (code c <=? 57))%N.

(** The whitespace [json] skips: space, tab, line feed, carriage return. *)
Definition is_json_ws (c : ascii) : bool :=
  ((code c =? 32) || (code c =? 9) || (code c =? 10) || (code c =? 13))%N.

(** [str.isspace] on code points below 256. *)
Definition is_space (c : ascii) : bool :=
  (((9 <=? code c) && (code c <=? 13))
   || ((28 <=? code c) && (code c <=? 32))
   || (code c =? 133) || (code c =? 160))%N.

(** [str.lower] on one code point below 256. *)
Definition lower_char (c : ascii) : ascii :=
  let n := code c in
  if (((65 <=? n) && (n <=? 90))
      || ((192 <=? n) && (n <=? 222) && negb (n =? 215)))%N
  then ascii_of_N (n + 32)
  else c.

Fixpoint lower (s : string) : string :=
  match s with
  | EmptyString => EmptyString
  | String c r => String (lower_char c) (lower r)
  end.

Fixpoint lstrip (s : string) : string :=
  match s with
  | EmptyString => EmptyString
  | String c r => if is_space c then lstrip r else s
  end.

Fixpoint rstrip (s : string) : string :=
  match s with
  | EmptyString => EmptyString
  | String c r =>
      match rstrip r with
      | EmptyString => if is_space c then EmptyString else String c EmptyString
      | r' => String c r'
      end
  end.

(** [s.strip()]. *)
Definition strip (s : string) : string := rstrip (lstrip s).

(** [s.find(sub)], counting from [i]: the lowest index, or [-1]. *)
Fixpoint find_from (sub s : string) (i : Z) : Z :=
  if prefix sub s then i
  else match s with
       | EmptyString => -1
       | String _ r => find_from sub r (i + 1)
       end.

Definition find (s sub : string) : Z := find_from sub s 0.

(** [s.rfind(sub)], counting from [i]: the highest index, or [-1]. *)
Fixpoint rfind_from (sub s : string) (i : Z) : Z :=
  match s with
  | EmptyString => if prefix sub s then i else -1
  | String _ r =>
      let later := rfind_from sub r (i + 1) in
      if later =? -1 then (if prefix sub s then i else -1) else later
  end.

Definition rfind (s sub : string) : Z := rfind_from sub s 0.

(** [s[lo:hi]] for [0 <= lo]. *)
Definition slice (s : string) (lo hi : Z) : string :=
  substring (Z.to_nat lo) (Z.to_nat (hi - lo)) s.

(** [xs[:limit]]: a negative limit counts from the end. *)
Definition take_upto {A : Type} (limit : Z) (xs : list A) : list A :=
  if limit <? 0
  then firstn (Z.to_nat (Z.of_nat (List.length xs) + limit)) xs
  else firstn (Z.to_nat limit) xs.

(** ** [json.dumps] *)

Definition digit_char (d : N) : ascii := ascii_of_N (48 + d).

Fixpoint N_digits (fuel : nat) (n : N) (acc : string) : string :=
  match fuel with
  | O => acc
  | S f =>
      let acc' := String (digit_char (n mod 10)) acc in
      if (n <? 10)%N then acc' else N_digits f (n / 10) acc'
  end.

Definition N_repr (n : N) : string :=
  N_digits (S (N.to_nat (N.log2 n))) n EmptyString.

(** [repr] of an [int]. *)
Definition Z_repr (n : Z) : string :=
  match n with
  | Z0 => "0"
  | Zpos p => N_repr (Npos p)
  | Zneg p => String "-" (N_repr (Npos p))
  end.

Definition hex_char (d : N) : ascii :=
  if (d <? 10)%N then ascii_of_N (48 + d) else ascii_of_N (87 + d).

(** One character as [encode_basestring_ascii] writes it. *)
Definition escape_char (c : ascii) : string :=
  let n := code c in
  if (n =? 34)%N then String backslash (String dquote EmptyString)
  else if (n =? 92)%N then String backslash (String backslash EmptyString)
  else if (n =? 10)%N then String backslash "n"
  else if (n =? 13)%N then String backslash "r"
  else if (n =? 9)%N then String backslash "t"
  else if (n =? 8)%N then String backslash "b"
  else if (n =? 12)%N then String backslash "f"
  else if ((32 <=? n) && (n <=? 126))%N then String c EmptyString
  else String backslash
         (String "u" (String "0" (String "0"
            (String (hex_char (n / 16)) (String (hex_char (n mod 16)) EmptyString))))).

Fixpoint escape_chars (s : string) : string :=
  match s with
  | EmptyString => EmptyString
  | String c r => escape_char c ++ escape_chars r
  end.

Definition encode_basestring_ascii (s : string) : string :=
  String dquote (escape_chars s ++ String dquote EmptyString).

(** [json.dumps(v)] with the default separators [", "] and [": "]. *)
Fixpoint json_dumps (v : value) : string :=
  match v with
  | VNone => "null"
  | VBool true => "true"
  | VBool false => "false"
  | VInt n => Z_repr n
  | VStr s => encode_basestring_ascii s
  | VList l =>
      "[" ++
      (fix items (l : list value) : string :=
         match l with
         | [] => EmptyString
         | x :: rest =>
             match rest with
             | [] => json_dumps x
             | _ :: _ => json_dumps x ++ ", " ++ items rest
             end
         end) l
      ++ "]"
  | VDict d =>
      "{" ++
      (fix members (d : list (string * value)) : string :=
         match d with
         | [] => EmptyString
         | (k, x) :: rest =>
             let one := encode_basestring_ascii k ++ ": " ++ json_dumps x in
             match rest with
             | [] => one
             | _ :: _ => one ++ ", " ++ members rest
             end
         end) d
      ++ "}"
  end.

(** ** [json.loads] *)

Inductive load_result : Type :=
| Loaded (v : value)
| JSONDecodeError
| OtherException.

Fixpoint skip_ws (s : string) : string :=
  match s with
  | EmptyString => EmptyString
  | String c r => if is_json_ws c then skip_ws r else s
  end.

Definition hex_val (c : ascii) : option N :=
  let n := code c in
  if ((48 <=? n) && (n <=? 57))%N then Some (n - 48)%N
  else if ((97 <=? n) && (n <=? 102))%N then Some (n - 87)%N
  else if ((65 <=? n) && (n <=? 70))%N then Some (n - 55)%N
  else None.

Definition hex4 (a b c d : ascii) : option N :=
  match hex_val a, hex_val b, hex_val c, hex_val d with
  | Some x, Some y, Some z, Some w => Some (((x * 16 + y) * 16 + z) * 16 + w)%N
  | _, _, _, _ => None
  end.

(** The table BACKSLASH of the decoder. *)
Definition unescape (e : ascii) : option ascii :=
  let n := code e in
  if (n =? 34)%N then Some dquote
  else if (n =? 92)%N then Some backslash
  else if (n =? 47)%N then Some "/"%char
  else if (n =? 98)%N then Some "008"%char
  else if (n =? 102)%N then Some "012"%char
  else if (n =? 110)%N then Some "010"%char
  else if (n =? 114)%N then Some "013"%char
  else if (n =? 116)%N then Some "009"%char
  else None.

Definition cons_char (c : ascii) (r : option (string * string)) : option (string * string) :=
  match r with
  | Some (str, rest) => Some (String c str, rest)
  | None => None
  end.

(** [scanstring], entered after the opening quote (strict mode).  An
    escape above code point 255 is outside the embedding. *)
Fixpoint scanstring (s : string) : option (string * string) :=
  match s with
  | EmptyString => None
  | String c r =>
      if (code c =? 34)%N then Some (EmptyString, r)
      else if (code c =? 92)%N then
        match r with
        | EmptyString => None
        | String e r1 =>
            if (code e =? 117)%N then
              match r1 with
              | String h1 (String h2 (String h3 (String h4 r2))) =>
                  match hex4 h1 h2 h3 h4 with
                  | Some n =>
                      if (n <? 256)%N then cons_char (ascii_of_N n) (scanstring r2)
                      else None
                  | None => None
                  end
              | _ => None
              end
            else
              match unescape e with
              | Some ch => cons_char ch (scanstring r1)
              | None => None
              end
        end
      else if (code c <? 32)%N then None
      else cons_char c (scanstring r)
  end.

Fixpoint scan_digits (s : string) (acc : N) : N * string :=
  match s with
  | EmptyString => (acc, s)
  | String c r =>
      if is_digit c then scan_digits r (acc * 10 + (code c - 48))%N else (acc, s)
  end.

Fixpoint skip_digits (s : string) : string :=
  match s with
  | EmptyString => EmptyString
  | String c r => if is_digit c then skip_digits r else s
  end.

Definition starts_with_digit (s : string) : bool :=
  match s with
  | String c _ => is_digit c
  | EmptyString => false
  end.

(** Does a fraction or an exponent follow the integer part?  Then the
    literal is a float. *)
Definition float_tail (s : string) : bool :=
  match s with
  | String c r =>
      if (code c =? 46)%N then starts_with_digit r
      else if ((code c =? 101) || (code c =? 69))%N then
        match r with
        | String sg r' =>
            if ((code sg =? 43) || (code sg =? 45))%N then starts_with_digit r'
            else is_digit sg
        | EmptyString => false
        end
      else false
  | EmptyString => false
  end.

(** The integer part at the head of [s]: a single zero, or a digit run
    that starts with a non-zero digit. *)
Definition match_integer (s : string) : option (N * string) :=
  match s with
  | String c r =>
      if (code c =? 48)%N then Some (0%N, r)
      else if is_digit c then Some (scan_digits s 0%N)
      else None
  | EmptyString => None
  end.

Definition match_number (s : string) : option (value * string) :=
  let '(neg, s1) :=
    match s with
    | String c r => if (code c =? 45)%N then (true, r) else (false, s)
    | EmptyString => (false, s)
    end in
  match match_integer s1 with
  | Some (n, rest) =>
      if float_tail rest then None
      else Some (VInt (if neg then - Z.of_N n else Z.of_N n), rest)
  | None => None
  end.

Definition drop (n : nat) (s : string) : string :=
  substring n (String.length s - n) s.

Fixpoint scan_once (fuel : nat) (s : string) {struct fuel} : option (value * string) :=
  match fuel with
  | O => None
  | S f =>
      match s with
      | EmptyString => None
      | String c r =>
          if (code c =? 34)%N then
            match scanstring r with
            | Some (str, rest) => Some (VStr str, rest)
            | None => None
            end
          else if (code c =? 123)%N then JSONObject f r
          else if (code c =? 91)%N then JSONArray f r
          else if prefix "null" s then Some (VNone, drop 4 s)
          else if prefix "true" s then Some (VBool true, drop 4 s)
          else if prefix "false" s then Some (VBool false, drop 5 s)
          else match_number s
      end
  end

with JSONArray (fuel : nat) (s : string) {struct fuel} : option (value * string) :=
  match fuel with
  | O => None
  | S f =>
      match skip_ws s with
      | EmptyString => None
      | String c r =>
          if (code c =? 93)%N then Some (VList [], r)
          else
            match array_items f (String c r) with
            | Some (vs, rest) => Some (VList vs, rest)
            | None => None
            end
      end
  end

with array_items (fuel : nat) (s : string) {struct fuel} : option (list value * string) :=
  match fuel with
  | O => None
  | S f =>
      match scan_once f s with
      | None => None
      | Some (v, rest) =>
          match skip_ws rest with
          | EmptyString => None
          | String c r =>
              if (code c =? 93)%N then Some ([v], r)
              else if (code c =? 44)%N then
                match array_items f (skip_ws r) with
                | Some (vs, rest') => Some (v :: vs, rest')
                | None => None
                end
              else None
          end
      end
  end

with JSONObject (fuel : nat) (s : string) {struct fuel} : option (value * string) :=
  match fuel with
  | O => None
  | S f =>
      match skip_ws s with
      | EmptyString => None
      | String c r =>
          if (code c =? 125)%N then Some (VDict [], r)
          else if (code c =? 34)%N then
            match object_members f r with
            | Some (pairs, rest) => Some (VDict (dict_of_pairs pairs), rest)
            | None => None
            end
          else None
      end
  end

(** [object_members] is entered after the opening quote of a key. *)
with object_members (fuel : nat) (s : string) {struct fuel}
  : option (list (string * value) * string) :=
  match fuel with
  | O => None
  | S f =>
      match scanstring s with
      | None => None
      | Some (key, rest) =>
          match skip_ws rest with
          | EmptyString => None
          | String c r =>
              if (code c =? 58)%N then
                match scan_once f (skip_ws r) with
                | None => None
                | Some (v, rest1) =>
                    match skip_ws rest1 with
                    | EmptyString => None
                    | String c1 r1 =>
                        if (code c1 =? 125)%N then Some ([(key, v)], r1)
                        else if (code c1 =? 44)%N then
                          match skip_ws r1 with
                          | EmptyString => None
                          | String c2 r2 =>
                              if (code c2 =? 34)%N then
                                match object_members f r2 with
                                | Some (ps, rest2) => Some ((key, v) :: ps, rest2)
                                | None => None
                                end
                              else None
                          end
                        else None
                    end
                end
              else None
          end
      end
  end.

(** [json.loads(s)]: leading whitespace, one value, trailing whitespace,
    and nothing else.  The fuel, twice the length of the text, is enough
    for every text that [json_dumps] writes (lemma [json_loads_dumps]). *)
Definition json_loads (s : string) : load_result :=
  match scan_once (2 * String.length s + 2) (skip_ws s) with
  | Some (v, rest) =>
      match skip_ws rest with
      | EmptyString => Loaded v
      | String _ _ => JSONDecodeError
      end
  | None => JSONDecodeError
  end.

(** ** The [startups] table *)

(** The fourteen columns an INSERT fills, in the order of the statement. *)
Inductive column : Type :=
| company_name | website_url | founding_year | founders | business_model
| industry_sector | funding_rounds | total_capital_raised
| current_revenue_estimates | employee_count | customer_user_base_size
| key_partnerships | major_competitors | recent_news_developments.

Definition columns : list column :=
  [company_name; website_url; founding_year; founders; business_model;
   industry_sector; funding_rounds; total_capital_raised;
   current_revenue_estimates; employee_count; customer_user_base_size;
   key_partnerships; major_competitors; recent_news_developments].

(** The columns declared as JSON text of a sequence. *)
Definition is_sequence_column (c : column) : bool :=
  match c with
  | founders | funding_rounds | key_partnerships | major_competitors => true
  | _ => false
  end.

(** The tuple of parameters bound to the INSERT statement. *)
Definition args : Type := column -> value.

Inductive sqlval : Type :=
| SNull
| SInt (n : Z)
| SText (s : string).

Definition sqlval_eqb (a b : sqlval) : bool :=
  match a, b with
  | SNull, SNull => true
  | SInt n, SInt m => n =? m
  | SText s, SText t => (s =? t)%string
  | _, _ => false
  end.

(** What the program leaves to the database engine and to the clock:
    how an INTEGER column stores a text value (numeric-looking text is
    converted), the number an aggregate reads in a text value, and the
    CURRENT_TIMESTAMP given to the row that receives a given id. *)
Record engine : Type := {
  text_in_integer_column : string -> sqlval;
  numeric_of_text : string -> Q;
  timestamp_of : Z -> Z
}.

Inductive affinity : Type := TEXT | INTEGER.

Definition column_affinity (c : column) : affinity :=
  match c with
  | founding_year | employee_count => INTEGER
  | _ => TEXT
  end.

Definition apply_affinity (E : engine) (a : affinity) (v : sqlval) : sqlval :=
  match a, v with
  | TEXT, SInt n => SText (Z_repr n)
  | INTEGER, SText s => text_in_integer_column E s
  | _, _ => v
  end.

(** How [sqlite3] binds a Python parameter: [None], [int] (within 64
    bits; [bool] is an [int]) and [str] are supported, a [list] or a
    [dict] raises. *)
Definition adapt (v : value) : option sqlval :=
  match v with
  | VNone => Some SNull
  | VBool b => Some (SInt (if b then 1 else 0))
  | VInt n => if (- 2 ^ 63 <=? n) && (n <? 2 ^ 63) then Some (SInt n) else None
  | VStr s => Some (SText s)
  | VList _ => None
  | VDict _ => None
  end.

Definition bindable (v : value) : bool :=
  match adapt v with
  | Some _ => true
  | None => false
  end.

Record row : Type := {
  row_id : Z;
  cell : column -> sqlval;
  created_at : Z
}.

(** The table and the AUTOINCREMENT sequence. *)
Record store : Type := {
  rows : list row;
  last_id : Z
}.

Definition empty_store : store := {| rows := []; last_id := 0 |}.

Definition stored_cell (E : engine) (a : args) (c : column) : sqlval :=
  match adapt (a c) with
  | Some v => apply_affinity E (column_affinity c) v
  | None => SNull
  end.

(** [cursor.execute('INSERT INTO startups (...) VALUES (...)', a)] and
    [conn.commit()]; [None] when the statement raises (a parameter that
    cannot be bound, or NULL in the NOT NULL column [company_name]). *)
Definition execute_insert (E : engine) (st : store) (a : args) : option store :=
  if forallb (fun c => bindable (a c)) columns then
    match stored_cell E a company_name with
    | SNull => None
    | _ =>
        let new_id := last_id st + 1 in
        Some {| rows := rows st ++
                        [{| row_id := new_id;
                            cell := stored_cell E a;
                            created_at := timestamp_of E new_id |}];
                last_id := new_id |}
    end
  else None.

(** The Python value [sqlite3] returns for a cell. *)
Definition py_of_sql (v : sqlval) : value :=
  match v with
  | SNull => VNone
  | SInt n => VInt n
  | SText s => VStr s
  end.

(** [ORDER BY created_at DESC]; rows of one timestamp keep the order of
    insertion. *)
Fixpoint insert_desc (r : row) (sorted : list row) : list row :=
  match sorted with
  | [] => [r]
  | x :: rest =>
      if created_at x <=? created_at r then r :: sorted
      else x :: insert_desc r rest
  end.

Definition order_by_created_at_desc (l : list row) : list row :=
  fold_right insert_desc [] l.

(** The dictionary built for one row on the read side. *)
Record startup : Type := {
  s_id : Z;
  s_field : column -> value;
  s_created_at : Z
}.

(** ** The file system *)

Record filesystem : Type := {
  path_exists : string -> bool;            (* os.path.exists *)
  read_text : string -> option string;     (* open(..).read(); None when it raises *)
  listdir : list string                    (* the names in the working directory *)
}.

Fixpoint has_magic (pat : string) : bool :=
  match pat with
  | EmptyString => false
  | String c r =>
      ((code c =? 42) || (code c =? 63) || (code c =? 91))%N || has_magic r
  end.

(** [fnmatch] for patterns made of literal characters, [*] and [?]. *)
Fixpoint fnmatch (pat name : string) : bool :=
  match pat with
  | EmptyString =>
      match name with
      | EmptyString => true
      | String _ _ => false
      end
  | String p pat' =>
      if (code p =? 42)%N then
        (fix star (n : string) : bool :=
           fnmatch pat' n ||
           match n with
           | EmptyString => false
           | String _ n' => star n'
           end) name
      else
        match name with
        | EmptyString => false
        | String c name' =>
            ((code p =? 63)%N || (code c =? code p)%N) && fnmatch pat' name'
        end
  end.

(** [glob.glob(pat)] in the working directory. *)
Definition glob (fs : filesystem) (pat : string) : list string :=
  if has_magic pat then filter (fnmatch pat) (listdir fs)
  else if path_exists fs pat then [pat] else [].

Definition file_patterns : list string :=
  ["research_results.json"; "research_results_backup_*.json"; "batch_results_*.json"].

(** [all_files = []; for pattern in file_patterns: all_files.extend(glob.glob(pattern))] *)
Definition all_result_files (fs : filesystem) : list string :=
  flat_map (glob fs) file_patterns.

(** ** HTTP responses *)

Inductive response (A : Type) : Type :=
| OK (body : A)
| HTTPException (status_code : Z) (detail : string).

Arguments OK {A} body.
Arguments HTTPException {A} status_code detail.

(** [type(v).__name__] *)
Definition type_name (v : value) : string :=
  match v with
  | VNone => "NoneType"
  | VBool _ => "bool"
  | VInt _ => "int"
  | VStr _ => "str"
  | VList _ => "list"
  | VDict _ => "dict"
  end.

(** ** [api.py] *)

Module Api.

Section Environment.

Variable E : engine.
Variable loads : string -> load_result.

(** The tuple [save_startup_to_db] binds, one Python expression a column. *)
Definition insert_args (startup_data : dict) : args :=
  fun c =>
    match c with
    | company_name =>
        py_or (get startup_data "Company Name")
          (py_or (get startup_data "company_name")
             (get_or startup_data "name" (VStr "")))
    | website_url =>
        py_or (get startup_data "Website URL")
          (py_or (get startup_data "website_url")
             (get_or startup_data "website" (VStr "")))
    | founding_year =>
        py_or (get startup_data "Founding Year")
          (py_or (get startup_data "founding_year")
             (get_or startup_data "founded" VNone))
    | founders =>
        VStr (json_dumps
                (get_or startup_data "Founders"
                   (get_or startup_data "founders" (VList []))))
    | business_model =>
        py_or (get startup_data "Business Model")
          (get_or startup_data "business_model" (VStr ""))
    | industry_sector =>
        py_or (get startup_data "Industry Sector")
          (py_or (get startup_data "industry_sector")
             (get_or startup_data "industry" (VStr "")))
    | funding_rounds =>
        VStr (json_dumps
                (get_or startup_data "Funding Rounds"
                   (get_or startup_data "funding_rounds" (VList []))))
    | total_capital_raised =>
        py_or (get startup_data "Total Capital Raised to Date")
          (py_or (get startup_data "total_capital_raised")
             (get_or startup_data "total_funding" (VStr "")))
    | current_revenue_estimates =>
        py_or (get startup_data "Current Revenue Estimates")
          (py_or (get startup_data "current_revenue_estimates")
             (get_or startup_data "revenue" (VStr "")))
    | employee_count =>
        py_or (get startup_data "Employee Count")
          (py_or (get startup_data "employee_count")
             (get_or startup_data "employees" VNone))
    | customer_user_base_size =>
        py_or (get startup_data "Customer/User Base Size")
          (py_or (get startup_data "customer_user_base_size")
             (get_or startup_data "users" (VStr "")))
    | key_partnerships =>
        VStr (json_dumps
                (get_or startup_data "Key Partnerships"
                   (get_or startup_data "key_partnerships" (VList []))))
    | major_competitors =>
        VStr (json_dumps
                (get_or startup_data "Major Competitors"
                   (get_or startup_data "major_competitors" (VList []))))
    | recent_news_developments =>
        py_or (get startup_data "Recent News or Developments")
          (py_or (get startup_data "recent_news_developments")
             (get_or startup_data "recent_news" (VStr "")))
    end.

(** [save_startup_to_db]: [True] after the commit, [False] after the
    rollback. *)
Definition save_startup_to_db (st : store) (startup_data : dict) : store * bool :=
  match execute_insert E st (insert_args startup_data) with
  | Some st' => (st', true)
  | None => (st, false)
  end.

(** What [json.loads] leaves in [data], or [None] where the function
    returns [[]] before the shape test. *)
Definition load_with_recovery (content : string) : option value :=
  match loads content with
  | Loaded data => Some data
  | OtherException => None
  | JSONDecodeError =>
      let start_idx := find content "[" in
      let end_idx := rfind content "]" in
      if negb (start_idx =? -1) && negb (end_idx =? -1) && (start_idx <? end_idx)
      then
        match loads (slice content start_idx (end_idx + 1)) with
        | Loaded data => Some data
        | _ => None
        end
      else None
  end.

Definition parse_result_file (fs : filesystem) (filename : string) : list value :=
  match read_text fs filename with
  | None => []
  | Some text =>
      let content := strip text in
      if (content =? "")%string then []
      else
        match load_with_recovery content with
        | Some (VList data) => data
        | Some (VDict data) => [VDict data]
        | _ => []
        end
  end.

(** The company name the endpoint tests before it saves. *)
Definition candidate_name (startup : dict) : value :=
  py_or (get startup "Company Name")
    (py_or (get startup "company_name") (get_or startup "name" (VStr ""))).

(** One turn of [for startup in startups:]. *)
Definition save_candidate (acc : store * Z) (startup : value) : store * Z :=
  let '(st, saved_count) := acc in
  match startup with
  | VDict d =>
      if truthy (candidate_name d) then
        let '(st', saved) := save_startup_to_db st d in
        (st', if saved then saved_count + 1 else saved_count)
      else acc
  | _ => acc
  end.

Definition save_candidates (st : store) (startups : list value) : store * Z :=
  fold_left save_candidate startups (st, 0).

Inductive ingest_report : Type :=
| FileReport (message : string) (startups_found startups_saved : Z)
| AllReport (message : string) (total_startups_saved : Z)
    (files_processed : list (string * Z)).

(** One turn of [for file in all_files:]. *)
Definition save_file (fs : filesystem) (acc : store * Z * list (string * Z))
  (file : string) : store * Z * list (string * Z) :=
  let '(st, total_saved, processed_files) := acc in
  let '(st', saved_count) := save_candidates st (parse_result_file fs file) in
  (st', total_saved + saved_count, (processed_files ++ [(file, saved_count)])%list).

(** POST /save-from-file *)
Definition save_from_file (fs : filesystem) (st : store) (filename : string)
  : store * response ingest_report :=
  if negb (path_exists fs filename) then
    if (filename =? "all")%string then
      let all_files := all_result_files fs in
      match all_files with
      | [] => (st, HTTPException 404 "No result files found")
      | _ :: _ =>
          let '(st', total_saved, processed_files) :=
            fold_left (save_file fs) all_files (st, 0, []) in
          (st', OK (AllReport
                      ("Successfully processed "
                       ++ Z_repr (Z.of_nat (List.length all_files)) ++ " files")
                      total_saved processed_files))
      end
    else (st, HTTPException 404 ("File " ++ filename ++ " not found"))
  else
    let startups := parse_result_file fs filename in
    match startups with
    | [] => (st, HTTPException 400 ("No valid startup data found in " ++ filename))
    | _ :: _ =>
        let '(st', saved_count) := save_candidates st startups in
        (st', OK (FileReport ("Successfully processed " ++ filename)
                    (Z.of_nat (List.length startups)) saved_count))
    end.

(** [json.loads(row[i]) if row[i] else []]; [None] when it raises. *)
Definition read_sequence (raw : value) : option value :=
  if truthy raw then
    match raw with
    | VStr s =>
        match loads s with
        | Loaded v => Some v
        | _ => None
        end
    | _ => None
    end
  else Some (VList []).

Definition read_cell (r : row) (c : column) : option value :=
  if is_sequence_column c then read_sequence (py_of_sql (cell r c))
  else Some (py_of_sql (cell r c)).

Definition or_none (o : option value) : value :=
  match o with
  | Some v => v
  | None => VNone
  end.

(** The dictionary of a row whose cells were all read. *)
Definition row_startup (r : row) : startup :=
  {| s_id := row_id r;
     s_field := fun c => or_none (read_cell r c);
     s_created_at := created_at r |}.

Definition startup_of_row (r : row) : option startup :=
  if forallb (fun c => match read_cell r c with Some _ => true | None => false end)
       columns
  then Some (row_startup r)
  else None.

Fixpoint startups_of_rows (l : list row) : option (list startup) :=
  match l with
  | [] => Some []
  | r :: rest =>
      match startup_of_row r, startups_of_rows rest with
      | Some s, Some ss => Some (s :: ss)
      | _, _ => None
      end
  end.

(** [get_all_startups_from_db]: any exception while the rows are read
    makes the result [[]]. *)
Definition get_all_startups_from_db (st : store) : list startup :=
  match startups_of_rows (order_by_created_at_desc (rows st)) with
  | Some startups => startups
  | None => []
  end.

(** [s.get('industry_sector', '').lower().find(industry.lower()) != -1];
    [None] when [.lower()] raises AttributeError. *)
Definition industry_matches (industry : string) (s : startup) : option bool :=
  match s_field s industry_sector with
  | VStr sector => Some (negb (find (lower sector) (lower industry) =? -1))
  | _ => None
  end.

Fixpoint filter_industry (industry : string) (l : list startup)
  : option (list startup) :=
  match l with
  | [] => Some []
  | s :: rest =>
      match industry_matches industry s, filter_industry industry rest with
      | Some b, Some kept => Some (if b then s :: kept else kept)
      | _, _ => None
      end
  end.

(** [s.get('founding_year') == founding_year] *)
Definition year_matches (year : Z) (s : startup) : bool :=
  match s_field s founding_year with
  | VInt y => y =? year
  | VBool b => (if b then 1 else 0) =? year
  | _ => false
  end.

Definition first_non_str (l : list startup) : value :=
  match filter (fun s => match s_field s industry_sector with
                         | VStr _ => false
                         | _ => true
                         end) l with
  | s :: _ => s_field s industry_sector
  | [] => VNone
  end.

Record listing : Type := {
  total_returned : Z;
  startups : list startup
}.

(** GET /startups; the query parameters not given are [None], and
    [limit] then takes its default 100. *)
Definition get_startups (st : store) (limit : option Z)
  (industry : option string) (year : option Z) : response listing :=
  let limit := match limit with Some n => n | None => 100 end in
  let all := get_all_startups_from_db st in
  let after_industry :=
    match industry with
    | Some i => if (i =? "")%string then Some all else filter_industry i all
    | None => Some all
    end in
  match after_industry with
  | None =>
      HTTPException 500
        ("Error retrieving startups: '" ++ type_name (first_non_str all)
         ++ "' object has no attribute 'lower'")
  | Some kept =>
      let kept :=
        match year with
        | Some y => if y =? 0 then kept else filter (year_matches y) kept
        | None => kept
        end in
      let kept := take_upto limit kept in
      OK {| total_returned := Z.of_nat (List.length kept); startups := kept |}
  end.

(** [x != ""] and the like in SQL: NULL compares to nothing, and an
    integer differs from every text. *)
Definition sql_ne_text (v : sqlval) (t : string) : bool :=
  match v with
  | SNull => false
  | SInt _ => true
  | SText s => negb (s =? t)%string
  end.

Definition is_not_null (v : sqlval) : bool :=
  match v with
  | SNull => false
  | _ => true
  end.

(** SELECT DISTINCT, in the order of first occurrence. *)
Fixpoint distinct (seen l : list sqlval) : list sqlval :=
  match l with
  | [] => []
  | v :: rest =>
      if existsb (sqlval_eqb v) seen then distinct seen rest
      else v :: distinct (v :: seen) rest
  end.

Definition sql_numeric (v : sqlval) : Q :=
  match v with
  | SNull => 0%Q
  | SInt n => inject_Z n
  | SText s => numeric_of_text E s
  end.

(** AVG over the values given: NULL when there is none. *)
Definition sql_avg (l : list sqlval) : option Q :=
  match l with
  | [] => None
  | _ :: _ =>
      Some (fold_right Qplus 0%Q (map sql_numeric l)
            / inject_Z (Z.of_nat (List.length l)))%Q
  end.

Record database_stats : Type := {
  total_startups : Z;
  industries : list value;
  avg_founding_year : option Q;
  total_funding_disclosed : Z
}.

Definition funding_disclosed (r : row) : bool :=
  is_not_null (cell r total_capital_raised)
  && sql_ne_text (cell r total_capital_raised) ""
  && sql_ne_text (cell r total_capital_raised) "Not disclosed".

Definition get_database_stats (st : store) : database_stats :=
  {| total_startups := Z.of_nat (List.length (rows st));
     industries :=
       map py_of_sql
         (distinct []
            (filter (fun v => is_not_null v && sql_ne_text v "")
               (map (fun r => cell r industry_sector) (rows st))));
     avg_founding_year :=
       sql_avg (filter is_not_null (map (fun r => cell r founding_year) (rows st)));
     total_funding_disclosed :=
       Z.of_nat (List.length (filter funding_disclosed (rows st))) |}.

Inductive lookup_result : Type :=
| Found (s : startup)
| NotFound (detail : string)
| ServerError.

(** GET /startups/{startup_id}: the row of that id, 404 when there is
    none, 500 when the id cannot be bound or a cell cannot be read (the
    text of that error is not part of the embedding). *)
Definition get_startup_by_id (st : store) (startup_id : Z) : lookup_result :=
  if bindable (VInt startup_id) then
    match List.find (fun r => row_id r =? startup_id) (rows st) with
    | None =>
        NotFound ("Startup with ID " ++ Z_repr startup_id ++ " not found")
    | Some r =>
        match startup_of_row r with
        | Some s => Found s
        | None => ServerError
        end
    end
  else ServerError.

End Environment.

End Api.

(** ** [parse_results_to_db.py] *)

Module ParseResultsToDb.

Section Environment.

Variable E : engine.
Variable loads : string -> load_result.

Definition insert_args (startup_data : dict) : args :=
  fun c =>
    match c with
    | company_name =>
        py_or (get startup_data "Company Name")
          (py_or (get startup_data "company_name")
             (get_or startup_data "name" (VStr "")))
    | website_url =>
        py_or (get startup_data "Website URL")
          (py_or (get startup_data "website_url")
             (get_or startup_data "website" (VStr "")))
    | founding_year =>
        py_or (get startup_data "Founding Year")
          (py_or (get startup_data "founding_year")
             (get_or startup_data "founded" VNone))
    | founders =>
        VStr (json_dumps
                (get_or startup_data "Founders"
                   (get_or startup_data "founders" (VList []))))
    | business_model =>
        py_or (get startup_data "Business Model")
          (get_or startup_data "business_model" (VStr ""))
    | industry_sector =>
        py_or (get startup_data "Industry Sector")
          (py_or (get startup_data "industry_sector")
             (get_or startup_data "industry" (VStr "")))
    | funding_rounds =>
        VStr (json_dumps
                (get_or startup_data "Funding Rounds"
                   (get_or startup_data "funding_rounds" (VList []))))
    | total_capital_raised =>
        py_or (get startup_data "Total Capital Raised to Date")
          (py_or (get startup_data "total_capital_raised")
             (get_or startup_data "total_funding" (VStr "")))
    | current_revenue_estimates =>
        py_or (get startup_data "Current Revenue Estimates")
          (py_or (get startup_data "current_revenue_estimates")
             (get_or startup_data "revenue" (VStr "")))
    | employee_count =>
        py_or (get startup_data "Employee Count")
          (py_or (get startup_data "employee_count")
             (get_or startup_data "employees" VNone))
    | customer_user_base_size =>
        py_or (get startup_data "Customer/User Base Size")
          (py_or (get startup_data "customer_user_base_size")
             (get_or startup_data "users" (VStr "")))
    | key_partnerships =>
        VStr (json_dumps
                (get_or startup_data "Key Partnerships"
                   (get_or startup_data "key_partnerships" (VList []))))
    | major_competitors =>
        VStr (json_dumps
                (get_or startup_data "Major Competitors"
                   (get_or startup_data "major_competitors" (VList []))))
    | recent_news_developments =>
        py_or (get startup_data "Recent News or Developments")
          (py_or (get startup_data "recent_news_developments")
             (get_or startup_data "recent_news" (VStr "")))
    end.

Definition save_startup_to_db (st : store) (startup_data : dict) : store * bool :=
  match execute_insert E st (insert_args startup_data) with
  | Some st' => (st', true)
  | None => (st, false)
  end.

Definition parse_result_file (fs : filesystem) (filename : string) : list value :=
  match read_text fs filename with
  | None => []
  | Some text =>
      let content := strip text in
      if (content =? "")%string then []
      else
        let data :=
          match loads content with
          | Loaded data => Some data
          | OtherException => None
          | JSONDecodeError =>
              let start_idx := find content "[" in
              let end_idx := rfind content "]" in
              if negb (start_idx =? -1) && negb (end_idx =? -1)
                 && (start_idx <? end_idx)
              then
                match loads (slice content start_idx (end_idx + 1)) with
                | Loaded data => Some data
                | JSONDecodeError => None
                | OtherException => None
                end
              else None
          end in
        match data with
        | Some (VList data) => data
        | Some (VDict data) => [VDict data]
        | _ => []
        end
  end.

(** One turn of [for i, startup in enumerate(startups_list, 1):]. *)
Definition save_item (acc : store * Z) (startup : value) : store * Z :=
  let '(st, saved_count) := acc in
  match startup with
  | VDict d =>
      let company_name :=
        py_or (get d "Company Name")
          (py_or (get d "company_name") (get_or d "name" (VStr ""))) in
      if truthy company_name then
        let '(st', saved) := save_startup_to_db st d in
        (st', if saved then saved_count + 1 else saved_count)
      else acc
  | _ => acc
  end.

Definition save_startups_to_db (st : store) (startups_list : list value)
  : store * Z :=
  match startups_list with
  | [] => (st, 0)
  | _ :: _ => fold_left save_item startups_list (st, 0)
  end.

Inductive outcome : Type :=
| NoResultFilesFound
| TotalSaved (total_saved : Z)
| FileSaved (saved : Z).

Definition save_file (fs : filesystem) (acc : store * Z) (file : string)
  : store * Z :=
  let '(st, total_saved) := acc in
  let '(st', saved) := save_startups_to_db st (parse_result_file fs file) in
  (st', total_saved + saved).

(** [main] when [sys.argv[1]] is [filename]. *)
Definition main (fs : filesystem) (st : store) (filename : string)
  : store * outcome :=
  if (filename =? "all")%string then
    let all_files := all_result_files fs in
    match all_files with
    | [] => (st, NoResultFilesFound)
    | _ :: _ =>
        let '(st', total_saved) := fold_left (save_file fs) all_files (st, 0) in
        (st', TotalSaved total_saved)
    end
  else
    let '(st', saved) := save_startups_to_db st (parse_result_file fs filename) in
    (st', FileSaved saved).

End Environment.

End ParseResultsToDb.

(** ** [research_startups.py] *)

Module ResearchStartups.

Section Environment.

Variable E : engine.
Variable loads : string -> load_result.

Definition insert_args (startup_data : dict) : args :=
  fun c =>
    match c with
    | company_name => get_or startup_data "Company Name" (VStr "")
    | website_url => get_or startup_data "Website URL" (VStr "")
    | founding_year => get_or startup_data "Founding Year" VNone
    | founders => VStr (json_dumps (get_or startup_data "Founders" (VList [])))
    | business_model => get_or startup_data "Business Model" (VStr "")
    | industry_sector => get_or startup_data "Industry Sector" (VStr "")
    | funding_rounds =>
        VStr (json_dumps (get_or startup_data "Funding Rounds" (VList [])))
    | total_capital_raised =>
        get_or startup_data "Total Capital Raised to Date" (VStr "")
    | current_revenue_estimates =>
        get_or startup_data "Current Revenue Estimates" (VStr "")
    | employee_count => get_or startup_data "Employee Count" VNone
    | customer_user_base_size =>
        get_or startup_data "Customer/User Base Size" (VStr "")
    | key_partnerships =>
        VStr (json_dumps (get_or startup_data "Key Partnerships" (VList [])))
    | major_competitors =>
        VStr (json_dumps (get_or startup_data "Major Competitors" (VList [])))
    | recent_news_developments =>
        get_or startup_data "Recent News or Developments" (VStr "")
    end.

(** [save_startup_to_db] returns nothing: the store after the commit, or
    unchanged after the rollback. *)
Definition save_startup_to_db (st : store) (startup_data : dict) : store :=
  match execute_insert E st (insert_args startup_data) with
  | Some st' => st'
  | None => st
  end.

Definition save_all_startups_to_db (st : store) (startups_list : list value)
  : store :=
  fold_left
    (fun st startup =>
       match startup with
       | VDict d => save_startup_to_db st d
       | _ => st
       end)
    startups_list st.

(** [isinstance(item, dict) and ('Company Name' in item or 'company_name' in item)] *)
Definition has_company_key (item : value) : bool :=
  match item with
  | VDict d => contains d "Company Name" || contains d "company_name"
  | _ => false
  end.

Definition parse_and_save_result_file (fs : filesystem) (st : store)
  (filename : string) : store * bool :=
  match read_text fs filename with
  | None => (st, false)
  | Some text =>
      let content := strip text in
      if (content =? "")%string then (st, false)
      else
        let data :=
          match loads content with
          | Loaded data => Some data
          | OtherException => None
          | JSONDecodeError =>
              let start_idx := find content "[" in
              let end_idx := rfind content "]" in
              if negb (start_idx =? -1) && negb (end_idx =? -1)
                 && (start_idx <? end_idx)
              then
                match loads (slice content start_idx (end_idx + 1)) with
                | Loaded data => Some data
                | JSONDecodeError => None
                | OtherException => None
                end
              else None
          end in
        match data with
        | Some (VList data) =>
            match filter has_company_key data with
            | [] => (st, false)
            | valid_items => (save_all_startups_to_db st valid_items, true)
            end
        | Some (VDict data) =>
            if contains data "Company Name" || contains data "company_name"
            then (save_all_startups_to_db st [VDict data], true)
            else (st, false)
        | _ => (st, false)
        end
  end.

(** The name of the backup that a research run writes next to
    [research_results.json], with the same text:
    [f"research_results_backup_{timestamp}.json"]. *)
Definition backup_filename (timestamp : string) : string :=
  "research_results_backup_" ++ timestamp ++ ".json".

(** One turn of the loops of [parse_all_result_files]. *)
Definition process_file (fs : filesystem) (acc : store * Z) (filename : string)
  : store * Z :=
  let '(st, files_processed) := acc in
  let '(st', ok) := parse_and_save_result_file fs st filename in
  (st', if ok then files_processed + 1 else files_processed).

(** [parse_all_result_files]: the table it leaves, the count of files
    it reports as processed, and the total of rows that it prints at
    the end (the [startups] table exists). *)
Definition parse_all_result_files (fs : filesystem) (st : store)
  : store * Z * Z :=
  let '(st', files_processed) :=
    fold_left (process_file fs) (flat_map (glob fs) file_patterns) (st, 0) in
  (st', files_processed, Z.of_nat (List.length (rows st'))).

End Environment.

End ResearchStartups.

(** ** The alias table *)

(** The rule each column follows in [save_startup_to_db] of [api.py] and
    [parse_results_to_db.py]:
    - [Cascade3 l c s d] is [get(l) or get(c) or get(s, d)];
    - [Cascade2 l c d] is [get(l) or get(c, d)];
    - [Presence l c] is [json.dumps(get(l, get(c, [])))]. *)
Inductive rule : Type :=
| Cascade3 (label canonical short : string) (default : value)
| Cascade2 (label canonical : string) (default : value)
| Presence (label canonical : string).

Definition rule_of (c : column) : rule :=
  match c with
  | company_name => Cascade3 "Company Name" "company_name" "name" (VStr "")
  | website_url => Cascade3 "Website URL" "website_url" "website" (VStr "")
  | founding_year => Cascade3 "Founding Year" "founding_year" "founded" VNone
  | founders => Presence "Founders" "founders"
  | business_model => Cascade2 "Business Model" "business_model" (VStr "")
  | industry_sector => Cascade3 "Industry Sector" "industry_sector" "industry" (VStr "")
  | funding_rounds => Presence "Funding Rounds" "funding_rounds"
  | total_capital_raised =>
      Cascade3 "Total Capital Raised to Date" "total_capital_raised" "total_funding" (VStr "")
  | current_revenue_estimates =>
      Cascade3 "Current Revenue Estimates" "current_revenue_estimates" "revenue" (VStr "")
  | employee_count => Cascade3 "Employee Count" "employee_count" "employees" VNone
  | customer_user_base_size =>
      Cascade3 "Customer/User Base Size" "customer_user_base_size" "users" (VStr "")
  | key_partnerships => Presence "Key Partnerships" "key_partnerships"
  | major_competitors => Presence "Major Competitors" "major_competitors"
  | recent_news_developments =>
      Cascade3 "Recent News or Developments" "recent_news_developments" "recent_news" (VStr "")
  end.

(** The value the last key of a cascade contributes: whatever is stored
    under the key, the default only when the key is absent. *)
Definition last_resort (d : dict) (k : string) (default : value) : value :=
  match lookup d k with
  | Some v => v
  | None => default
  end.

Definition apply_rule (d : dict) (r : rule) : value :=
  match r with
  | Cascade3 l c s default =>
      if truthy (get d l) then get d l
      else if truthy (get d c) then get d c
      else last_resort d s default
  | Cascade2 l c default =>
      if truthy (get d l) then get d l
      else last_resort d c default
  | Presence l c =>
      VStr (json_dumps
              (match lookup d l with
               | Some v => v
               | None => last_resort d c (VList [])
               end))
  end.

(** ** The resolution order as the specification words it *)

Module Spec.

(** The candidate keys of a column in the order label, canonical key,
    short alias (two columns have no short alias in the program). *)
Definition candidate_keys (c : column) : list string :=
  match rule_of c with
  | Cascade3 l k s _ => [l; k; s]
  | Cascade2 l k _ => [l; k]
  | Presence l k => [l; k]
  end.

(** Empty string for text, empty sequence for sequences, null for
    numbers. *)
Definition default_of (c : column) : value :=
  if is_sequence_column c then VList []
  else match column_affinity c with
       | INTEGER => VNone
       | TEXT => VStr ""
       end.

(** First non-empty wins. *)
Fixpoint first_non_empty (empty : value -> bool) (candidates : list value)
  (default : value) : value :=
  match candidates with
  | [] => default
  | v :: rest => if empty v then first_non_empty empty rest default else v
  end.

Definition resolve (empty : value -> bool) (d : dict) (c : column) : value :=
  first_non_empty empty (map (get d) (candidate_keys c)) (default_of c).

(** The value stored: a sequence is stored as its JSON text. *)
Definition stored (empty : value -> bool) (d : dict) (c : column) : value :=
  if is_sequence_column c then VStr (json_dumps (resolve empty d c))
  else resolve empty d c.

(** Two readings of "empty": what Python calls false, and the same but
    with the number 0 counted as a value. *)
Definition falsy (v : value) : bool := negb (truthy v).

Definition falsy_but_zero (v : value) : bool :=
  match v with
  | VInt _ => false
  | _ => negb (truthy v)
  end.

End Spec.

(** A dictionary without a company name under any alias. *)
Definition nameless (d : dict) : Prop :=
  truthy (get d "Company Name") = false
  /\ truthy (get d "company_name") = false
  /\ truthy (get d "name") = false.

(** The candidates a batch accepts. *)
Definition accepted (v : value) : bool :=
  match v with
  | VDict d => truthy (Api.candidate_name d)
  | _ => false
  end.

(** ** Well-formed values and the fuel a text needs *)

Fixpoint keys_unique (ks : list string) : bool :=
  match ks with
  | [] => true
  | k :: rest => negb (existsb (String.eqb k) rest) && keys_unique rest
  end.

(** A Python value of the fragment: no dictionary repeats a key. *)
Fixpoint well_formed (v : value) : bool :=
  match v with
  | VList l => forallb well_formed l
  | VDict d =>
      keys_unique (map fst d) && forallb (fun kv => well_formed (snd kv)) d
  | _ => true
  end.

(** The items of a list and the members of a dictionary as [json.dumps]
    writes them between the brackets. *)
Fixpoint dumps_items (l : list value) : string :=
  match l with
  | [] => EmptyString
  | x :: rest =>
      match rest with
      | [] => json_dumps x
      | _ :: _ => json_dumps x ++ ", " ++ dumps_items rest
      end
  end.

Fixpoint dumps_members (d : list (string * value)) : string :=
  match d with
  | [] => EmptyString
  | (k, x) :: rest =>
      let one := encode_basestring_ascii k ++ ": " ++ json_dumps x in
      match rest with
      | [] => one
      | _ :: _ => one ++ ", " ++ dumps_members rest
      end
  end.

(** Fuel that [scan_once] needs on the text of a value. *)
Fixpoint cost (v : value) : nat :=
  match v with
  | VList l => 2 + fold_right (fun x n => S (cost x + n)) 0%nat l
  | VDict d => 2 + fold_right (fun kv n => S (cost (snd kv) + n)) 0%nat d
  | _ => 1
  end.

Definition cost_items (l : list value) : nat :=
  fold_right (fun x n => S (cost x + n)) 0%nat l.

Definition cost_members (d : list (string * value)) : nat :=
  fold_right (fun kv n => S (cost (snd kv) + n)) 0%nat d.

(** The text of the members of a non-empty dictionary after its first
    quote, up to the closing brace and what follows it. *)
Fixpoint members_text (d : list (string * value)) (rest : string) : string :=
  match d with
  | [] => EmptyString
  | (k, x) :: d' =>
      escape_chars k ++
      String dquote
        (String ":" (String " "
           (json_dumps x ++
            match d' with
            | [] => String "}" rest
            | _ :: _ => String "," (String " " (String dquote (members_text d' rest)))
            end)))
  end.

(** The sequence a candidate record gives for a sequence column: the
    value under the label key, else the value under the canonical key,
    else the empty sequence. *)
Definition original_sequence (d : dict) (c : column) : value :=
  match rule_of c with
  | Presence l k =>
      match lookup d l with
      | Some v => v
      | None => last_resort d k (VList [])
      end
  | _ => VList []
  end.

(** ** Sample data *)

(** An engine that keeps a text as it is in an INTEGER column, reads 0
    in a text, and stamps a row with its id. *)
Definition sample_engine : engine :=
  {| text_in_integer_column := fun s => SText s;
     numeric_of_text := fun _ => 0%Q;
     timestamp_of := fun id => id |}.

(** A working directory that holds one file. *)
Definition single_file (name text : string) : filesystem :=
  {| path_exists := fun p => (p =? name)%string;
     read_text := fun p => if (p =? name)%string then Some text else None;
     listdir := [name] |}.

Definition empty_directory : filesystem :=
  {| path_exists := fun _ => false;
     read_text := fun _ => None;
     listdir := [] |}.

Definition acme : dict :=
  [("Company Name", VStr "Acme");
   ("Founders", VList [VStr "A"; VStr "B"]);
   ("founding_year", VInt 2021);
   ("industry", VStr "FinTech");
   ("Funding Rounds",
    VList [VDict [("Amount", VStr "$5 million"); ("Date", VStr "May 2021")]])].

Definition beta : dict := [("name", VStr "Beta Inc"); ("founded", VInt 2019)].

Definition anonymous : dict := [("website", VStr "https://example.org")].

(** The text [[{"company_name": "Acme"}]]. *)
Definition canonical_only_text : string :=
  json_dumps (VList [VDict [("company_name", VStr "Acme")]]).

(** The text [[{"name": "A"}]]. *)
Definition one_record_text : string :=
  json_dumps (VList [VDict [("name", VStr "A")]]).

Definition logged_text : string := "[INFO] results: " ++ one_record_text ++ " done".

Definition two_arrays_text : string := "first [1] then [2] end".

Definition prose_text : string := "Results: " ++ one_record_text ++ " (end of run)".

Definition two_candidates_text : string :=
  json_dumps (VList [VDict acme; VDict anonymous]).

(** The store after [acme] and [beta] were saved through the endpoint. *)
Definition sample_store : store :=
  fst (Api.save_candidates sample_engine empty_store [VDict acme; VDict beta]).

(** What a listing shows of a column. *)
Definition listed (c : column) (r : response Api.listing) : option (list value) :=
  match r with
  | OK body => Some (map (fun s => s_field s c) (Api.startups body))
  | HTTPException _ _ => None
  end.

Definition gamma : dict := [("name", VStr "Gamma"); ("industry", VNone)].

(** The store after [gamma], whose industry is null, was saved. *)
Definition null_industry_store : store :=
  fst (Api.save_candidates sample_engine empty_store [VDict gamma]).

(** ** Notions used by the statements *)

(** An accepted record whose parameters can all be bound is inserted. *)
Definition insertable (d : dict) : bool :=
  forallb (fun c => bindable (Api.insert_args d c)) columns.

Fixpoint has_char (c : ascii) (s : string) : bool :=
  match s with
  | EmptyString => false
  | String x r => (code x =? code c)%N || has_char c r
  end.

(** The records a parsed value yields. *)
Definition records_of (r : load_result) : list value :=
  match r with
  | Loaded (VList data) => data
  | Loaded (VDict data) => [VDict data]
  | _ => []
  end.

Definition newer_first (a b : row) : Prop := created_at b <= created_at a.

(** What an applied filter asks of a record: the industry given occurs,
    case-insensitively, in its [industry_sector]; its [founding_year] is
    the year given.  A filter is applied when it is given and truthy. *)
Definition industry_applies (industry : option string) (s : startup) : Prop :=
  forall i, industry = Some i -> i <> "" ->
    exists sector before after,
      s_field s industry_sector = VStr sector
      /\ lower sector = (before ++ lower i ++ after)%string.

Definition year_applies (year : option Z) (s : startup) : Prop :=
  forall y, year = Some y -> y <> 0 -> s_field s founding_year = VInt y.

Definition industry_keep (industry : option string) (s : startup) : bool :=
  match industry with
  | Some i =>
      if (i =? "")%string then true
      else match Api.industry_matches i s with
           | Some b => b
           | None => false
           end
  | None => true
  end.

Definition year_keep (year : option Z) (s : startup) : bool :=
  match year with
  | Some y => if y =? 0 then true else Api.year_matches y s
  | None => true
  end.

(** What may follow a number in a JSON text without changing it. *)
Definition ends_number (rest : string) : Prop :=
  starts_with_digit rest = false /\ float_tail rest = false.

(** The first character of a JSON text written by [json.dumps]: not a
    blank, and neither of the closing brackets. *)
Definition opens_value (s : string) : Prop :=
  match s with
  | EmptyString => False
  | String c _ => is_json_ws c = false /\ code c <> 93%N /\ code c <> 125%N
  end.

(** A value reads back from its text with enough fuel, whatever
    follows. *)
Definition reads_back (x : value) : Prop :=
  forall (f : nat) (rest : string),
    (cost x <= f)%nat -> ends_number rest ->
    scan_once f (json_dumps x ++ rest) = Some (x, rest).

(** A row whose cells can all be read back. *)
Definition readable (loads : string -> load_result) (r : row) : Prop :=
  Api.startup_of_row loads r <> None.

(** ** Notions used by the further properties *)

(** [st'] is [st] with the rows [added] appended under the next ids. *)
Definition appended (st st' : store) (added : list row) : Prop :=
  rows st' = (rows st ++ added)%list
  /\ last_id st' = last_id st + Z.of_nat (List.length added)
  /\ map row_id added
     = map (fun i => last_id st + Z.of_nat i) (seq 1 (List.length added)).

(** The ids of the table grow with the rows and stay below the sequence. *)
Definition ids_in_order (st : store) : Prop :=
  StronglySorted Z.lt (map row_id (rows st))
  /\ Forall (fun r => row_id r <= last_id st) (rows st).

(** The count of saved records an answer of the endpoint reports. *)
Definition reported_saved (r : response Api.ingest_report) : Z :=
  match r with
  | OK (Api.FileReport _ _ saved) => saved
  | OK (Api.AllReport _ total _) => total
  | HTTPException _ _ => 0
  end.

(** The count of saved records the command line reports. *)
Definition outcome_saved (o : ParseResultsToDb.outcome) : Z :=
  match o with
  | ParseResultsToDb.NoResultFilesFound => 0
  | ParseResultsToDb.TotalSaved n => n
  | ParseResultsToDb.FileSaved n => n
  end.

(** Every row carries a company name that is a non-empty text. *)
Definition named (r : row) : Prop :=
  exists s, cell r company_name = SText s /\ s <> "".

(** The label key of a column. *)
Definition label_of (c : column) : string :=
  match rule_of c with
  | Cascade3 l _ _ _ => l
  | Cascade2 l _ _ => l
  | Presence l _ => l
  end.

(** The record gives the column under its label key: a truthy value for
    a text or a number, the key itself for a sequence. *)
Definition label_given (d : dict) (c : column) : bool :=
  if is_sequence_column c then contains d (label_of c)
  else truthy (get d (label_of c)).

Fixpoint all_space (s : string) : bool :=
  match s with
  | EmptyString => true
  | String c r => is_space c && all_space r
  end.

Fixpoint sum_Z (l : list Z) : Z :=
  match l with
  | [] => 0
  | x :: r => x + sum_Z r
  end.

(** A working directory with a result file, a batch file and a file
    that no pattern matches. *)
Definition result_directory : filesystem :=
  {| path_exists := fun p =>
       existsb (String.eqb p)
         ["research_results.json"; "batch_results_1.json"; "notes.txt"];
     read_text := fun p =>
       if (p =? "research_results.json")%string then Some two_candidates_text
       else if (p =? "batch_results_1.json")%string then Some one_record_text
       else if (p =? "notes.txt")%string then Some prose_text
       else None;
     listdir := ["notes.txt"; "research_results.json"; "batch_results_1.json"] |}.

(** The numbers [sqlite3] binds as an INTEGER, and so the ids a request
    can ask for. *)
Definition int64 (n : Z) : Prop := - 2 ^ 63 <= n < 2 ^ 63.

(** Decidable forms of [ids_in_order] and [named]. *)
Fixpoint increasing (l : list Z) : bool :=
  match l with
  | [] => true
  | x :: rest => forallb (Z.ltb x) rest && increasing rest
  end.

Definition has_name (r : row) : bool :=
  match cell r company_name with
  | SText s => negb (s =? "")%string
  | _ => false
  end.

(** The store after a row whose [founders] cell is not a JSON text was
    added to [sample_store]. *)
Definition corrupt_row : row :=
  {| row_id := 3;
     cell := fun c => match c with
                      | company_name => SText "Delta"
                      | founders => SText "Ann and Bob"
                      | _ => SNull
                      end;
     created_at := 3 |}.

Definition corrupt_store : store :=
  {| rows := (rows sample_store ++ [corrupt_row])%list; last_id := 3 |}.

(** A file of white space only: a blank, a line feed and a tab. *)
Definition blank_text : string :=
  String " " (String "010"%char (String "009"%char EmptyString)).

(** The text of an array whose only item has no company name. *)
Definition anonymous_text : string := json_dumps (VList [VDict anonymous]).

(** The first record of the listing of [sample_store]. *)
Definition first_listed : startup :=
  Api.row_startup json_loads (hd corrupt_row (rows sample_store)).

(** ** [query_startup_db.py] *)

Module QueryStartupDb.

Section Environment.

Variable loads : string -> load_result.

(** The keys of the dictionary [get_all_startups] builds for a row,
    between ['id'] and ['created_at']. *)
Definition key_of (c : column) : string :=
  match c with
  | company_name => "Company Name"
  | website_url => "Website URL"
  | founding_year => "Founding Year"
  | founders => "Founders"
  | business_model => "Business Model"
  | industry_sector => "Industry Sector"
  | funding_rounds => "Funding Rounds"
  | total_capital_raised => "Total Capital Raised to Date"
  | current_revenue_estimates => "Current Revenue Estimates"
  | employee_count => "Employee Count"
  | customer_user_base_size => "Customer/User Base Size"
  | key_partnerships => "Key Partnerships"
  | major_competitors => "Major Competitors"
  | recent_news_developments => "Recent News or Developments"
  end.

(** [get_all_startups]: the rows newest first, each read as in
    [api.py]; [None] when [json.loads] raises, which
    [except sqlite3.Error] does not catch. *)
Definition get_all_startups (st : store) : option (list startup) :=
  Api.startups_of_rows loads (order_by_created_at_desc (rows st)).

(** [get_startup_count]: SELECT COUNT over the table. *)
Definition get_startup_count (st : store) : Z :=
  Z.of_nat (List.length (rows st)).

(** [{k: v for k, v in startup.items() if k not in ['id', 'created_at']}] *)
Definition clean_startup (s : startup) : dict :=
  map (fun c => (key_of c, s_field s c)) columns.

Inductive export_result : Type :=
| ExportRaised
| NoStartupsToExport
| Exported (filename : string) (clean_startups : list dict).

(** [export_to_json] at the time whose [strftime] text is [timestamp]:
    the name of the file and the list handed to [json.dump]. *)
Definition export_to_json (timestamp : string) (st : store) : export_result :=
  match get_all_startups st with
  | None => ExportRaised
  | Some [] => NoStartupsToExport
  | Some (s :: rest) =>
      Exported ("startup_export_" ++ timestamp ++ ".json")
        (map clean_startup (s :: rest))
  end.

End Environment.

End QueryStartupDb.

(** The cell a column gets when the exported dictionary of a row is
    ingested again through [save_startup_to_db] of [api.py]. *)
Definition reimported (E : engine) (loads : string -> load_result) (r : row)
  (c : column) : sqlval :=
  stored_cell E
    (Api.insert_args (QueryStartupDb.clean_startup (Api.row_startup loads r))) c.

(** The first row of [sample_store], and what [export_to_json] hands to
    [json.dump] for [sample_store]. *)
Definition first_row : row := hd corrupt_row (rows sample_store).

Definition sample_export : list dict :=
  map QueryStartupDb.clean_startup
    (map (Api.row_startup json_loads)
       (order_by_created_at_desc (rows sample_store))).

(** The working directory after a research run at the time
    [20240101_120000]: the result and its backup hold the same text. *)
Definition run_directory : filesystem :=
  {| path_exists := fun p =>
       existsb (String.eqb p)
         ["research_results.json"; "research_results_backup_20240101_120000.json"];
     read_text := fun p =>
       if existsb (String.eqb p)
            ["research_results.json"; "research_results_backup_20240101_120000.json"]
       then Some two_candidates_text else None;
     listdir :=
       ["research_results_backup_20240101_120000.json"; "research_results.json"] |}.

(** A row passes the filters of a listing request. *)
Definition passes (loads : string -> load_result) (industry : option string)
  (year : option Z) (r : row) : bool :=
  industry_keep industry (Api.row_startup loads r)
  && year_keep year (Api.row_startup loads r).

(* ================================================================== *)
(** * Part II. Properties *)
(* ================================================================== *)

(** ** Field resolution *)

Lemma api_insert_args_table (d : dict) (c : column) :
  Api.insert_args d c = apply_rule d (rule_of c).
Proof. destruct c; reflexivity. Qed.

Lemma parse_insert_args_table (d : dict) (c : column) :
  ParseResultsToDb.insert_args d c = apply_rule d (rule_of c).
Proof.
  destruct c; cbn [ParseResultsToDb.insert_args rule_of apply_rule];
    unfold py_or, get_or, last_resort, get, get_or;
    repeat match goal with
           | |- context [lookup d ?k] => destruct (lookup d k)
           end; reflexivity.
Qed.

(** C1 (as amended).  In [api.py] and in [parse_results_to_db.py] every
    column follows its rule of the alias table.  A text or numeric
    column takes the value under the label key when it is truthy, else
    the value under the canonical key when it is truthy, else whatever
    is stored under the short alias key (an empty value such as 0, the
    empty string or null is kept), and the default only when that key is
    absent; [business_model] has no short alias and its canonical key
    plays the last role.  A sequence column takes the value under the
    label key when the key is present (even if the value is empty), else
    the value under the canonical key when present, else the empty
    sequence, and stores its JSON text. *)
Theorem resolution_follows_alias_table (d : dict) (c : column) :
  Api.insert_args d c = apply_rule d (rule_of c)
  /\ ParseResultsToDb.insert_args d c = apply_rule d (rule_of c).
Proof.
  split; [apply api_insert_args_table | apply parse_insert_args_table].
Qed.

(** C1 as stated fails.  A sequence column does not fall through an
    empty value under its label key; and a numeric 0 is neither handled
    as a value (under the label key it is skipped) nor as an empty
    candidate (under the short alias it is stored instead of null). *)
Lemma resolution_first_non_empty_fails :
  let d1 := [("Founders", VList []); ("founders", VList [VStr "A"])] in
  let d2 := [("Founding Year", VInt 0)] in
  let d3 := [("founded", VInt 0)] in
  (Api.insert_args d1 founders = VStr "[]"
   /\ Spec.stored Spec.falsy d1 founders = VStr (json_dumps (VList [VStr "A"]))
   /\ Api.insert_args d1 founders <> Spec.stored Spec.falsy d1 founders
   /\ Api.insert_args d1 founders <> Spec.stored Spec.falsy_but_zero d1 founders)
  /\ (Api.insert_args d2 founding_year = VNone
      /\ Spec.stored Spec.falsy_but_zero d2 founding_year = VInt 0)
  /\ (Api.insert_args d3 founding_year = VInt 0
      /\ Spec.stored Spec.falsy d3 founding_year = VNone).
Proof.
  cbv zeta. repeat split; try reflexivity; vm_compute; discriminate.
Qed.

(** Where the code and the worded order agree: on a three-key column
    whose short alias key is absent or holds a truthy value. *)
Lemma cascade_agrees_with_spec (d : dict) (c : column) l k s default :
  rule_of c = Cascade3 l k s default ->
  (forall v, lookup d s = Some v -> truthy v = true) ->
  Api.insert_args d c = Spec.stored Spec.falsy d c.
Proof.
  intros Hr Hs. rewrite api_insert_args_table.
  unfold Spec.stored, Spec.resolve, Spec.candidate_keys, Spec.default_of.
  destruct c; cbn in Hr; try discriminate; injection Hr as <- <- <- <-;
    cbn -[get truthy lookup]; unfold Spec.falsy, last_resort;
    repeat match goal with
           | |- context [truthy (get d ?x)] =>
               destruct (truthy (get d x)) eqn:?; cbn -[get truthy lookup]
           end; try reflexivity; try congruence;
    match goal with
    | H : truthy (get d ?x) = false |- _ =>
        unfold get, get_or in H;
        destruct (lookup d x) eqn:Hl; [rewrite (Hs _ eq_refl) in H; discriminate | reflexivity]
    | H : truthy (get d ?x) = true |- _ =>
        unfold get, get_or in H |- *;
        destruct (lookup d x) eqn:Hl; [reflexivity | discriminate]
    end.
Qed.

(** ** Rejection of candidates without a company name *)

Section Rejection.

Variable E : engine.

Lemma nameless_candidate_name (d : dict) :
  nameless d -> truthy (Api.candidate_name d) = false.
Proof.
  intros (Hl & Hc & Hs). unfold Api.candidate_name, py_or.
  rewrite Hl, Hc. unfold get, get_or in Hs |- *.
  destruct (lookup d "name"); [exact Hs | reflexivity].
Qed.

Lemma api_save_candidate_nameless (acc : store * Z) (d : dict) :
  nameless d -> Api.save_candidate E acc (VDict d) = acc.
Proof.
  intros H. destruct acc as [st n]. unfold Api.save_candidate.
  now rewrite (nameless_candidate_name d H).
Qed.

Lemma parse_save_item_nameless (acc : store * Z) (d : dict) :
  nameless d -> ParseResultsToDb.save_item E acc (VDict d) = acc.
Proof.
  intros H. destruct acc as [st n]. unfold ParseResultsToDb.save_item.
  change (py_or (get d "Company Name")
            (py_or (get d "company_name") (get_or d "name" (VStr ""))))
    with (Api.candidate_name d).
  now rewrite (nameless_candidate_name d H).
Qed.

Lemma parse_save_startups_fold (st : store) (l : list value) :
  ParseResultsToDb.save_startups_to_db E st l
  = fold_left (ParseResultsToDb.save_item E) l (st, 0).
Proof. destruct l; reflexivity. Qed.

(** C3.  A candidate whose company name is empty under the label, the
    canonical key and the short alias is rejected: the turn of the loop
    that meets it inserts no row and leaves the count of saved records
    as it was, and the batch goes on as if the candidate were not
    there, in the endpoint of [api.py] and in [save_startups_to_db] of
    [parse_results_to_db.py]. *)
Theorem nameless_candidate_skipped (st : store) (n : Z) (d : dict)
  (before after : list value) :
  nameless d ->
  Api.save_candidate E (st, n) (VDict d) = (st, n)
  /\ Api.save_candidates E st (before ++ VDict d :: after)
     = Api.save_candidates E st (before ++ after)
  /\ ParseResultsToDb.save_startups_to_db E st (before ++ VDict d :: after)
     = ParseResultsToDb.save_startups_to_db E st (before ++ after).
Proof.
  intros H. split; [apply api_save_candidate_nameless; exact H | split].
  - unfold Api.save_candidates. rewrite !fold_left_app. cbn [fold_left].
    now rewrite api_save_candidate_nameless.
  - rewrite !parse_save_startups_fold, !fold_left_app. cbn [fold_left].
    now rewrite parse_save_item_nameless.
Qed.

End Rejection.

(** ** The ingestion endpoint *)

Section Ingestion.

Variable E : engine.
Variable loads : string -> load_result.

(** C7 (as amended).  When no file named [all] exists and the three
    patterns match no file, the endpoint called with [all] answers 404
    "No result files found" and leaves the store as it was; the command
    line of [parse_results_to_db.py] called with [all] stops with "No
    result files found" and saves nothing. *)
Theorem all_without_result_files (fs : filesystem) (st : store) :
  path_exists fs "all" = false ->
  all_result_files fs = [] ->
  Api.save_from_file E loads fs st "all"
  = (st, HTTPException 404 "No result files found")
  /\ ParseResultsToDb.main E loads fs st "all" = (st, ParseResultsToDb.NoResultFilesFound).
Proof.
  intros Hex Hnone. unfold Api.save_from_file, ParseResultsToDb.main.
  rewrite Hex, Hnone. split; reflexivity.
Qed.

(** The single-file branch of the endpoint. *)
Lemma save_from_existing_file (fs : filesystem) (st : store) (filename : string) :
  path_exists fs filename = true ->
  Api.save_from_file E loads fs st filename
  = match Api.parse_result_file loads fs filename with
    | [] => (st, HTTPException 400 ("No valid startup data found in " ++ filename))
    | _ :: _ =>
        (fst (Api.save_candidates E st (Api.parse_result_file loads fs filename)),
         OK (Api.FileReport ("Successfully processed " ++ filename)
               (Z.of_nat (List.length (Api.parse_result_file loads fs filename)))
               (snd (Api.save_candidates E st (Api.parse_result_file loads fs filename)))))
    end.
Proof.
  intros Hex. unfold Api.save_from_file. rewrite Hex. cbn [negb].
  destruct (Api.parse_result_file loads fs filename) as [|x l]; [reflexivity|].
  now destruct (Api.save_candidates E st (x :: l)).
Qed.

Lemma parse_result_file_depends_on_text (fs fs' : filesystem) (filename : string) :
  read_text fs' filename = read_text fs filename ->
  Api.parse_result_file loads fs' filename = Api.parse_result_file loads fs filename.
Proof. intros H. unfold Api.parse_result_file. now rewrite H. Qed.

(** C10.  When a file named [all] exists, the endpoint called with
    [all] parses it as one ordinary source file and expands no pattern.
    The file is read like a file of any other name: wherever a file
    [filename] exists with the text of [all], the endpoint called with
    [filename] gives the outcome stated here with [filename] in place
    of [all] - the records of [parse_result_file] go through the loop
    of the single file, the table is the table that loop leaves, and
    the answer is the 400 of a file without records or the report of
    that file with its counts of records found and saved.  So the
    outcome is the same in every file system that has this file with
    this text, whatever other files the patterns would match, and the
    answer is never the report of a pattern expansion. *)
Theorem existing_file_named_all (fs : filesystem) (st : store) :
  path_exists fs "all" = true ->
  (forall (fs' : filesystem) (filename : string),
      path_exists fs' filename = true ->
      read_text fs' filename = read_text fs "all" ->
      Api.save_from_file E loads fs' st filename
      = match Api.parse_result_file loads fs "all" with
        | [] =>
            (st, HTTPException 400 ("No valid startup data found in " ++ filename))
        | _ :: _ =>
            (fst (Api.save_candidates E st (Api.parse_result_file loads fs "all")),
             OK (Api.FileReport ("Successfully processed " ++ filename)
                   (Z.of_nat (List.length (Api.parse_result_file loads fs "all")))
                   (snd (Api.save_candidates E st
                           (Api.parse_result_file loads fs "all")))))
        end)
  /\ (forall fs' : filesystem,
        path_exists fs' "all" = true ->
        read_text fs' "all" = read_text fs "all" ->
        Api.save_from_file E loads fs' st "all" = Api.save_from_file E loads fs st "all")
  /\ (snd (Api.save_from_file E loads fs st "all")
      = HTTPException 400 "No valid startup data found in all"
      \/ exists saved : Z,
          snd (Api.save_from_file E loads fs st "all")
          = OK (Api.FileReport "Successfully processed all"
                  (Z.of_nat (List.length (Api.parse_result_file loads fs "all")))
                  saved))
  /\ (forall (message : string) (total : Z) (files : list (string * Z)),
        snd (Api.save_from_file E loads fs st "all")
        <> OK (Api.AllReport message total files)).
Proof.
  intros Hex.
  assert (Hany : forall (fs' : filesystem) (filename : string),
             path_exists fs' filename = true ->
             read_text fs' filename = read_text fs "all" ->
             Api.save_from_file E loads fs' st filename
             = match Api.parse_result_file loads fs "all" with
               | [] =>
                   (st, HTTPException 400
                          ("No valid startup data found in " ++ filename))
               | _ :: _ =>
                   (fst (Api.save_candidates E st
                           (Api.parse_result_file loads fs "all")),
                    OK (Api.FileReport ("Successfully processed " ++ filename)
                          (Z.of_nat (List.length
                                       (Api.parse_result_file loads fs "all")))
                          (snd (Api.save_candidates E st
                                  (Api.parse_result_file loads fs "all")))))
               end).
  { intros fs' filename Hex' Htext.
    rewrite (save_from_existing_file fs' st filename Hex').
    assert (Hp : Api.parse_result_file loads fs' filename
                 = Api.parse_result_file loads fs "all")
      by (unfold Api.parse_result_file; now rewrite Htext).
    now rewrite Hp. }
  split; [exact Hany|]. split; [|split].
  - intros fs' Hex' Htext.
    now rewrite (Hany fs' "all" Hex' Htext), (Hany fs "all" Hex eq_refl).
  - rewrite (Hany fs "all" Hex eq_refl).
    destruct (Api.parse_result_file loads fs "all") as [|x l].
    + now left.
    + right. eexists. reflexivity.
  - intros message total files. rewrite (Hany fs "all" Hex eq_refl).
    destruct (Api.parse_result_file loads fs "all") as [|x l]; discriminate.
Qed.

Lemma truthy_adapt_text (v : value) :
  truthy v = true -> bindable v = true ->
  exists s, match adapt v with
            | Some x => apply_affinity E TEXT x
            | None => SNull
            end = SText s.
Proof.
  unfold bindable. intros Ht Hb.
  destruct (adapt v) as [x|] eqn:Ha; [|discriminate Hb].
  destruct v as [|b|n|s|l|d]; cbn in Ha, Ht; try discriminate.
  - injection Ha as <-. eexists; reflexivity.
  - destruct ((_ <=? n) && (n <? _)) in Ha; [|discriminate Ha].
    injection Ha as <-. eexists; reflexivity.
  - injection Ha as <-. eexists; reflexivity.
Qed.

Lemma accepted_insert_succeeds (st : store) (d : dict) :
  truthy (Api.candidate_name d) = true ->
  insertable d = true ->
  exists st', Api.save_startup_to_db E st d = (st', true)
              /\ List.length (rows st') = S (List.length (rows st)).
Proof.
  intros Hname Hins. unfold Api.save_startup_to_db, execute_insert.
  unfold insertable in Hins. rewrite Hins.
  assert (Hb : bindable (Api.insert_args d company_name) = true).
  { rewrite forallb_forall in Hins. apply Hins. cbn. now left. }
  destruct (truthy_adapt_text (Api.insert_args d company_name) Hname Hb) as [s Hs].
  unfold stored_cell at 1. change (column_affinity company_name) with TEXT.
  rewrite Hs. eexists. split; [reflexivity|].
  cbn. rewrite length_app. cbn. lia.
Qed.

Lemma save_candidates_count (l : list value) :
  Forall (fun v => forall d, v = VDict d ->
                   truthy (Api.candidate_name d) = true -> insertable d = true) l ->
  forall (st : store) (n : Z),
    snd (fold_left (Api.save_candidate E) l (st, n))
    = n + Z.of_nat (List.length (filter accepted l)).
Proof.
  induction 1 as [|v l Hv _ IH]; intros st n; cbn [fold_left filter].
  - cbn. lia.
  - destruct v as [| | | | |d]; cbn [Api.save_candidate accepted]; try apply IH.
    destruct (truthy (Api.candidate_name d)) eqn:Hname; [|apply IH].
    destruct (accepted_insert_succeeds st d Hname (Hv d eq_refl Hname))
      as (st' & Hsave & _).
    rewrite Hsave, IH. cbn [List.length]. lia.
Qed.

(** C6 (as amended).  A file that exists and whose text parses as a JSON
    array of [N >= 1] items, [M] of which are objects with a truthy
    company name, all of them insertable: the endpoint reports
    [startups_found = N] and [startups_saved = M]. *)
Theorem single_file_report (fs : filesystem) (st : store) (filename text : string)
  (items : list value) :
  path_exists fs filename = true ->
  read_text fs filename = Some text ->
  strip text <> "" ->
  loads (strip text) = Loaded (VList items) ->
  items <> [] ->
  Forall (fun v => forall d, v = VDict d ->
                   truthy (Api.candidate_name d) = true -> insertable d = true) items ->
  snd (Api.save_from_file E loads fs st filename)
  = OK (Api.FileReport ("Successfully processed " ++ filename)
          (Z.of_nat (List.length items))
          (Z.of_nat (List.length (filter accepted items)))).
Proof.
  intros Hex Hread Hne Hload Hitems Hok.
  assert (Hparse : Api.parse_result_file loads fs filename = items).
  { unfold Api.parse_result_file, Api.load_with_recovery. rewrite Hread.
    destruct (String.eqb_spec (strip text) ""); [contradiction|].
    now rewrite Hload. }
  rewrite (save_from_existing_file fs st filename Hex), Hparse.
  destruct items as [|x l]; [contradiction|].
  cbn [snd]. unfold Api.save_candidates.
  now rewrite (save_candidates_count (x :: l) Hok st 0).
Qed.

End Ingestion.

(** ** Statistics *)

Section Statistics.

Variable E : engine.

Lemma sqlval_eqb_eq (a b : sqlval) : sqlval_eqb a b = true <-> a = b.
Proof.
  destruct a, b; cbn; split; try discriminate; try reflexivity.
  - intros H. apply Z.eqb_eq in H. now subst.
  - intros [= ->]. apply Z.eqb_refl.
  - intros H. apply String.eqb_eq in H. now subst.
  - intros [= ->]. apply String.eqb_refl.
Qed.

Lemma existsb_sqlval_eqb (v : sqlval) (l : list sqlval) :
  existsb (sqlval_eqb v) l = true <-> In v l.
Proof.
  rewrite existsb_exists. split.
  - intros (x & Hin & Heq). apply sqlval_eqb_eq in Heq. now subst.
  - intros Hin. exists v. split; [exact Hin | now apply sqlval_eqb_eq].
Qed.

Lemma distinct_In (l seen : list sqlval) (v : sqlval) :
  In v (Api.distinct seen l) <-> In v l /\ ~ In v seen.
Proof.
  revert seen. induction l as [|x l IH]; intros seen; cbn.
  - tauto.
  - destruct (existsb (sqlval_eqb x) seen) eqn:Hx.
    + apply existsb_sqlval_eqb in Hx. rewrite IH. split.
      * tauto.
      * intros [[-> | Hin] Hns]; tauto.
    + assert (Hx' : ~ In x seen).
      { intros Hin. apply existsb_sqlval_eqb in Hin. congruence. }
      cbn. rewrite IH. cbn. split.
      * intros [-> | (Hin & Hns)]; [tauto|]. split; [tauto|]. tauto.
      * intros [[-> | Hin] Hns]; [tauto|].
        destruct (sqlval_eqb x v) eqn:Hxv.
        -- apply sqlval_eqb_eq in Hxv. tauto.
        -- right. split; [exact Hin|]. intros [-> | H']; [|tauto].
           assert (sqlval_eqb v v = true) by now apply sqlval_eqb_eq.
           congruence.
Qed.

Lemma distinct_NoDup (l seen : list sqlval) : NoDup (Api.distinct seen l).
Proof.
  revert seen. induction l as [|x l IH]; intros seen; cbn.
  - constructor.
  - destruct (existsb (sqlval_eqb x) seen); [apply IH|].
    constructor; [|apply IH].
    rewrite distinct_In. cbn. tauto.
Qed.

Lemma py_of_sql_inj (a b : sqlval) : py_of_sql a = py_of_sql b -> a = b.
Proof. destruct a, b; cbn; congruence. Qed.

Lemma NoDup_map_py_of_sql (l : list sqlval) : NoDup l -> NoDup (map py_of_sql l).
Proof.
  induction 1 as [|x l Hx _ IH]; cbn; constructor; [|exact IH].
  rewrite in_map_iff. intros (y & Heq & Hin).
  apply py_of_sql_inj in Heq. now subst.
Qed.

Lemma funding_disclosed_iff (r : row) :
  Api.funding_disclosed r = true
  <-> cell r total_capital_raised <> SNull
      /\ cell r total_capital_raised <> SText ""
      /\ cell r total_capital_raised <> SText "Not disclosed".
Proof.
  unfold Api.funding_disclosed.
  destruct (cell r total_capital_raised) as [|n|s]; cbn.
  - split; [discriminate | intros (H & _); congruence].
  - split; [intros _; repeat split; discriminate | reflexivity].
  - destruct (String.eqb_spec s ""); cbn.
    + split; [discriminate | intros (_ & H & _); subst; congruence].
    + destruct (String.eqb_spec s "Not disclosed"); cbn.
      * split; [discriminate | intros (_ & _ & H); subst; congruence].
      * split; [intros _; repeat split; congruence | reflexivity].
Qed.

(** C9.  Over the empty store the statistics are: no startup, no
    industry, a null average founding year and no disclosed funding.
    Over any store, the count of disclosed funding is the number of
    rows whose [total_capital_raised] is not null, not empty and not
    "Not disclosed"; and the industries are, without repetition,
    exactly the [industry_sector] values of the rows that are neither
    null nor the empty string. *)
Theorem database_stats_spec :
  Api.get_database_stats E empty_store
  = {| Api.total_startups := 0; Api.industries := [];
       Api.avg_founding_year := None; Api.total_funding_disclosed := 0 |}
  /\ forall st : store,
      Api.total_funding_disclosed (Api.get_database_stats E st)
      = Z.of_nat (List.length (filter Api.funding_disclosed (rows st)))
      /\ (forall r, Api.funding_disclosed r = true
                    <-> cell r total_capital_raised <> SNull
                        /\ cell r total_capital_raised <> SText ""
                        /\ cell r total_capital_raised <> SText "Not disclosed")
      /\ NoDup (Api.industries (Api.get_database_stats E st))
      /\ (forall v, In v (Api.industries (Api.get_database_stats E st))
                    <-> v <> VNone /\ v <> VStr ""
                        /\ exists r, In r (rows st)
                                     /\ py_of_sql (cell r industry_sector) = v).
Proof.
  split; [reflexivity|]. intros st.
  split; [reflexivity|]. split; [apply funding_disclosed_iff|]. split.
  - cbn [Api.industries Api.get_database_stats].
    apply NoDup_map_py_of_sql, distinct_NoDup.
  - intros v. cbn [Api.industries Api.get_database_stats].
    rewrite in_map_iff. split.
    + intros (x & <- & Hin). apply distinct_In in Hin. destruct Hin as (Hin & _).
      apply filter_In in Hin. destruct Hin as (Hin & Hk).
      apply in_map_iff in Hin. destruct Hin as (r & <- & Hr).
      destruct (cell r industry_sector) as [|n|s] eqn:Hc; cbn in Hk; try discriminate.
      * split; [discriminate|]. split; [discriminate|]. exists r. now rewrite Hc.
      * destruct (String.eqb_spec s ""); [discriminate|].
        split; [discriminate|]. split; [intros [= ->]; contradiction|].
        exists r. now rewrite Hc.
    + intros (Hn & Hs & r & Hr & <-). exists (cell r industry_sector).
      split; [reflexivity|]. apply distinct_In. split; [|tauto].
      apply filter_In. split; [apply in_map_iff; now exists r|].
      destruct (cell r industry_sector) as [|n|s]; cbn in *; try congruence.
      destruct (String.eqb_spec s ""); [subst; congruence | reflexivity].
Qed.

End Statistics.

(** ** Recovery parsing *)

Lemma code_inj (a b : ascii) : code a = code b -> a = b.
Proof.
  unfold code. intros H.
  rewrite <- (ascii_N_embedding a), <- (ascii_N_embedding b). now rewrite H.
Qed.

Lemma code_eqb_eq (a b : ascii) : (code a =? code b)%N = true <-> a = b.
Proof.
  rewrite N.eqb_eq. split; [apply code_inj | now intros ->].
Qed.

Lemma prefix_char (c x : ascii) (r : string) :
  prefix (String c EmptyString) (String x r) = (code x =? code c)%N.
Proof.
  cbn. destruct (ascii_dec c x) as [->|Hne].
  - rewrite N.eqb_refl. now destruct r.
  - symmetry. apply not_true_iff_false. rewrite code_eqb_eq. congruence.
Qed.

Lemma append_assoc (a b c : string) : ((a ++ b) ++ c = a ++ (b ++ c))%string.
Proof. induction a as [|x a IH]; cbn; [reflexivity | now rewrite IH]. Qed.

Lemma length_append (a b : string) :
  String.length (a ++ b) = (String.length a + String.length b)%nat.
Proof. induction a as [|x a IH]; cbn; [reflexivity | now rewrite IH]. Qed.

Lemma find_from_first (c : ascii) (before rest : string) (i : Z) :
  has_char c before = false ->
  find_from (String c EmptyString) (before ++ String c rest) i
  = i + Z.of_nat (String.length before).
Proof.
  revert i. induction before as [|x before IH]; intros i Hno.
  - cbn [append find_from String.length]. rewrite prefix_char, N.eqb_refl. cbn. lia.
  - cbn [has_char] in Hno. apply orb_false_iff in Hno. destruct Hno as (Hx & Hno).
    cbn [append find_from]. rewrite prefix_char, Hx, (IH _ Hno).
    cbn [String.length]. lia.
Qed.

Lemma rfind_from_absent (c : ascii) (s : string) (i : Z) :
  has_char c s = false -> rfind_from (String c EmptyString) s i = -1.
Proof.
  revert i. induction s as [|x s IH]; intros i Hno; [reflexivity|].
  cbn [has_char] in Hno. apply orb_false_iff in Hno. destruct Hno as (Hx & Hno).
  cbn [rfind_from]. rewrite (IH _ Hno), prefix_char, Hx. reflexivity.
Qed.

Lemma rfind_from_last (c : ascii) (before after : string) (i : Z) :
  0 <= i ->
  has_char c after = false ->
  rfind_from (String c EmptyString) (before ++ String c after) i
  = i + Z.of_nat (String.length before).
Proof.
  revert i. induction before as [|x before IH]; intros i Hi Hno.
  - cbn [append rfind_from String.length].
    rewrite (rfind_from_absent c after (i + 1) Hno), prefix_char, N.eqb_refl.
    cbn. lia.
  - cbn [append rfind_from String.length]. rewrite IH by (lia || exact Hno).
    destruct (Z.eqb_spec (i + 1 + Z.of_nat (String.length before)) (-1)); lia.
Qed.

Lemma substring_middle (before mid after : string) :
  substring (String.length before) (String.length mid) (before ++ mid ++ after) = mid.
Proof.
  induction before as [|x before IH]; cbn [append String.length substring].
  - induction mid as [|y mid IHm]; cbn [append String.length substring].
    + now destruct after.
    + now rewrite IHm.
  - exact IH.
Qed.

Lemma lstrip_append (before : string) (b : ascii) (rest : string) :
  is_space b = false ->
  lstrip (before ++ String b rest) = (lstrip before ++ String b rest)%string.
Proof.
  intros Hb. induction before as [|x before IH]; cbn [append lstrip].
  - now rewrite Hb.
  - destruct (is_space x); [exact IH | reflexivity].
Qed.

Lemma rstrip_append (before : string) (b : ascii) (after : string) :
  is_space b = false ->
  rstrip (before ++ String b after) = (before ++ String b (rstrip after))%string.
Proof.
  intros Hb. induction before as [|x before IH]; cbn [append rstrip].
  - rewrite Hb. now destruct (rstrip after).
  - rewrite IH. now destruct before.
Qed.

Lemma has_char_lstrip (c : ascii) (s : string) :
  has_char c s = false -> has_char c (lstrip s) = false.
Proof.
  induction s as [|x s IH]; cbn [lstrip has_char]; [reflexivity|].
  intros H. destruct (is_space x); [|exact H].
  apply orb_false_iff in H. now apply IH.
Qed.

Lemma has_char_rstrip (c : ascii) (s : string) :
  has_char c s = false -> has_char c (rstrip s) = false.
Proof.
  induction s as [|x s IH]; cbn [rstrip has_char]; [reflexivity|].
  intros H. apply orb_false_iff in H. destruct H as (Hx & Hs).
  specialize (IH Hs). destruct (rstrip s) as [|y r].
  - destruct (is_space x); [reflexivity|]. cbn. now rewrite Hx.
  - cbn [has_char] in *. now rewrite Hx, IH.
Qed.

(** The text of an array between two blocks, once stripped. *)
Lemma strip_embedded_array (before mid after : string) :
  strip (before ++ String "[" (mid ++ String "]" after))
  = (lstrip before ++ String "[" (mid ++ String "]" (rstrip after)))%string.
Proof.
  unfold strip. rewrite lstrip_append by reflexivity.
  replace (lstrip before ++ String "[" (mid ++ String "]" after))%string
    with ((lstrip before ++ String "[" mid) ++ String "]" after)%string
    by (rewrite append_assoc; reflexivity).
  rewrite rstrip_append by reflexivity.
  rewrite append_assoc. reflexivity.
Qed.

Section Recovery.

Variable loads : string -> load_result.

Lemma parse_result_file_same (fs : filesystem) (filename : string) :
  ParseResultsToDb.parse_result_file loads fs filename
  = Api.parse_result_file loads fs filename.
Proof.
  unfold ParseResultsToDb.parse_result_file, Api.parse_result_file,
    Api.load_with_recovery.
  destruct (read_text fs filename) as [text|]; [|reflexivity].
  destruct (strip text =? "")%string; [reflexivity|].
  destruct (loads (strip text)); reflexivity.
Qed.

Lemma parse_after_decode_error (fs : filesystem) (filename text : string) :
  read_text fs filename = Some text ->
  loads (strip text) = JSONDecodeError ->
  Api.parse_result_file loads fs filename
  = if negb (find (strip text) "[" =? -1) && negb (rfind (strip text) "]" =? -1)
       && (find (strip text) "[" <? rfind (strip text) "]")
    then records_of (loads (slice (strip text) (find (strip text) "[")
                              (rfind (strip text) "]" + 1)))
    else [].
Proof.
  intros Hread Hfail. unfold Api.parse_result_file, Api.load_with_recovery.
  rewrite Hread, Hfail.
  destruct (String.eqb_spec (strip text) "") as [Hempty|_].
  - rewrite Hempty. reflexivity.
  - destruct (negb _ && negb _ && _); [|reflexivity].
    destruct (loads (slice _ _ _)) as [[]| |]; reflexivity.
Qed.

Lemma embedded_array_span (before mid after : string) :
  has_char "[" before = false ->
  has_char "]" after = false ->
  let content := (before ++ String "[" (mid ++ String "]" after))%string in
  find content "[" = Z.of_nat (String.length before)
  /\ rfind content "]" = Z.of_nat (String.length before) + 1 + Z.of_nat (String.length mid)
  /\ slice content (find content "[") (rfind content "]" + 1)
     = String "[" (mid ++ String "]" EmptyString).
Proof.
  intros Hb Ha content.
  assert (Hfind : find content "[" = Z.of_nat (String.length before)).
  { unfold find, content. rewrite find_from_first by exact Hb. lia. }
  assert (Hrfind : rfind content "]"
                   = Z.of_nat (String.length before) + 1 + Z.of_nat (String.length mid)).
  { unfold rfind, content.
    replace (before ++ String "[" (mid ++ String "]" after))%string
      with ((before ++ String "[" mid) ++ String "]" after)%string
      by (rewrite append_assoc; reflexivity).
    rewrite rfind_from_last by (lia || exact Ha).
    rewrite length_append. cbn [String.length]. lia. }
  split; [exact Hfind|]. split; [exact Hrfind|].
  unfold slice. rewrite Hfind, Hrfind, Nat2Z.id.
  replace (Z.to_nat (Z.of_nat (String.length before) + 1
                     + Z.of_nat (String.length mid) + 1
                     - Z.of_nat (String.length before)))
    with (String.length (String "[" (mid ++ String "]" EmptyString)))
    by (cbn [String.length]; rewrite length_append; cbn [String.length]; lia).
  unfold content.
  replace (before ++ String "[" (mid ++ String "]" after))%string
    with (before ++ String "[" (mid ++ String "]" EmptyString) ++ after)%string
    by (cbn [append]; rewrite append_assoc; reflexivity).
  apply substring_middle.
Qed.

(** C5 (as amended).  For a file whose stripped text fails strict JSON
    parsing: when the text has a [[] before a []], the records are those
    of the substring from the first [[] to the last []]; when the file
    is one block without [[], one array and one block without []], that
    substring is the array and its items are the records; and when the
    substring does not parse either, the file yields no record. *)
Theorem recovery_parsing (fs : filesystem) (filename text : string) :
  read_text fs filename = Some text ->
  loads (strip text) = JSONDecodeError ->
  (find (strip text) "[" <> -1 ->
   rfind (strip text) "]" <> -1 ->
   find (strip text) "[" < rfind (strip text) "]" ->
   Api.parse_result_file loads fs filename
   = records_of (loads (slice (strip text) (find (strip text) "[")
                          (rfind (strip text) "]" + 1))))
  /\ (forall (before mid after : string) (items : list value),
         text = (before ++ String "[" (mid ++ String "]" after))%string ->
         has_char "[" before = false ->
         has_char "]" after = false ->
         loads (String "[" (mid ++ String "]" EmptyString)) = Loaded (VList items) ->
         Api.parse_result_file loads fs filename = items)
  /\ ((forall v, loads (slice (strip text) (find (strip text) "[")
                          (rfind (strip text) "]" + 1)) <> Loaded v) ->
      Api.parse_result_file loads fs filename = []).
Proof.
  intros Hread Hfail.
  rewrite (parse_after_decode_error fs filename text Hread Hfail).
  split; [|split].
  - intros Hs He Hlt.
    destruct (Z.eqb_spec (find (strip text) "[") (-1)); [contradiction|].
    destruct (Z.eqb_spec (rfind (strip text) "]") (-1)); [contradiction|].
    destruct (Z.ltb_spec (find (strip text) "[") (rfind (strip text) "]")); [|lia].
    reflexivity.
  - intros before mid after items -> Hb Ha Hitems.
    rewrite strip_embedded_array.
    destruct (embedded_array_span (lstrip before) mid (rstrip after)
                (has_char_lstrip _ _ Hb) (has_char_rstrip _ _ Ha))
      as (Hfind & Hrfind & Hslice).
    cbv zeta in Hfind, Hrfind, Hslice. rewrite Hslice, Hitems, Hfind, Hrfind.
    destruct (Z.eqb_spec (Z.of_nat (String.length (lstrip before))) (-1)); [lia|].
    destruct (Z.eqb_spec (Z.of_nat (String.length (lstrip before)) + 1
                          + Z.of_nat (String.length mid)) (-1)); [lia|].
    destruct (Z.ltb_spec (Z.of_nat (String.length (lstrip before)))
                (Z.of_nat (String.length (lstrip before)) + 1
                 + Z.of_nat (String.length mid))); [reflexivity | lia].
  - intros Hnone. destruct (negb _ && negb _ && _); [|reflexivity].
    destruct (loads (slice _ _ _)) as [v| |] eqn:Hv; [|reflexivity|reflexivity].
    now destruct (Hnone v).
Qed.

End Recovery.

(** ** Listing *)

Lemma prefix_append (a s : string) :
  prefix a s = true <-> exists r, s = (a ++ r)%string.
Proof.
  revert s. induction a as [|x a IH]; intros s.
  - split; [intros _; now exists s | intros _; now destruct s].
  - destruct s as [|y s]; cbn [prefix].
    + split; [discriminate | intros (r & Hr); discriminate].
    + destruct (ascii_dec x y) as [->|Hne].
      * rewrite IH. split; intros (r & Hr); exists r; cbn in *; congruence.
      * split; [discriminate | intros (r & Hr); cbn in Hr; congruence].
Qed.

Lemma find_from_found (sub s : string) (i : Z) :
  0 <= i ->
  find_from sub s i <> -1 <-> exists before after, s = (before ++ sub ++ after)%string.
Proof.
  revert i. induction s as [|x s IH]; intros i Hi; cbn [find_from].
  - destruct (prefix sub EmptyString) eqn:Hp.
    + split; [|lia]. intros _. apply prefix_append in Hp. destruct Hp as (r & Hr).
      now exists EmptyString, r.
    + split; [congruence|]. intros (before & after & H).
      destruct before; [|discriminate].
      assert (prefix sub EmptyString = true) by (apply prefix_append; now exists after).
      congruence.
  - destruct (prefix sub (String x s)) eqn:Hp.
    + split; [|lia]. intros _. apply prefix_append in Hp. destruct Hp as (r & Hr).
      now exists EmptyString, r.
    + rewrite IH by lia. split.
      * intros (before & after & ->). now exists (String x before), after.
      * intros (before & after & H). destruct before as [|y before].
        -- assert (prefix sub (String x s) = true)
             by (apply prefix_append; now exists after).
           congruence.
        -- cbn in H. injection H as _ ->. now exists before, after.
Qed.

(** [s.find(sub) != -1] says that [sub] occurs in [s]. *)
Lemma find_occurs (s sub : string) :
  find s sub <> -1 <-> exists before after, s = (before ++ sub ++ after)%string.
Proof. unfold find. apply find_from_found. lia. Qed.

Lemma insert_desc_perm (r : row) (l : list row) :
  Permutation (insert_desc r l) (r :: l).
Proof.
  induction l as [|x l IH]; cbn; [reflexivity|].
  destruct (created_at x <=? created_at r); [reflexivity|].
  rewrite IH. apply perm_swap.
Qed.

Lemma order_by_perm (l : list row) : Permutation (order_by_created_at_desc l) l.
Proof.
  induction l as [|x l IH]; cbn; [constructor|].
  rewrite insert_desc_perm. now constructor.
Qed.

Lemma insert_desc_sorted (r : row) (l : list row) :
  StronglySorted newer_first l -> StronglySorted newer_first (insert_desc r l).
Proof.
  induction 1 as [|x l Hs IH Hx]; cbn.
  - constructor; constructor.
  - destruct (Z.leb_spec (created_at x) (created_at r)).
    + constructor; [now constructor|]. constructor; [exact H|].
      rewrite Forall_forall in Hx |- *. intros y Hy. specialize (Hx y Hy).
      unfold newer_first in *. lia.
    + constructor; [exact IH|].
      rewrite Forall_forall in Hx |- *. intros y Hy.
      apply (Permutation_in _ (insert_desc_perm r l)) in Hy.
      destruct Hy as [<- | Hy]; [unfold newer_first; lia | now apply Hx].
Qed.

Lemma order_by_sorted (l : list row) :
  StronglySorted newer_first (order_by_created_at_desc l).
Proof.
  induction l as [|x l IH]; cbn; [constructor | now apply insert_desc_sorted].
Qed.

Lemma StronglySorted_map_filter {A B : Type} (R : A -> A -> Prop) (Q : B -> B -> Prop)
  (f : A -> B) (keep : B -> bool) (l : list A) :
  (forall a b, R a b -> Q (f a) (f b)) ->
  StronglySorted R l -> StronglySorted Q (filter keep (map f l)).
Proof.
  intros HRQ. induction 1 as [|x l Hs IH Hx]; cbn; [constructor|].
  destruct (keep (f x)); [|exact IH].
  constructor; [exact IH|].
  rewrite Forall_forall in Hx |- *. intros y Hy.
  apply filter_In in Hy. destruct Hy as (Hy & _).
  apply in_map_iff in Hy. destruct Hy as (a & <- & Ha). auto.
Qed.

Lemma StronglySorted_filter {A : Type} (R : A -> A -> Prop) (keep : A -> bool)
  (l : list A) :
  StronglySorted R l -> StronglySorted R (filter keep l).
Proof.
  intros H. rewrite <- (map_id l).
  apply StronglySorted_map_filter with (R := R); auto.
Qed.

Lemma filter_map_comm {A B : Type} (f : B -> bool) (g : A -> B) (l : list A) :
  filter f (map g l) = map g (filter (fun x => f (g x)) l).
Proof.
  induction l as [|x l IH]; cbn [map filter]; [reflexivity|].
  destruct (f (g x)); cbn [map]; now rewrite IH.
Qed.

Lemma filter_andb {A : Type} (p q : A -> bool) (l : list A) :
  filter q (filter p l) = filter (fun x => p x && q x) l.
Proof.
  induction l as [|x l IH]; cbn [filter]; [reflexivity|].
  destruct (p x); cbn [filter andb]; [|exact IH].
  destruct (q x); now rewrite IH.
Qed.

Lemma Permutation_filter_keep {A : Type} (keep : A -> bool) (l l' : list A) :
  Permutation l l' -> Permutation (filter keep l) (filter keep l').
Proof.
  induction 1 as [|x l l' _ IH|x y l|l l' l'' _ IH1 _ IH2]; cbn [filter].
  - constructor.
  - destruct (keep x); [now constructor|exact IH].
  - destruct (keep x), (keep y); try apply Permutation_refl. apply perm_swap.
  - exact (Permutation_trans IH1 IH2).
Qed.

Section Listing.

Variable loads : string -> load_result.

Lemma startup_of_row_readable (r : row) :
  readable loads r -> Api.startup_of_row loads r = Some (Api.row_startup loads r).
Proof.
  unfold readable, Api.startup_of_row. now destruct (forallb _ columns).
Qed.

Lemma startups_of_rows_readable (l : list row) :
  Forall (readable loads) l ->
  Api.startups_of_rows loads l = Some (map (Api.row_startup loads) l).
Proof.
  induction 1 as [|r l Hr _ IH]; cbn; [reflexivity|].
  now rewrite (startup_of_row_readable r Hr), IH.
Qed.

Lemma get_all_readable (st : store) :
  Forall (readable loads) (rows st) ->
  Api.get_all_startups_from_db loads st
  = map (Api.row_startup loads) (order_by_created_at_desc (rows st)).
Proof.
  intros H. unfold Api.get_all_startups_from_db.
  rewrite startups_of_rows_readable; [reflexivity|].
  rewrite Forall_forall in H |- *. intros r Hr. apply H.
  now apply (Permutation_in _ (order_by_perm (rows st))).
Qed.

Lemma row_startup_scalar (r : row) (c : column) :
  is_sequence_column c = false ->
  s_field (Api.row_startup loads r) c = py_of_sql (cell r c).
Proof. intros H. cbn. unfold Api.read_cell. now rewrite H. Qed.

Lemma filter_industry_text (i : string) (l : list startup) :
  Forall (fun s => exists x, s_field s industry_sector = VStr x) l ->
  Api.filter_industry i l = Some (filter (industry_keep (Some i)) l)
  \/ i = "".
Proof.
  destruct (String.eqb_spec i "") as [->|Hne]; [now right|]. left.
  induction H as [|s l (x & Hx) _ IH]; cbn [Api.filter_industry filter]; [reflexivity|].
  rewrite IH.
  assert (Hk : industry_keep (Some i) s = negb (find (lower x) (lower i) =? -1)).
  { unfold industry_keep, Api.industry_matches. rewrite Hx.
    now destruct (String.eqb_spec i ""). }
  rewrite Hk. unfold Api.industry_matches. rewrite Hx. reflexivity.
Qed.

Lemma filter_all {A : Type} (l : list A) : filter (fun _ => true) l = l.
Proof. induction l as [|x l IH]; cbn; [reflexivity | now rewrite IH]. Qed.

Lemma industry_keep_iff (industry : option string) (s : startup) :
  industry_keep industry s = true <-> industry_applies industry s.
Proof.
  unfold industry_keep, industry_applies. destruct industry as [i|].
  - destruct (String.eqb_spec i "") as [->|Hne].
    + split; [intros _ j [= <-] Hj; contradiction | reflexivity].
    + unfold Api.industry_matches. split.
      * intros H j [= <-] _.
        destruct (s_field s industry_sector) as [| | |sector| |]; try discriminate.
        apply negb_true_iff, Z.eqb_neq, find_occurs in H.
        destruct H as (before & after & H). now exists sector, before, after.
      * intros H. destruct (H i eq_refl Hne) as (sector & before & after & -> & Hocc).
        apply negb_true_iff, Z.eqb_neq, find_occurs. now exists before, after.
  - split; [intros _ j [=] | reflexivity].
Qed.

Lemma year_keep_iff (year : option Z) (r : row) :
  year_keep year (Api.row_startup loads r) = true
  <-> year_applies year (Api.row_startup loads r).
Proof.
  unfold year_keep, year_applies. destruct year as [y|].
  - destruct (Z.eqb_spec y 0) as [->|Hne].
    + split; [intros _ j [= <-] Hj; contradiction | reflexivity].
    + unfold Api.year_matches.
      rewrite (row_startup_scalar r founding_year eq_refl). split.
      * intros H j [= <-] _.
        destruct (cell r founding_year) as [|n|t]; cbn in *; try discriminate.
        apply Z.eqb_eq in H. now subst.
      * intros H. specialize (H y eq_refl Hne).
        destruct (cell r founding_year) as [|n|t]; cbn in *; try discriminate.
        injection H as ->. apply Z.eqb_refl.
  - split; [intros _ j [=] | reflexivity].
Qed.

Lemma passes_iff (industry : option string) (year : option Z) (r : row) :
  passes loads industry year r = true
  <-> industry_applies industry (Api.row_startup loads r)
      /\ year_applies year (Api.row_startup loads r).
Proof.
  unfold passes. rewrite andb_true_iff, industry_keep_iff, year_keep_iff.
  reflexivity.
Qed.

(** C8 (as amended).  Over a store whose rows can all be read back and,
    when an industry filter applies, hold a text in [industry_sector],
    and for a limit that is not negative: the listing is the first
    [limit] (100 by default) of the kept records, and [total_returned]
    is their number; the kept records are ordered newest first by
    [created_at]; and they are exactly the records of the store that
    pass the filters applied, each of them once: the kept records are
    the readings of a rearrangement of the rows of the store that pass.
    A filter is applied when it is given and truthy (a non-empty
    industry, a year other than 0), and a row passes when the industry
    given occurs, whatever the case, in its [industry_sector] and its
    [founding_year] is the year given. *)
Theorem list_startups (st : store) (limit : option Z)
  (industry : option string) (year : option Z) :
  Forall (readable loads) (rows st) ->
  (forall i, industry = Some i -> i <> "" ->
     Forall (fun r => exists x, cell r industry_sector = SText x) (rows st)) ->
  (forall n, limit = Some n -> 0 <= n) ->
  exists kept : list startup,
    Api.get_startups loads st limit industry year
    = OK {| Api.total_returned :=
              Z.of_nat (List.length
                          (firstn (Z.to_nat (match limit with Some n => n | None => 100 end))
                             kept));
            Api.startups :=
              firstn (Z.to_nat (match limit with Some n => n | None => 100 end)) kept |}
    /\ StronglySorted (fun a b => s_created_at b <= s_created_at a) kept
    /\ (forall s, In s kept
                  <-> (exists r, In r (rows st) /\ Api.startup_of_row loads r = Some s)
                      /\ industry_applies industry s
                      /\ year_applies year s)
    /\ (exists kept_rows : list row,
          kept = map (Api.row_startup loads) kept_rows
          /\ Permutation kept_rows (filter (passes loads industry year) (rows st))
          /\ StronglySorted newer_first kept_rows)
    /\ (forall r, passes loads industry year r = true
                  <-> industry_applies industry (Api.row_startup loads r)
                      /\ year_applies year (Api.row_startup loads r)).
Proof.
  intros Hread Htext Hlimit.
  set (all := map (Api.row_startup loads) (order_by_created_at_desc (rows st))).
  exists (filter (year_keep year) (filter (industry_keep industry) all)).
  assert (Hall : Api.get_all_startups_from_db loads st = all)
    by (apply get_all_readable; exact Hread).
  assert (Hlim : 0 <= match limit with Some n => n | None => 100 end)
    by (destruct limit as [n|]; [now apply Hlimit | lia]).
  split; [|split; [|split; [|split]]].
  - unfold Api.get_startups. rewrite Hall.
    assert (Hind : match industry with
                   | Some i => if (i =? "")%string then Some all
                               else Api.filter_industry i all
                   | None => Some all
                   end = Some (filter (industry_keep industry) all)).
    { destruct industry as [i|]; [|unfold industry_keep; now rewrite filter_all].
      destruct (String.eqb_spec i "") as [->|Hne];
        [unfold industry_keep; cbn [String.eqb]; now rewrite filter_all|].
      destruct (filter_industry_text i all) as [H|H]; [|exact H|contradiction].
      specialize (Htext i eq_refl Hne).
      unfold all. rewrite Forall_forall in Htext |- *. intros s Hs.
      apply in_map_iff in Hs. destruct Hs as (r & <- & Hr).
      apply (Permutation_in _ (order_by_perm (rows st))) in Hr.
      destruct (Htext r Hr) as (x & Hx). exists x.
      rewrite (row_startup_scalar r industry_sector eq_refl), Hx. reflexivity. }
    rewrite Hind.
    assert (Hyear : match year with
                    | Some y => if y =? 0 then filter (industry_keep industry) all
                                else filter (Api.year_matches y)
                                       (filter (industry_keep industry) all)
                    | None => filter (industry_keep industry) all
                    end = filter (year_keep year) (filter (industry_keep industry) all)).
    { destruct year as [y|]; unfold year_keep;
        [|symmetry; apply filter_all].
      destruct (y =? 0); [symmetry; apply filter_all | reflexivity]. }
    rewrite Hyear. unfold take_upto.
    destruct (Z.ltb_spec (match limit with Some n => n | None => 100 end) 0); [lia|].
    reflexivity.
  - apply StronglySorted_filter.
    apply (StronglySorted_map_filter newer_first); [intros a b H; exact H|].
    apply order_by_sorted.
  - intros s. rewrite !filter_In. unfold all. rewrite in_map_iff. split.
    + intros (((r & <- & Hr) & Hi) & Hy).
      apply (Permutation_in _ (order_by_perm (rows st))) in Hr.
      split; [|split].
      * exists r. split; [exact Hr|]. apply startup_of_row_readable.
        rewrite Forall_forall in Hread. now apply Hread.
      * now apply industry_keep_iff.
      * now apply year_keep_iff.
    + intros ((r & Hr & Hs) & Hi & Hy).
      assert (Hrs : Api.row_startup loads r = s).
      { rewrite Forall_forall in Hread.
        rewrite (startup_of_row_readable r (Hread r Hr)) in Hs. congruence. }
      subst s. split; [split|].
      * exists r. split; [reflexivity|].
        apply (Permutation_in _ (Permutation_sym (order_by_perm (rows st)))). exact Hr.
      * now apply industry_keep_iff.
      * now apply year_keep_iff.
  - exists (filter (passes loads industry year) (order_by_created_at_desc (rows st))).
    split; [|split].
    + unfold all. rewrite filter_map_comm, filter_map_comm, filter_andb.
      reflexivity.
    + apply Permutation_filter_keep, order_by_perm.
    + apply StronglySorted_filter, order_by_sorted.
  - intros r. apply passes_iff.
Qed.

End Listing.

(** ** The JSON text of a value reads back as the value *)

Lemma code_ascii_of_N (n : N) : (n < 256)%N -> code (ascii_of_N n) = n.
Proof. intros H. unfold code. now apply N_ascii_embedding. Qed.

Lemma digit_char_code (d : N) : (d < 10)%N -> code (digit_char d) = (48 + d)%N.
Proof. intros H. unfold digit_char. apply code_ascii_of_N. lia. Qed.

Lemma digit_char_is_digit (d : N) : (d < 10)%N -> is_digit (digit_char d) = true.
Proof.
  intros H. unfold is_digit. rewrite (digit_char_code d H).
  apply andb_true_iff. split; apply N.leb_le; lia.
Qed.

Lemma scan_digits_digit (d : N) (s : string) (a : N) :
  (d < 10)%N ->
  scan_digits (String (digit_char d) s) a = scan_digits s (a * 10 + d)%N.
Proof.
  intros H. cbn [scan_digits]. rewrite (digit_char_is_digit d H), (digit_char_code d H).
  f_equal. lia.
Qed.

Lemma scan_digits_stop (s : string) (a : N) :
  starts_with_digit s = false -> scan_digits s a = (a, s).
Proof.
  destruct s as [|c r]; cbn; [reflexivity|]. now intros ->.
Qed.

Lemma scan_digits_N_digits (fuel : nat) :
  forall (n : N) (acc rest : string) (a : N),
    (n < 10 ^ N.of_nat fuel)%N ->
    exists k : N,
      scan_digits (N_digits fuel n acc ++ rest) a
      = scan_digits (acc ++ rest) (a * 10 ^ k + n)%N.
Proof.
  induction fuel as [|f IH]; intros n acc rest a Hn.
  - exists 0%N. cbn in Hn. assert (n = 0%N) by lia. subst. cbn [N_digits].
    f_equal; cbn; lia.
  - cbn [N_digits]. assert (Hmod : (n mod 10 < 10)%N) by (apply N.mod_lt; lia).
    destruct (N.ltb_spec n 10) as [Hlt|Hge].
    + exists 1%N. cbn [append]. rewrite (scan_digits_digit _ _ _ Hmod).
      rewrite N.mod_small by exact Hlt. f_equal; cbn; lia.
    + assert (Hdiv : (n / 10 < 10 ^ N.of_nat f)%N).
      { apply N.Div0.div_lt_upper_bound.
        rewrite Nat2N.inj_succ, N.pow_succ_r' in Hn. exact Hn. }
      destruct (IH (n / 10)%N (String (digit_char (n mod 10)) acc) rest a Hdiv)
        as (k & Hk).
      exists (N.succ k). rewrite Hk. cbn [append].
      rewrite (scan_digits_digit _ _ _ Hmod). f_equal.
      rewrite N.pow_succ_r'. pose proof (N.div_mod n 10). lia.
Qed.

Lemma N_digits_head (fuel : nat) :
  forall (n : N) (acc : string),
    (0 < n)%N -> (n < 10 ^ N.of_nat fuel)%N ->
    exists (d : N) (r : string),
      N_digits fuel n acc = String (digit_char d) r /\ (1 <= d)%N /\ (d < 10)%N.
Proof.
  induction fuel as [|f IH]; intros n acc Hpos Hn.
  - cbn in Hn. lia.
  - cbn [N_digits]. destruct (N.ltb_spec n 10) as [Hlt|Hge].
    + exists (n mod 10)%N, acc. rewrite N.mod_small by exact Hlt.
      repeat split; lia.
    + apply IH.
      * apply N.div_str_pos. lia.
      * apply N.Div0.div_lt_upper_bound.
        rewrite Nat2N.inj_succ, N.pow_succ_r' in Hn. exact Hn.
Qed.

Lemma N_repr_fuel (p : positive) :
  (N.pos p < 10 ^ N.of_nat (S (N.to_nat (N.log2 (N.pos p)))))%N.
Proof.
  rewrite Nat2N.inj_succ, N2Nat.id.
  destruct (N.log2_spec (N.pos p)) as (_ & Hlt); [lia|].
  eapply N.lt_le_trans; [exact Hlt|].
  apply N.pow_le_mono_l. lia.
Qed.

Lemma scan_digits_N_repr (p : positive) (rest : string) :
  starts_with_digit rest = false ->
  scan_digits (N_repr (N.pos p) ++ rest) 0 = (N.pos p, rest).
Proof.
  intros Hrest. unfold N_repr.
  destruct (scan_digits_N_digits _ (N.pos p) EmptyString rest 0%N (N_repr_fuel p))
    as (k & Hk).
  rewrite Hk. cbn [append]. rewrite (scan_digits_stop _ _ Hrest). f_equal.
Qed.

Lemma N_repr_head (p : positive) :
  exists (d : N) (r : string),
    N_repr (N.pos p) = String (digit_char d) r /\ (1 <= d)%N /\ (d < 10)%N.
Proof.
  unfold N_repr. apply N_digits_head; [lia | apply N_repr_fuel].
Qed.

Lemma match_number_Z_repr (n : Z) (rest : string) :
  ends_number rest ->
  match_number (Z_repr n ++ rest) = Some (VInt n, rest).
Proof.
  intros (Hd & Hf). destruct n as [|p|p]; cbn [Z_repr].
  - cbn. now rewrite Hf.
  - destruct (N_repr_head p) as (d & r & Hr & Hd1 & Hd2).
    pose proof (scan_digits_N_repr p rest Hd) as Hscan.
    rewrite Hr in Hscan |- *. cbn [append] in *. unfold match_number.
    rewrite (digit_char_code d Hd2).
    destruct (N.eqb_spec (48 + d) 45); [lia|].
    unfold match_integer. rewrite (digit_char_code d Hd2).
    destruct (N.eqb_spec (48 + d) 48); [lia|].
    rewrite (digit_char_is_digit d Hd2), Hscan, Hf. reflexivity.
  - destruct (N_repr_head p) as (d & r & Hr & Hd1 & Hd2).
    pose proof (scan_digits_N_repr p rest Hd) as Hscan.
    rewrite Hr in Hscan |- *. cbn [append] in *. unfold match_number.
    change (code "-" =? 45)%N with true. cbv iota.
    unfold match_integer. rewrite (digit_char_code d Hd2).
    destruct (N.eqb_spec (48 + d) 48); [lia|].
    rewrite (digit_char_is_digit d Hd2), Hscan, Hf. reflexivity.
Qed.

Lemma scanstring_escape_char (c : ascii) (r : string) :
  scanstring (escape_char c ++ r) = cons_char c (scanstring r).
Proof.
  destruct c as [[] [] [] [] [] [] [] []];
    match goal with
    | |- scanstring (?e ++ r) = _ =>
        let e' := eval vm_compute in e in change e with e'
    end; cbn [append scanstring]; reflexivity.
Qed.

Lemma scanstring_escape_chars (s rest : string) :
  scanstring (escape_chars s ++ String dquote rest) = Some (s, rest).
Proof.
  induction s as [|c s IH]; [reflexivity|].
  cbn [escape_chars]. rewrite append_assoc, scanstring_escape_char, IH. reflexivity.
Qed.

Lemma json_dumps_list (l : list value) :
  json_dumps (VList l) = String "[" (dumps_items l ++ "]").
Proof. reflexivity. Qed.

Lemma json_dumps_dict (d : list (string * value)) :
  json_dumps (VDict d) = String "{" (dumps_members d ++ "}").
Proof. reflexivity. Qed.

(** Induction over values, with the items of a list and the members of
    a dictionary. *)
Lemma value_induction (P : value -> Prop) :
  P VNone ->
  (forall b, P (VBool b)) ->
  (forall n, P (VInt n)) ->
  (forall s, P (VStr s)) ->
  (forall l, Forall P l -> P (VList l)) ->
  (forall d, Forall (fun kv => P (snd kv)) d -> P (VDict d)) ->
  forall v, P v.
Proof.
  intros Hnone Hbool Hint Hstr Hlist Hdict.
  fix IH 1. intros [| b | n | s | l | d].
  - exact Hnone.
  - apply Hbool.
  - apply Hint.
  - apply Hstr.
  - apply Hlist. induction l as [|x l IHl]; constructor; [apply IH | exact IHl].
  - apply Hdict. induction d as [|[k x] d IHd]; constructor; [apply IH | exact IHd].
Qed.

Lemma append_nil_r (s : string) : (s ++ EmptyString)%string = s.
Proof. induction s as [|c s IH]; cbn; [reflexivity | now rewrite IH]. Qed.

Lemma substring_whole (s : string) : substring 0 (String.length s) s = s.
Proof. induction s as [|c s IH]; cbn; [reflexivity | now rewrite IH]. Qed.

Lemma prefix_nil (s : string) : prefix EmptyString s = true.
Proof. now destruct s. Qed.

Lemma skip_ws_head (c : ascii) (r : string) :
  is_json_ws c = false -> skip_ws (String c r) = String c r.
Proof. intros H. cbn. now rewrite H. Qed.

Lemma opens_value_digit (d : N) (r : string) :
  (d < 10)%N -> opens_value (String (digit_char d) r).
Proof.
  intros H. cbn. unfold is_json_ws. rewrite (digit_char_code d H).
  repeat split; try lia.
  repeat (apply orb_false_iff; split); apply N.eqb_neq; lia.
Qed.

Lemma Z_repr_head (n : Z) :
  exists c r, Z_repr n = String c r
              /\ (code c = 45%N \/ (48 <= code c <= 57)%N).
Proof.
  destruct n as [|p|p]; cbn [Z_repr].
  - exists "0"%char, EmptyString. split; [reflexivity|]. right. cbn. lia.
  - destruct (N_repr_head p) as (d & r & -> & Hd1 & Hd2).
    exists (digit_char d), r. split; [reflexivity|]. right.
    rewrite (digit_char_code d Hd2). lia.
  - eexists _, _. split; [reflexivity|]. left. reflexivity.
Qed.

Lemma opens_value_dumps (v : value) (rest : string) :
  opens_value (json_dumps v ++ rest).
Proof.
  destruct v as [|[]|n|s|l|d]; try (cbn; repeat split; discriminate).
  destruct (Z_repr_head n) as (c & r & Hr & Hc). cbn [json_dumps]. rewrite Hr.
  cbn. unfold is_json_ws. repeat split; try lia.
  repeat (apply orb_false_iff; split); apply N.eqb_neq; lia.
Qed.

Lemma skip_ws_opens (s : string) : opens_value s -> skip_ws s = s.
Proof.
  destruct s as [|c r]; [reflexivity|]. intros (H & _). now apply skip_ws_head.
Qed.

Lemma prefix_head_differs (x c : ascii) (p r : string) :
  code c <> code x -> prefix (String x p) (String c r) = false.
Proof.
  intros H. cbn. destruct (ascii_dec x c) as [->|]; [contradiction | reflexivity].
Qed.

Lemma scan_once_number (f : nat) (c : ascii) (r : string) :
  code c = 45%N \/ (48 <= code c <= 57)%N ->
  scan_once (S f) (String c r) = match_number (String c r).
Proof.
  intros Hc. cbn [scan_once].
  destruct (N.eqb_spec (code c) 34); [lia|].
  destruct (N.eqb_spec (code c) 123); [lia|].
  destruct (N.eqb_spec (code c) 91); [lia|].
  rewrite !prefix_head_differs by (cbn; lia). reflexivity.
Qed.

Lemma ends_number_comma (r : string) : ends_number (String "," r).
Proof. split; reflexivity. Qed.

Lemma ends_number_bracket (r : string) : ends_number (String "]" r).
Proof. split; reflexivity. Qed.

Lemma ends_number_brace (r : string) : ends_number (String "}" r).
Proof. split; reflexivity. Qed.

Lemma ends_number_nil : ends_number EmptyString.
Proof. split; reflexivity. Qed.

Lemma scan_once_scalar (v : value) (f : nat) (rest : string) :
  match v with VList _ | VDict _ => False | _ => True end ->
  ends_number rest ->
  scan_once (S f) (json_dumps v ++ rest) = Some (v, rest).
Proof.
  intros Hv Hrest. destruct v as [|[]|n|s|l|d]; try contradiction.
  - cbn. now rewrite prefix_nil, Nat.sub_0_r, substring_whole.
  - cbn. now rewrite prefix_nil, Nat.sub_0_r, substring_whole.
  - cbn. now rewrite prefix_nil, Nat.sub_0_r, substring_whole.
  - destruct (Z_repr_head n) as (c & r & Hr & Hc).
    cbn [json_dumps]. pose proof (match_number_Z_repr n rest Hrest) as Hm.
    rewrite Hr in Hm |- *. cbn [append] in *.
    now rewrite (scan_once_number f c _ Hc).
  - cbn [json_dumps encode_basestring_ascii append scan_once].
    change (code dquote =? 34)%N with true. cbv iota.
    rewrite append_assoc. cbn [append].
    now rewrite scanstring_escape_chars.
Qed.

(** One step of each function of the decoder. *)
Lemma scan_once_array (f : nat) (r : string) :
  scan_once (S f) (String "[" r) = JSONArray f r.
Proof. reflexivity. Qed.

Lemma scan_once_object (f : nat) (r : string) :
  scan_once (S f) (String "{" r) = JSONObject f r.
Proof. reflexivity. Qed.

Lemma JSONArray_step (f : nat) (s : string) :
  JSONArray (S f) s
  = match skip_ws s with
    | EmptyString => None
    | String c r =>
        if (code c =? 93)%N then Some (VList [], r)
        else match array_items f (String c r) with
             | Some (vs, rest) => Some (VList vs, rest)
             | None => None
             end
    end.
Proof. reflexivity. Qed.

Lemma array_items_step (f : nat) (s : string) :
  array_items (S f) s
  = match scan_once f s with
    | None => None
    | Some (v, rest) =>
        match skip_ws rest with
        | EmptyString => None
        | String c r =>
            if (code c =? 93)%N then Some ([v], r)
            else if (code c =? 44)%N then
              match array_items f (skip_ws r) with
              | Some (vs, rest') => Some (v :: vs, rest')
              | None => None
              end
            else None
        end
    end.
Proof. reflexivity. Qed.

Lemma JSONObject_step (f : nat) (s : string) :
  JSONObject (S f) s
  = match skip_ws s with
    | EmptyString => None
    | String c r =>
        if (code c =? 125)%N then Some (VDict [], r)
        else if (code c =? 34)%N then
          match object_members f r with
          | Some (pairs, rest) => Some (VDict (dict_of_pairs pairs), rest)
          | None => None
          end
        else None
    end.
Proof. reflexivity. Qed.

Lemma object_members_step (f : nat) (s : string) :
  object_members (S f) s
  = match scanstring s with
    | None => None
    | Some (key, rest) =>
        match skip_ws rest with
        | EmptyString => None
        | String c r =>
            if (code c =? 58)%N then
              match scan_once f (skip_ws r) with
              | None => None
              | Some (v, rest1) =>
                  match skip_ws rest1 with
                  | EmptyString => None
                  | String c1 r1 =>
                      if (code c1 =? 125)%N then Some ([(key, v)], r1)
                      else if (code c1 =? 44)%N then
                        match skip_ws r1 with
                        | EmptyString => None
                        | String c2 r2 =>
                            if (code c2 =? 34)%N then
                              match object_members f r2 with
                              | Some (ps, rest2) => Some ((key, v) :: ps, rest2)
                              | None => None
                              end
                            else None
                        end
                      else None
                  end
              end
            else None
        end
    end.
Proof. reflexivity. Qed.

Lemma cost_items_cons (x : value) (l : list value) :
  cost_items (x :: l) = S (cost x + cost_items l).
Proof. reflexivity. Qed.

Lemma cost_members_cons (k : string) (x : value) (d : list (string * value)) :
  cost_members ((k, x) :: d) = S (cost x + cost_members d).
Proof. reflexivity. Qed.

Lemma dumps_items_cons2 (x y : value) (l : list value) :
  dumps_items (x :: y :: l) = (json_dumps x ++ ", " ++ dumps_items (y :: l))%string.
Proof. reflexivity. Qed.

Lemma dumps_items_opens (x : value) (l : list value) (rest : string) :
  opens_value (dumps_items (x :: l) ++ rest).
Proof.
  destruct l as [|y l].
  - apply opens_value_dumps.
  - rewrite dumps_items_cons2, append_assoc. apply opens_value_dumps.
Qed.

Lemma array_items_last (f : nat) (s : string) (x : value) (rest : string) :
  scan_once f s = Some (x, String "]" rest) ->
  array_items (S f) s = Some ([x], rest).
Proof. intros H. rewrite array_items_step, H. reflexivity. Qed.

Lemma array_items_next (f : nat) (s : string) (x : value) (tail : string) :
  scan_once f s = Some (x, String "," (String " " tail)) ->
  opens_value tail ->
  array_items (S f) s
  = match array_items f tail with
    | Some (vs, rest) => Some (x :: vs, rest)
    | None => None
    end.
Proof.
  intros H Hopen. rewrite array_items_step, H.
  change (skip_ws (String "," (String " " tail)))
    with (String "," (String " " tail)).
  change (code "," =? 93)%N with false. change (code "," =? 44)%N with true.
  cbv iota. change (skip_ws (String " " tail)) with (skip_ws tail).
  now rewrite (skip_ws_opens _ Hopen).
Qed.

Lemma array_items_dumps (l : list value) :
  Forall reads_back l -> l <> [] ->
  forall (f : nat) (rest : string),
    (cost_items l <= f)%nat ->
    array_items f (dumps_items l ++ String "]" rest) = Some (l, rest).
Proof.
  induction 1 as [|x l Hx Hl IH]; intros Hne f rest Hf; [contradiction|].
  rewrite cost_items_cons in Hf. destruct f as [|f]; [lia|].
  destruct l as [|y l].
  - apply array_items_last. cbn [dumps_items].
    apply Hx; [lia | apply ends_number_bracket].
  - rewrite (array_items_next f _ x (dumps_items (y :: l) ++ String "]" rest)).
    + rewrite IH by (discriminate || lia). reflexivity.
    + rewrite dumps_items_cons2, !append_assoc.
      apply Hx; [lia | apply ends_number_comma].
    + apply dumps_items_opens.
Qed.

Lemma JSONArray_dumps (l : list value) :
  Forall reads_back l ->
  forall (f : nat) (rest : string),
    (S (cost_items l) <= f)%nat ->
    JSONArray f (dumps_items l ++ String "]" rest) = Some (VList l, rest).
Proof.
  intros Hl f rest Hf. destruct f as [|f]; [lia|]. rewrite JSONArray_step.
  destruct l as [|x l]; [reflexivity|].
  pose proof (dumps_items_opens x l (String "]" rest)) as Hopen.
  rewrite (skip_ws_opens _ Hopen).
  destruct (dumps_items (x :: l) ++ String "]" rest)%string as [|c r] eqn:Htext;
    [contradiction|].
  destruct Hopen as (_ & Hc & _).
  destruct (N.eqb_spec (code c) 93); [contradiction|].
  rewrite <- Htext, (array_items_dumps (x :: l) Hl) by (discriminate || lia).
  reflexivity.
Qed.

Lemma dumps_members_text (d : list (string * value)) (rest : string) :
  d <> [] ->
  (dumps_members d ++ String "}" rest)%string = String dquote (members_text d rest).
Proof.
  induction d as [|[k x] d IH]; intros Hne; [contradiction|].
  destruct d as [|kv d].
  - cbn [dumps_members members_text].
    repeat (rewrite append_assoc || (progress cbn [append encode_basestring_ascii])).
    reflexivity.
  - change (dumps_members ((k, x) :: kv :: d))
      with ((encode_basestring_ascii k ++ ": " ++ json_dumps x)
            ++ ", " ++ dumps_members (kv :: d))%string.
    change (members_text ((k, x) :: kv :: d) rest)
      with (escape_chars k ++
            String dquote
              (String ":" (String " "
                 (json_dumps x ++
                  String "," (String " " (String dquote (members_text (kv :: d) rest)))))))%string.
    rewrite <- IH by discriminate.
    repeat (rewrite append_assoc || (progress cbn [append encode_basestring_ascii])).
    reflexivity.
Qed.

Lemma object_members_last (f : nat) (s k : string) (x : value) (vt rest : string) :
  scanstring s = Some (k, String ":" (String " " vt)) ->
  opens_value vt ->
  scan_once f vt = Some (x, String "}" rest) ->
  object_members (S f) s = Some ([(k, x)], rest).
Proof.
  intros Hk Hopen Hx. rewrite object_members_step, Hk.
  change (skip_ws (String ":" (String " " vt))) with (String ":" (String " " vt)).
  change (code ":" =? 58)%N with true. cbv iota.
  change (skip_ws (String " " vt)) with (skip_ws vt).
  rewrite (skip_ws_opens _ Hopen), Hx. reflexivity.
Qed.

Lemma object_members_next (f : nat) (s k : string) (x : value) (vt tail : string) :
  scanstring s = Some (k, String ":" (String " " vt)) ->
  opens_value vt ->
  scan_once f vt = Some (x, String "," (String " " (String dquote tail))) ->
  object_members (S f) s
  = match object_members f tail with
    | Some (ps, rest) => Some ((k, x) :: ps, rest)
    | None => None
    end.
Proof.
  intros Hk Hopen Hx. rewrite object_members_step, Hk.
  change (skip_ws (String ":" (String " " vt))) with (String ":" (String " " vt)).
  change (code ":" =? 58)%N with true. cbv iota.
  change (skip_ws (String " " vt)) with (skip_ws vt).
  rewrite (skip_ws_opens _ Hopen), Hx. reflexivity.
Qed.

Lemma object_members_dumps (d : list (string * value)) :
  Forall (fun kv => reads_back (snd kv)) d -> d <> [] ->
  forall (f : nat) (rest : string),
    (cost_members d <= f)%nat ->
    object_members f (members_text d rest) = Some (d, rest).
Proof.
  induction 1 as [|[k x] d Hx Hd IH]; intros Hne f rest Hf; [contradiction|].
  rewrite cost_members_cons in Hf. destruct f as [|f]; [lia|].
  cbn [snd] in Hx. destruct d as [|kv d].
  - cbn [members_text].
    apply (object_members_last f _ k x (json_dumps x ++ String "}" rest)).
    + apply scanstring_escape_chars.
    + apply opens_value_dumps.
    + apply Hx; [lia | apply ends_number_brace].
  - change (members_text ((k, x) :: kv :: d) rest)
      with (escape_chars k ++
            String dquote
              (String ":" (String " "
                 (json_dumps x ++
                  String "," (String " " (String dquote (members_text (kv :: d) rest)))))))%string.
    rewrite (object_members_next f _ k x
               (json_dumps x ++
                String "," (String " " (String dquote (members_text (kv :: d) rest))))
               (members_text (kv :: d) rest)).
    + rewrite IH by (discriminate || lia). reflexivity.
    + apply scanstring_escape_chars.
    + apply opens_value_dumps.
    + apply Hx; [lia | apply ends_number_comma].
Qed.

Lemma lookup_dict_set_fresh (d : dict) (k : string) (v : value) :
  existsb (String.eqb k) (map fst d) = false ->
  dict_set d k v = (d ++ [(k, v)])%list.
Proof.
  induction d as [|[k' v'] d IH]; cbn [map fst existsb dict_set app]; [reflexivity|].
  intros H. apply orb_false_iff in H. destruct H as (Hk & Hd).
  rewrite String.eqb_sym, Hk, (IH Hd). reflexivity.
Qed.

Lemma existsb_app_false (k : string) (a b : list string) :
  existsb (String.eqb k) a = false -> existsb (String.eqb k) b = false ->
  existsb (String.eqb k) (a ++ b) = false.
Proof. intros Ha Hb. now rewrite existsb_app, Ha, Hb. Qed.

Lemma fold_dict_set_unique (d acc : dict) :
  keys_unique (map fst d) = true ->
  (forall k, In k (map fst d) -> existsb (String.eqb k) (map fst acc) = false) ->
  fold_left (fun a kv => dict_set a (fst kv) (snd kv)) d acc = (acc ++ d)%list.
Proof.
  revert acc. induction d as [|[k v] d IH]; intros acc Hu Hacc; cbn [fold_left].
  - now rewrite app_nil_r.
  - cbn [map fst keys_unique] in Hu. apply andb_true_iff in Hu.
    destruct Hu as (Hk & Hu). apply negb_true_iff in Hk. cbn [fst snd].
    rewrite lookup_dict_set_fresh by (apply Hacc; now left).
    rewrite IH; [now rewrite <- app_assoc | exact Hu |].
    intros k' Hk'. rewrite map_app. apply existsb_app_false.
    + apply Hacc. now right.
    + cbn. rewrite orb_false_r.
      destruct (String.eqb_spec k' k) as [->|]; [|reflexivity].
      apply not_true_iff_false in Hk. exfalso. apply Hk.
      apply existsb_exists. exists k. split; [exact Hk' | apply String.eqb_refl].
Qed.

Lemma dict_of_pairs_unique (d : dict) :
  keys_unique (map fst d) = true -> dict_of_pairs d = d.
Proof.
  intros H. unfold dict_of_pairs. now rewrite fold_dict_set_unique.
Qed.

Lemma JSONObject_dumps (d : list (string * value)) :
  keys_unique (map fst d) = true ->
  Forall (fun kv => reads_back (snd kv)) d ->
  forall (f : nat) (rest : string),
    (S (cost_members d) <= f)%nat ->
    JSONObject f (dumps_members d ++ String "}" rest) = Some (VDict d, rest).
Proof.
  intros Hu Hd f rest Hf. destruct f as [|f]; [lia|]. rewrite JSONObject_step.
  destruct d as [|kv d]; [reflexivity|].
  rewrite dumps_members_text by discriminate.
  change (skip_ws (String dquote (members_text (kv :: d) rest)))
    with (String dquote (members_text (kv :: d) rest)).
  change (code dquote =? 125)%N with false. change (code dquote =? 34)%N with true.
  cbv iota. rewrite (object_members_dumps (kv :: d) Hd) by (discriminate || lia).
  now rewrite dict_of_pairs_unique.
Qed.

Lemma well_formed_reads_back (v : value) : well_formed v = true -> reads_back v.
Proof.
  induction v as [| b | n | s | l IH | d IH] using value_induction; intros Hwf f rest Hf Hrest.
  - destruct f as [|f]; [cbn in Hf; lia|]. now apply scan_once_scalar.
  - destruct f as [|f]; [cbn in Hf; lia|]. now apply scan_once_scalar.
  - destruct f as [|f]; [cbn in Hf; lia|]. now apply scan_once_scalar.
  - destruct f as [|f]; [cbn in Hf; lia|]. now apply scan_once_scalar.
  - change (cost (VList l)) with (S (S (cost_items l))) in Hf.
    destruct f as [|f]; [lia|].
    rewrite json_dumps_list. cbn [append]. rewrite append_assoc. cbn [append].
    rewrite scan_once_array. apply JSONArray_dumps; [|lia].
    cbn [well_formed] in Hwf. rewrite forallb_forall in Hwf.
    rewrite Forall_forall in IH |- *. intros x Hx. apply IH; auto.
  - change (cost (VDict d)) with (S (S (cost_members d))) in Hf.
    destruct f as [|f]; [lia|].
    rewrite json_dumps_dict. cbn [append]. rewrite append_assoc. cbn [append].
    rewrite scan_once_object. cbn [well_formed] in Hwf.
    apply andb_true_iff in Hwf. destruct Hwf as (Hu & Hwf).
    apply JSONObject_dumps; [exact Hu | | lia].
    rewrite forallb_forall in Hwf.
    rewrite Forall_forall in IH |- *. intros x Hx. apply IH; auto.
Qed.

Lemma opens_value_length (s : string) : opens_value s -> (1 <= String.length s)%nat.
Proof. destruct s; [contradiction | cbn; lia]. Qed.

Lemma json_dumps_length (v : value) : (1 <= String.length (json_dumps v))%nat.
Proof.
  apply opens_value_length. rewrite <- (append_nil_r (json_dumps v)).
  apply opens_value_dumps.
Qed.

Lemma cost_items_bound (l : list value) :
  Forall (fun x => (cost x <= 2 * String.length (json_dumps x))%nat) l ->
  (cost_items l <= 2 * String.length (dumps_items l) + 1)%nat.
Proof.
  induction 1 as [|x l Hx _ IH]; [cbn; lia|].
  rewrite cost_items_cons. destruct l as [|y l].
  - cbn [dumps_items cost_items fold_right]. lia.
  - rewrite dumps_items_cons2, !length_append. cbn [String.length]. lia.
Qed.

Lemma cost_members_bound (d : list (string * value)) :
  Forall (fun kv => (cost (snd kv) <= 2 * String.length (json_dumps (snd kv)))%nat) d ->
  (cost_members d <= 2 * String.length (dumps_members d) + 1)%nat.
Proof.
  induction 1 as [|[k x] d Hx _ IH]; [cbn; lia|].
  rewrite cost_members_cons. cbn [snd] in Hx. destruct d as [|kv d].
  - cbn [dumps_members cost_members fold_right]. rewrite !length_append. lia.
  - change (dumps_members ((k, x) :: kv :: d))
      with ((encode_basestring_ascii k ++ ": " ++ json_dumps x)
            ++ ", " ++ dumps_members (kv :: d))%string.
    rewrite !length_append. cbn [String.length]. lia.
Qed.

Lemma cost_bound (v : value) : (cost v <= 2 * String.length (json_dumps v))%nat.
Proof.
  induction v as [| b | n | s | l IH | d IH] using value_induction;
    try (pose proof (json_dumps_length VNone);
         match goal with
         | |- (cost ?x <= _)%nat => pose proof (json_dumps_length x)
         end; cbn [cost]; lia).
  - change (cost (VList l)) with (S (S (cost_items l))).
    rewrite json_dumps_list. cbn [String.length]. rewrite length_append.
    pose proof (cost_items_bound l IH). cbn [String.length]. lia.
  - change (cost (VDict d)) with (S (S (cost_members d))).
    rewrite json_dumps_dict. cbn [String.length]. rewrite length_append.
    pose proof (cost_members_bound d IH). cbn [String.length]. lia.
Qed.

(** The text [json.dumps] writes is never empty. *)
Lemma json_dumps_not_empty (v : value) : json_dumps v <> EmptyString.
Proof.
  intros H. pose proof (json_dumps_length v) as Hl. rewrite H in Hl. cbn in Hl. lia.
Qed.

(** [json.loads(json.dumps(v)) == v] *)
Lemma json_loads_dumps (v : value) :
  well_formed v = true -> json_loads (json_dumps v) = Loaded v.
Proof.
  intros Hwf. unfold json_loads.
  assert (Hopen : opens_value (json_dumps v))
    by (rewrite <- (append_nil_r (json_dumps v)); apply opens_value_dumps).
  rewrite (skip_ws_opens _ Hopen).
  pose proof (well_formed_reads_back v Hwf
                (2 * String.length (json_dumps v) + 2)%nat EmptyString) as Hread.
  rewrite append_nil_r in Hread. rewrite Hread; [reflexivity | | apply ends_number_nil].
  pose proof (cost_bound v). lia.
Qed.

(** ** Round trip of the sequence columns *)

Section RoundTrip.

Variable E : engine.

Lemma sequence_arg (d : dict) (c : column) :
  is_sequence_column c = true ->
  Api.insert_args d c = VStr (json_dumps (original_sequence d c)).
Proof. destruct c; try discriminate; reflexivity. Qed.

Lemma lookup_well_formed (d : dict) (k : string) (v : value) :
  forallb (fun kv => well_formed (snd kv)) d = true ->
  lookup d k = Some v -> well_formed v = true.
Proof.
  induction d as [|[k' v'] d IH]; cbn [forallb lookup snd]; [discriminate|].
  intros H. apply andb_true_iff in H. destruct H as (Hv & Hd).
  destruct (k' =? k)%string; [intros [= <-]; exact Hv | now apply IH].
Qed.

Lemma original_sequence_well_formed (d : dict) (c : column) :
  well_formed (VDict d) = true -> well_formed (original_sequence d c) = true.
Proof.
  intros H. cbn [well_formed] in H. apply andb_true_iff in H. destruct H as (_ & H).
  unfold original_sequence, last_resort.
  destruct (rule_of c) as [| |l k]; try reflexivity.
  destruct (lookup d l) eqn:Hl; [now apply (lookup_well_formed d l)|].
  destruct (lookup d k) eqn:Hk; [now apply (lookup_well_formed d k) | reflexivity].
Qed.

Lemma truthy_json_dumps (v : value) : truthy (VStr (json_dumps v)) = true.
Proof.
  cbn. apply negb_true_iff. apply String.eqb_neq. apply json_dumps_not_empty.
Qed.

(** A cell written from the arguments of a well-formed record reads
    back. *)
Lemma read_stored_cell (d : dict) (r : row) (c : column) :
  well_formed (VDict d) = true ->
  cell r = stored_cell E (Api.insert_args d) ->
  Api.read_cell json_loads r c
  = Some (if is_sequence_column c then original_sequence d c
          else py_of_sql (cell r c)).
Proof.
  intros Hwf Hcell. unfold Api.read_cell.
  destruct (is_sequence_column c) eqn:Hc; [|reflexivity].
  rewrite Hcell. unfold stored_cell. rewrite (sequence_arg d c Hc).
  cbn [adapt]. replace (column_affinity c) with TEXT
    by (destruct c; try discriminate; reflexivity).
  cbn [apply_affinity py_of_sql]. unfold Api.read_sequence.
  rewrite truthy_json_dumps, json_loads_dumps; [reflexivity|].
  now apply original_sequence_well_formed.
Qed.

Lemma stored_row_readable (d : dict) (r : row) :
  well_formed (VDict d) = true ->
  cell r = stored_cell E (Api.insert_args d) ->
  readable json_loads r.
Proof.
  intros Hwf Hcell. unfold readable, Api.startup_of_row.
  replace (forallb _ columns) with true; [discriminate|].
  symmetry. apply forallb_forall. intros c _.
  now rewrite (read_stored_cell d r c Hwf Hcell).
Qed.

Lemma save_candidate_saved (st st' : store) (n : Z) (d : dict) :
  Api.save_candidate E (st, n) (VDict d) = (st', n + 1) ->
  truthy (Api.candidate_name d) = true
  /\ execute_insert E st (Api.insert_args d) = Some st'.
Proof.
  unfold Api.save_candidate, Api.save_startup_to_db.
  destruct (truthy (Api.candidate_name d)); [|intros H; injection H as _ H; lia].
  destruct (execute_insert E st (Api.insert_args d)) as [st1|].
  - intros H. injection H as ->. now split.
  - intros H. injection H as _ H. lia.
Qed.

Lemma execute_insert_rows (st st' : store) (a : args) :
  execute_insert E st a = Some st' ->
  exists r, rows st' = (rows st ++ [r])%list
            /\ row_id r = last_id st + 1
            /\ cell r = stored_cell E a.
Proof.
  unfold execute_insert. destruct (forallb _ columns); [|discriminate].
  destruct (stored_cell E a company_name); [discriminate| |];
    intros [= <-]; eexists; cbn; repeat split.
Qed.

(** The endpoint keeps the store readable: the hypothesis of the round
    trip holds in every store it builds from the empty one out of
    well-formed candidates. *)
Lemma save_candidate_keeps_readable (acc : store * Z) (v : value) :
  well_formed v = true ->
  Forall (readable json_loads) (rows (fst acc)) ->
  Forall (readable json_loads) (rows (fst (Api.save_candidate E acc v))).
Proof.
  intros Hwf Hread. destruct acc as [st n].
  destruct v as [| | | | |d]; try exact Hread.
  unfold Api.save_candidate, Api.save_startup_to_db.
  destruct (truthy (Api.candidate_name d)); [|exact Hread].
  destruct (execute_insert E st (Api.insert_args d)) as [st'|] eqn:Hins;
    [|exact Hread].
  destruct (execute_insert_rows st st' _ Hins) as (r & Hrows & _ & Hcell).
  cbn [fst]. rewrite Hrows. apply Forall_app. split; [exact Hread|].
  constructor; [|constructor]. now apply (stored_row_readable d).
Qed.

Lemma save_candidates_keep_readable (l : list value) :
  Forall (fun v => well_formed v = true) l ->
  forall acc : store * Z,
    Forall (readable json_loads) (rows (fst acc)) ->
    Forall (readable json_loads)
      (rows (fst (fold_left (Api.save_candidate E) l acc))).
Proof.
  induction 1 as [|v l Hv _ IH]; intros acc Hread; cbn [fold_left]; [exact Hread|].
  apply IH. now apply save_candidate_keeps_readable.
Qed.

(** C2.  A well-formed candidate record that the endpoint accepts and
    saves, in a store whose rows can be read back: the listing of the
    store then holds the record under its new id, and each of its four
    sequence columns reads back as the sequence the candidate gave (the
    value under the label key, else under the canonical key), the empty
    sequence when the candidate gave none. *)
Theorem sequences_round_trip (st st' : store) (n : Z) (d : dict) :
  well_formed (VDict d) = true ->
  Forall (readable json_loads) (rows st) ->
  Api.save_candidate E (st, n) (VDict d) = (st', n + 1) ->
  exists s : startup,
    In s (Api.get_all_startups_from_db json_loads st')
    /\ s_id s = last_id st + 1
    /\ (forall c, is_sequence_column c = true ->
                  s_field s c = original_sequence d c)
    /\ (forall c, is_sequence_column c = true ->
                  (forall k, In k (Spec.candidate_keys c) -> lookup d k = None) ->
                  s_field s c = VList []).
Proof.
  intros Hwf Hread Hsave.
  destruct (save_candidate_saved st st' n d Hsave) as (_ & Hins).
  destruct (execute_insert_rows st st' _ Hins) as (r & Hrows & Hid & Hcell).
  assert (Hr : readable json_loads r) by now apply (stored_row_readable d).
  assert (Hall : Forall (readable json_loads) (rows st')).
  { rewrite Hrows. apply Forall_app. split; [exact Hread | now constructor]. }
  assert (Hseq : forall c, is_sequence_column c = true ->
                           s_field (Api.row_startup json_loads r) c
                           = original_sequence d c).
  { intros c Hc. cbn [s_field Api.row_startup].
    now rewrite (read_stored_cell d r c Hwf Hcell), Hc. }
  exists (Api.row_startup json_loads r). split; [|split; [|split]].
  - rewrite (get_all_readable json_loads st' Hall). apply in_map.
    apply (Permutation_in _ (Permutation_sym (order_by_perm (rows st')))).
    rewrite Hrows. apply in_or_app. right. now left.
  - exact Hid.
  - exact Hseq.
  - intros c Hc Hnone. rewrite (Hseq c Hc).
    unfold original_sequence, last_resort.
    destruct c; try discriminate; cbn [rule_of];
      rewrite !Hnone by (cbn; tauto); reflexivity.
Qed.

End RoundTrip.

(** ** The program at particular inputs *)

(** C4 at its failing input.  [research_startups.py] accepts an item
    that has the key [company_name] and then reads the name under
    [Company Name] only: the row is stored with an empty company
    name. *)
Theorem research_path_stores_empty_name (E : engine) :
  json_loads canonical_only_text = Loaded (VList [VDict [("company_name", VStr "Acme")]])
  /\ exists r : row,
      ResearchStartups.parse_and_save_result_file E json_loads
        (single_file "research_results.json" canonical_only_text)
        empty_store "research_results.json"
      = ({| rows := [r]; last_id := 1 |}, true)
      /\ cell r company_name = SText "".
Proof.
  split; [vm_compute; reflexivity|]. eexists. split; reflexivity.
Qed.

(** The same item through [api.py] is stored under its name. *)
Lemma api_path_stores_the_name :
  map (fun r => cell r company_name)
    (rows (fst (Api.save_from_file sample_engine json_loads
                  (single_file "research_results.json" canonical_only_text)
                  empty_store "research_results.json")))
  = [SText "Acme"].
Proof. vm_compute. reflexivity. Qed.

(** C5 as stated fails.  A log prefix holds a [[]: the substring from
    the first [[] to the last []] is then not the array, and the file
    yields no record although it is one block of prose, one well-formed
    array and one block of prose.  With two arrays in the text, neither
    the first nor any other is read. *)
Lemma recovery_fails_on_bracket_in_prose :
  logged_text = ("[INFO] results: " ++ one_record_text ++ " done")%string
  /\ json_loads one_record_text = Loaded (VList [VDict [("name", VStr "A")]])
  /\ json_loads "[INFO] results: " = JSONDecodeError
  /\ json_loads " done" = JSONDecodeError
  /\ json_loads (strip logged_text) = JSONDecodeError
  /\ Api.parse_result_file json_loads (single_file "run.log" logged_text) "run.log" = []
  /\ json_loads "[1]" = Loaded (VList [VInt 1])
  /\ Api.parse_result_file json_loads (single_file "run.log" two_arrays_text) "run.log" = [].
Proof. repeat split; vm_compute; reflexivity. Qed.

(** C6 as stated fails for [N = 0]: a file that holds the empty array
    is answered with 400, not with a report of 0 found and 0 saved. *)
Lemma empty_array_is_rejected :
  json_loads "[]" = Loaded (VList [])
  /\ Api.save_from_file sample_engine json_loads (single_file "empty.json" "[]")
       empty_store "empty.json"
     = (empty_store, HTTPException 400 "No valid startup data found in empty.json").
Proof. split; vm_compute; reflexivity. Qed.

(** C7 as stated fails when a file named [all] exists: the patterns
    match no file, and the endpoint answers with the report of that
    file instead of 404. *)
Lemma all_is_read_as_a_file :
  all_result_files (single_file "all" one_record_text) = []
  /\ snd (Api.save_from_file sample_engine json_loads
            (single_file "all" one_record_text) empty_store "all")
     = OK (Api.FileReport "Successfully processed all" 1 1).
Proof. split; vm_compute; reflexivity. Qed.

(** C8 as stated fails.  The year 0, though given, is not applied: the
    records of 2019 and 2021 are listed.  A negative limit drops
    records from the end instead of truncating to the limit.  And over
    a store that holds a null industry, an industry filter makes the
    listing fail with 500. *)
Lemma listing_filters_fail :
  listed founding_year (Api.get_startups json_loads sample_store None None (Some 0))
  = Some [VInt 2019; VInt 2021]
  /\ listed company_name (Api.get_startups json_loads sample_store (Some (-1)) None None)
     = Some [VStr "Beta Inc"]
  /\ Api.get_startups json_loads null_industry_store None (Some "fin") None
     = HTTPException 500
         "Error retrieving startups: 'NoneType' object has no attribute 'lower'".
Proof. repeat split; vm_compute; reflexivity. Qed.

(** ** The theorems at sample inputs *)

(** Decidable forms of two hypotheses of the listing theorem. *)
Lemma readable_forallb (loads : string -> load_result) (l : list row) :
  forallb (fun r => match Api.startup_of_row loads r with
                    | Some _ => true
                    | None => false
                    end) l = true ->
  Forall (readable loads) l.
Proof.
  intros H. rewrite forallb_forall in H. apply Forall_forall. intros r Hr.
  specialize (H r Hr). unfold readable.
  destruct (Api.startup_of_row loads r); [discriminate | discriminate H].
Defined.

Lemma text_industry_forallb (l : list row) :
  forallb (fun r => match cell r industry_sector with
                    | SText _ => true
                    | _ => false
                    end) l = true ->
  Forall (fun r => exists x, cell r industry_sector = SText x) l.
Proof.
  intros H. rewrite forallb_forall in H. apply Forall_forall. intros r Hr.
  specialize (H r Hr). destruct (cell r industry_sector) as [| |x];
    [discriminate H | discriminate H | now exists x].
Defined.

(** The round trip at the record [acme], saved into the empty store. *)
Lemma sequences_round_trip_witness :
  well_formed (VDict acme) = true
  /\ Api.save_candidate sample_engine (empty_store, 0) (VDict acme)
     = (fst (Api.save_candidate sample_engine (empty_store, 0) (VDict acme)), 0 + 1)
  /\ exists s : startup,
      In s (Api.get_all_startups_from_db json_loads
              (fst (Api.save_candidate sample_engine (empty_store, 0) (VDict acme))))
      /\ s_id s = last_id empty_store + 1
      /\ (forall c, is_sequence_column c = true ->
                    s_field s c = original_sequence acme c)
      /\ (forall c, is_sequence_column c = true ->
                    (forall k, In k (Spec.candidate_keys c) -> lookup acme k = None) ->
                    s_field s c = VList []).
Proof.
  split; [reflexivity|]. split; [reflexivity|].
  apply (sequences_round_trip sample_engine empty_store _ 0 acme);
    [reflexivity | constructor | reflexivity].
Defined.

(** The rejection at [anonymous], between two accepted records. *)
Lemma nameless_candidate_skipped_witness :
  nameless anonymous
  /\ Api.save_candidate sample_engine (empty_store, 0) (VDict anonymous)
     = (empty_store, 0)
  /\ Api.save_candidates sample_engine empty_store
       ([VDict acme] ++ VDict anonymous :: [VDict beta])
     = Api.save_candidates sample_engine empty_store ([VDict acme] ++ [VDict beta])
  /\ ParseResultsToDb.save_startups_to_db sample_engine empty_store
       ([VDict acme] ++ VDict anonymous :: [VDict beta])
     = ParseResultsToDb.save_startups_to_db sample_engine empty_store
         ([VDict acme] ++ [VDict beta]).
Proof.
  assert (H : nameless anonymous) by (repeat split; reflexivity).
  split; [exact H|].
  exact (nameless_candidate_skipped sample_engine empty_store 0 anonymous
           [VDict acme] [VDict beta] H).
Defined.

(** Recovery at an array between two blocks of prose. *)
Lemma recovery_parsing_witness :
  read_text (single_file "notes.txt" prose_text) "notes.txt" = Some prose_text
  /\ json_loads (strip prose_text) = JSONDecodeError
  /\ Api.parse_result_file json_loads (single_file "notes.txt" prose_text) "notes.txt"
     = [VDict [("name", VStr "A")]].
Proof.
  assert (H1 : read_text (single_file "notes.txt" prose_text) "notes.txt"
               = Some prose_text) by reflexivity.
  assert (H2 : json_loads (strip prose_text) = JSONDecodeError)
    by (vm_compute; reflexivity).
  split; [exact H1|]. split; [exact H2|].
  apply (proj1 (proj2 (recovery_parsing json_loads
                         (single_file "notes.txt" prose_text)
                         "notes.txt" prose_text H1 H2))
           "Results: " (json_dumps (VDict [("name", VStr "A")])) " (end of run)");
    vm_compute; reflexivity.
Defined.

(** The report for a file of two items, one of them without a name. *)
Lemma single_file_report_witness :
  json_loads (strip two_candidates_text) = Loaded (VList [VDict acme; VDict anonymous])
  /\ snd (Api.save_from_file sample_engine json_loads
            (single_file "two.json" two_candidates_text) empty_store "two.json")
     = OK (Api.FileReport ("Successfully processed " ++ "two.json")
             (Z.of_nat (List.length [VDict acme; VDict anonymous]))
             (Z.of_nat (List.length (filter accepted [VDict acme; VDict anonymous])))).
Proof.
  assert (H : json_loads (strip two_candidates_text)
              = Loaded (VList [VDict acme; VDict anonymous]))
    by (vm_compute; reflexivity).
  split; [exact H|].
  apply (single_file_report sample_engine json_loads
           (single_file "two.json" two_candidates_text) empty_store
           "two.json" two_candidates_text [VDict acme; VDict anonymous]).
  - reflexivity.
  - reflexivity.
  - vm_compute. discriminate.
  - exact H.
  - discriminate.
  - constructor; [|constructor; [|constructor]].
    + intros d Hd _. injection Hd as <-. reflexivity.
    + intros d Hd Ht. injection Hd as <-. discriminate Ht.
Defined.

(** The keyword [all] in an empty working directory. *)
Lemma all_without_result_files_witness :
  path_exists empty_directory "all" = false
  /\ all_result_files empty_directory = []
  /\ Api.save_from_file sample_engine json_loads empty_directory empty_store "all"
     = (empty_store, HTTPException 404 "No result files found")
  /\ ParseResultsToDb.main sample_engine json_loads empty_directory empty_store "all"
     = (empty_store, ParseResultsToDb.NoResultFilesFound).
Proof.
  split; [reflexivity|]. split; [reflexivity|].
  exact (all_without_result_files sample_engine json_loads empty_directory
           empty_store eq_refl eq_refl).
Defined.

(** The keyword [all] where a file of that name exists, and the same
    text under another name. *)
Lemma existing_file_named_all_witness :
  path_exists (single_file "all" one_record_text) "all" = true
  /\ Api.save_from_file sample_engine json_loads
       (single_file "all" one_record_text) empty_store "all"
     = (fst (Api.save_candidates sample_engine empty_store
               [VDict [("name", VStr "A")]]),
        OK (Api.FileReport "Successfully processed all" 1 1))
  /\ Api.save_from_file sample_engine json_loads
       (single_file "one.json" one_record_text) empty_store "one.json"
     = (fst (Api.save_candidates sample_engine empty_store
               [VDict [("name", VStr "A")]]),
        OK (Api.FileReport "Successfully processed one.json" 1 1))
  /\ (forall (message : string) (total : Z) (files : list (string * Z)),
        snd (Api.save_from_file sample_engine json_loads
               (single_file "all" one_record_text) empty_store "all")
        <> OK (Api.AllReport message total files)).
Proof.
  pose proof (existing_file_named_all sample_engine json_loads
                (single_file "all" one_record_text) empty_store eq_refl)
    as (Hany & _ & _ & Hnot).
  assert (Hp : Api.parse_result_file json_loads
                 (single_file "all" one_record_text) "all"
               = [VDict [("name", VStr "A")]]) by (vm_compute; reflexivity).
  split; [reflexivity|]. split; [|split; [|exact Hnot]].
  - rewrite (Hany (single_file "all" one_record_text) "all" eq_refl eq_refl), Hp.
    reflexivity.
  - rewrite (Hany (single_file "one.json" one_record_text) "one.json"
               eq_refl eq_refl), Hp.
    reflexivity.
Defined.

(** The listing of [sample_store] by industry and year. *)
Lemma list_startups_witness :
  Forall (readable json_loads) (rows sample_store)
  /\ exists kept : list startup,
      Api.get_startups json_loads sample_store None (Some "fin") (Some 2021)
      = OK {| Api.total_returned := Z.of_nat (List.length (firstn (Z.to_nat 100) kept));
              Api.startups := firstn (Z.to_nat 100) kept |}
      /\ StronglySorted (fun a b => s_created_at b <= s_created_at a) kept
      /\ (forall s, In s kept
                    <-> (exists r, In r (rows sample_store)
                                   /\ Api.startup_of_row json_loads r = Some s)
                        /\ industry_applies (Some "fin") s
                        /\ year_applies (Some 2021) s)
      /\ (exists kept_rows : list row,
            kept = map (Api.row_startup json_loads) kept_rows
            /\ Permutation kept_rows
                 (filter (passes json_loads (Some "fin") (Some 2021))
                    (rows sample_store))
            /\ StronglySorted newer_first kept_rows)
      /\ (forall r, passes json_loads (Some "fin") (Some 2021) r = true
                    <-> industry_applies (Some "fin") (Api.row_startup json_loads r)
                        /\ year_applies (Some 2021) (Api.row_startup json_loads r)).
Proof.
  assert (H : Forall (readable json_loads) (rows sample_store))
    by (apply readable_forallb; vm_compute; reflexivity).
  split; [exact H|].
  apply (list_startups json_loads sample_store None (Some "fin") (Some 2021) H).
  - intros i _ _. apply text_industry_forallb. vm_compute. reflexivity.
  - intros n Hn. discriminate Hn.
Defined.

(** ** What ingestion does to the table *)

Lemma map_seq_shift {A : Type} (g : nat -> A) (n a m : nat) :
  map g (seq (a + n) m) = map (fun i => g (i + n)%nat) (seq a m).
Proof.
  revert a. induction m as [|m IH]; intros a; cbn; [reflexivity|].
  f_equal. apply (IH (S a)).
Qed.

Lemma appended_nil (st : store) : appended st st [].
Proof.
  unfold appended. cbn. rewrite app_nil_r. repeat split. lia.
Qed.

Lemma appended_app (st st1 st2 : store) (a b : list row) :
  appended st st1 a -> appended st1 st2 b -> appended st st2 (a ++ b).
Proof.
  intros (Ha1 & Ha2 & Ha3) (Hb1 & Hb2 & Hb3). unfold appended.
  rewrite Hb1, Ha1, Hb2, Ha2, length_app, map_app, Ha3, Hb3, Ha2.
  split; [now rewrite app_assoc|]. split; [lia|].
  rewrite seq_app, map_app. f_equal.
  rewrite (map_seq_shift (fun i => last_id st + Z.of_nat i) (List.length a) 1).
  apply map_ext. intros i. lia.
Qed.

Section Growth.

Variable E : engine.

Lemma execute_insert_appended (st st' : store) (a : args) :
  execute_insert E st a = Some st' ->
  exists r, appended st st' [r] /\ cell r = stored_cell E a
            /\ created_at r = timestamp_of E (last_id st + 1).
Proof.
  unfold execute_insert. destruct (forallb _ columns); [|discriminate].
  set (r := {| row_id := last_id st + 1; cell := stored_cell E a;
               created_at := timestamp_of E (last_id st + 1) |}).
  destruct (stored_cell E a company_name); [discriminate| |];
    intros [= <-]; exists r; (split; [|split; reflexivity]);
    unfold appended; cbn; repeat split; f_equal; lia.
Qed.

Lemma Z_repr_not_empty (n : Z) : Z_repr n <> "".
Proof.
  destruct (Z_repr_head n) as (c & r & H & _). rewrite H. discriminate.
Qed.

(** A truthy parameter is stored in a TEXT column as a non-empty text. *)
Lemma truthy_stored_text (v : value) :
  truthy v = true -> bindable v = true ->
  exists s, match adapt v with
            | Some x => apply_affinity E TEXT x
            | None => SNull
            end = SText s /\ s <> "".
Proof.
  unfold bindable. intros Ht Hb.
  destruct (adapt v) as [x|] eqn:Ha; [|discriminate Hb].
  destruct v as [|b|n|s|l|d]; cbn in Ha, Ht; try discriminate.
  - injection Ha as <-. eexists. split; [reflexivity|]. apply Z_repr_not_empty.
  - destruct ((_ <=? n) && (n <? _)) in Ha; [|discriminate Ha].
    injection Ha as <-. eexists. split; [reflexivity|]. apply Z_repr_not_empty.
  - injection Ha as <-. exists s. split; [reflexivity|].
    apply negb_true_iff in Ht. now apply String.eqb_neq.
Qed.

Lemma execute_insert_bindable (st st' : store) (a : args) :
  execute_insert E st a = Some st' ->
  forallb (fun c => bindable (a c)) columns = true.
Proof.
  unfold execute_insert. now destruct (forallb _ columns).
Qed.

(** One turn of the loop of the endpoint: at most one row, appended,
    named, and counted. *)
Lemma save_candidate_grows (acc : store * Z) (v : value) :
  exists added : list row,
    appended (fst acc) (fst (Api.save_candidate E acc v)) added
    /\ snd (Api.save_candidate E acc v) = snd acc + Z.of_nat (List.length added)
    /\ (List.length added <= 1)%nat
    /\ Forall named added.
Proof.
  destruct acc as [st n].
  assert (Hsame : exists added : list row,
             appended st st added /\ n = n + Z.of_nat (List.length added)
             /\ (List.length added <= 1)%nat /\ Forall named added).
  { exists []. split; [apply appended_nil|]. cbn. repeat split; try lia. constructor. }
  destruct v as [| | | | |d]; try exact Hsame.
  unfold Api.save_candidate, Api.save_startup_to_db.
  destruct (truthy (Api.candidate_name d)) eqn:Hname; [|exact Hsame].
  destruct (execute_insert E st (Api.insert_args d)) as [st'|] eqn:Hins;
    [|exact Hsame].
  destruct (execute_insert_appended st st' _ Hins) as (r & Happ & Hcell & _).
  exists [r]. cbn [fst snd List.length]. split; [exact Happ|].
  split; [lia|]. split; [lia|]. constructor; [|constructor].
  pose proof (execute_insert_bindable st st' _ Hins) as Hb.
  rewrite forallb_forall in Hb.
  assert (Hbn : bindable (Api.insert_args d company_name) = true)
    by (apply Hb; cbn; now left).
  destruct (truthy_stored_text (Api.insert_args d company_name) Hname Hbn)
    as (s & Hs & Hne).
  exists s. split; [|exact Hne]. rewrite Hcell. exact Hs.
Qed.

Lemma save_candidates_grow (l : list value) :
  forall acc : store * Z,
  exists added : list row,
    appended (fst acc) (fst (fold_left (Api.save_candidate E) l acc)) added
    /\ snd (fold_left (Api.save_candidate E) l acc)
       = snd acc + Z.of_nat (List.length added)
    /\ (List.length added <= List.length l)%nat
    /\ Forall named added.
Proof.
  induction l as [|v l IH]; intros acc; cbn [fold_left].
  - exists []. split; [apply appended_nil|]. cbn. repeat split; try lia. constructor.
  - destruct (save_candidate_grows acc v) as (a & Ha1 & Ha2 & Ha3 & Ha4).
    destruct (IH (Api.save_candidate E acc v)) as (b & Hb1 & Hb2 & Hb3 & Hb4).
    exists (a ++ b)%list. split; [now apply (appended_app _ _ _ _ _ Ha1)|].
    rewrite length_app. split; [lia|]. split; [cbn [List.length]; lia|].
    apply Forall_app. now split.
Qed.

End Growth.

Section Endpoint.

Variable E : engine.
Variable loads : string -> load_result.

Lemma save_candidates_appended (st : store) (l : list value) :
  exists added : list row,
    appended st (fst (Api.save_candidates E st l)) added
    /\ snd (Api.save_candidates E st l) = Z.of_nat (List.length added)
    /\ (List.length added <= List.length l)%nat
    /\ Forall named added.
Proof.
  destruct (save_candidates_grow E l (st, 0)) as (a & H1 & H2 & H3 & H4).
  exists a. unfold Api.save_candidates. cbn [fst snd] in H1, H2.
  split; [exact H1|]. split; [rewrite H2; apply Z.add_0_l|]. now split.
Qed.

(** Whether an INSERT succeeds does not depend on the table. *)
Lemma execute_insert_any_store (st st' : store) (a : args) :
  execute_insert E st a = None <-> execute_insert E st' a = None.
Proof.
  unfold execute_insert. destruct (forallb _ columns); [|tauto].
  destruct (stored_cell E a company_name); split; intros H;
    try reflexivity; discriminate H.
Qed.

Lemma save_candidate_any_store (st st' : store) (n : Z) (v : value) :
  snd (Api.save_candidate E (st, n) v) = snd (Api.save_candidate E (st', n) v).
Proof.
  destruct v as [| | | | |d]; try reflexivity.
  unfold Api.save_candidate, Api.save_startup_to_db.
  destruct (truthy (Api.candidate_name d)); [|reflexivity].
  pose proof (execute_insert_any_store st st' (Api.insert_args d)) as H.
  destruct (execute_insert E st (Api.insert_args d)) as [s1|],
           (execute_insert E st' (Api.insert_args d)) as [s2|];
    try reflexivity.
  - destruct H as [_ H]. discriminate (H eq_refl).
  - destruct H as [H _]. discriminate (H eq_refl).
Qed.

Lemma save_candidates_fold_any_store (l : list value) :
  forall (st st' : store) (n : Z),
    snd (fold_left (Api.save_candidate E) l (st, n))
    = snd (fold_left (Api.save_candidate E) l (st', n)).
Proof.
  induction l as [|v l IH]; intros st st' n; cbn [fold_left]; [reflexivity|].
  pose proof (save_candidate_any_store st st' n v) as H.
  destruct (Api.save_candidate E (st, n) v) as [s1 n1],
           (Api.save_candidate E (st', n) v) as [s2 n2].
  cbn [snd] in H. subst n2. apply IH.
Qed.

Lemma save_candidates_any_store (st st' : store) (l : list value) :
  snd (Api.save_candidates E st l) = snd (Api.save_candidates E st' l).
Proof. apply save_candidates_fold_any_store. Qed.

(** The loop over the files of "all": the rows of every file are
    appended in turn, and each file is listed with its own count. *)
Lemma save_files_grow (fs : filesystem) (files : list string) :
  forall (st : store) (total : Z) (processed : list (string * Z)),
  exists added : list row,
    let '(st', total', processed') :=
      fold_left (Api.save_file E loads fs) files (st, total, processed) in
    appended st st' added
    /\ total' = total + Z.of_nat (List.length added)
    /\ Forall named added
    /\ total'
       = total
         + sum_Z (map (fun f => snd (Api.save_candidates E empty_store
                                       (Api.parse_result_file loads fs f)))
                    files)
    /\ processed'
       = (processed
          ++ map (fun f => (f, snd (Api.save_candidates E empty_store
                                      (Api.parse_result_file loads fs f))))
               files)%list.
Proof.
  induction files as [|f files IH]; intros st total processed; cbn [fold_left].
  - exists []. split; [apply appended_nil|]. cbn. rewrite app_nil_r.
    split; [lia|]. split; [constructor|]. split; [lia|reflexivity].
  - unfold Api.save_file at 2.
    destruct (save_candidates_appended st (Api.parse_result_file loads fs f))
      as (a & Ha1 & Ha2 & _ & Ha4).
    pose proof (save_candidates_any_store st empty_store
                  (Api.parse_result_file loads fs f)) as Hany.
    destruct (Api.save_candidates E st (Api.parse_result_file loads fs f))
      as [st1 n1]. cbn [fst snd] in Ha1, Ha2, Hany.
    specialize (IH st1 (total + n1) (processed ++ [(f, n1)])%list).
    destruct IH as (b & IH).
    exists (a ++ b)%list.
    destruct (fold_left (Api.save_file E loads fs) files
                (st1, total + n1, (processed ++ [(f, n1)])%list))
      as [[st2 total2] processed2].
    destruct IH as (Hb1 & Hb2 & Hb3 & Hb5 & Hb4).
    split; [exact (appended_app _ _ _ _ _ Ha1 Hb1)|].
    split; [rewrite length_app; lia|].
    split; [apply Forall_app; now split|].
    split; [cbn [map sum_Z]; rewrite <- Hany; lia|].
    rewrite Hb4, <- app_assoc. cbn [map app]. now rewrite Hany.
Qed.

(** What the endpoint does to the table, whatever its answer. *)
Lemma save_from_file_grows (fs : filesystem) (st : store) (filename : string) :
  exists added : list row,
    appended st (fst (Api.save_from_file E loads fs st filename)) added
    /\ reported_saved (snd (Api.save_from_file E loads fs st filename))
       = Z.of_nat (List.length added)
    /\ Forall named added.
Proof.
  assert (Hnone : exists added : list row,
             appended st st added /\ 0 = Z.of_nat (List.length added)
             /\ Forall named added).
  { exists []. split; [apply appended_nil|]. split; [reflexivity|constructor]. }
  unfold Api.save_from_file.
  destruct (negb (path_exists fs filename)).
  - destruct (filename =? "all")%string; [|exact Hnone].
    destruct (all_result_files fs) as [|f files] eqn:Hfiles; [exact Hnone|].
    destruct (save_files_grow fs (f :: files) st 0 []) as (a & Ha).
    destruct (fold_left (Api.save_file E loads fs) (f :: files) (st, 0, []))
      as [[st' total] processed].
    destruct Ha as (H1 & H2 & H3 & _ & _).
    exists a. cbn [fst snd reported_saved].
    split; [exact H1|]. split; [lia|exact H3].
  - destruct (Api.parse_result_file loads fs filename) as [|v l] eqn:Hp;
      [exact Hnone|].
    destruct (save_candidates_appended st (v :: l)) as (a & H1 & H2 & _ & H4).
    destruct (Api.save_candidates E st (v :: l)) as [st' n].
    exists a. cbn [fst snd reported_saved] in *.
    split; [exact H1|]. split; [exact H2|exact H4].
Qed.

End Endpoint.

(** The invariant of the ids survives an append. *)
Lemma appended_ids_in_order (st st' : store) (added : list row) :
  appended st st' added -> ids_in_order st -> ids_in_order st'.
Proof.
  intros (H1 & H2 & H3) [Hs Hb]. unfold ids_in_order.
  rewrite H1, H2, map_app, H3. split.
  - clear H1 H2 H3. revert Hs Hb.
    generalize (List.length added) as n.
    generalize (last_id st) as top. generalize (rows st) as l.
    induction l as [|r l IH]; intros top n Hs Hb.
    + cbn [map app]. clear Hs Hb. generalize 1%nat as a.
      induction n as [|n IHn]; intros a; cbn; constructor.
      * apply IHn.
      * apply Forall_forall. intros x Hx. apply in_map_iff in Hx.
        destruct Hx as (i & <- & Hi). apply in_seq in Hi. lia.
    + cbn [map app]. inversion Hs as [|? ? Hs' Hr]; subst.
      inversion Hb as [|? ? Hr' Hb']; subst.
      constructor; [now apply IH|].
      apply Forall_app. split; [exact Hr|].
      apply Forall_forall. intros x Hx. apply in_map_iff in Hx.
      destruct Hx as (i & <- & Hi). apply in_seq in Hi. lia.
  - apply Forall_app. split.
    + apply (Forall_impl _ (P := fun r => row_id r <= last_id st)); [|exact Hb].
      intros r Hr. cbn beta in *. lia.
    + apply Forall_forall. intros r Hr.
      assert (Hin : In (row_id r) (map row_id added)) by now apply in_map.
      rewrite H3 in Hin. apply in_map_iff in Hin.
      destruct Hin as (i & Hi & Hseq). apply in_seq in Hseq. lia.
Qed.

Lemma appended_named (st st' : store) (added : list row) :
  appended st st' added -> Forall named added ->
  Forall named (rows st) -> Forall named (rows st').
Proof.
  intros (H1 & _) Ha Hs. rewrite H1. apply Forall_app. now split.
Qed.

Section CommandLine.

Variable E : engine.
Variable loads : string -> load_result.

(** The loop of [parse_results_to_db.py] is the loop of the endpoint. *)
Lemma save_startups_to_db_same (st : store) (l : list value) :
  ParseResultsToDb.save_startups_to_db E st l = Api.save_candidates E st l.
Proof. destruct l; reflexivity. Qed.

Lemma save_files_same (fs : filesystem) (files : list string) :
  forall (st : store) (total : Z) (processed : list (string * Z)),
    fold_left (ParseResultsToDb.save_file E loads fs) files (st, total)
    = fst (fold_left (Api.save_file E loads fs) files (st, total, processed)).
Proof.
  induction files as [|f files IH]; intros st total processed; cbn [fold_left];
    [reflexivity|].
  unfold ParseResultsToDb.save_file at 2, Api.save_file at 2.
  rewrite save_startups_to_db_same, parse_result_file_same.
  destruct (Api.save_candidates E st (Api.parse_result_file loads fs f))
    as [st1 n1].
  apply IH.
Qed.

Lemma save_startups_to_db_appended (st : store) (l : list value) :
  exists added : list row,
    appended st (fst (ParseResultsToDb.save_startups_to_db E st l)) added
    /\ snd (ParseResultsToDb.save_startups_to_db E st l)
       = Z.of_nat (List.length added)
    /\ Forall named added.
Proof.
  rewrite save_startups_to_db_same.
  destruct (save_candidates_appended E st l) as (a & H1 & H2 & _ & H4).
  now exists a.
Qed.

Lemma main_grows (fs : filesystem) (st : store) (filename : string) :
  exists added : list row,
    appended st (fst (ParseResultsToDb.main E loads fs st filename)) added
    /\ outcome_saved (snd (ParseResultsToDb.main E loads fs st filename))
       = Z.of_nat (List.length added)
    /\ Forall named added.
Proof.
  unfold ParseResultsToDb.main.
  destruct (filename =? "all")%string.
  - destruct (all_result_files fs) as [|f files] eqn:Hfiles.
    + exists []. split; [apply appended_nil|]. split; [reflexivity|constructor].
    + rewrite (save_files_same fs (f :: files) st 0 []).
      destruct (save_files_grow E loads fs (f :: files) st 0 []) as (a & Ha).
      destruct (fold_left (Api.save_file E loads fs) (f :: files) (st, 0, []))
        as [[st' total] processed].
      destruct Ha as (H1 & H2 & H3 & _ & _).
      exists a. cbn [fst snd outcome_saved].
      split; [exact H1|]. split; [lia|exact H3].
  - destruct (save_startups_to_db_appended st
                (ParseResultsToDb.parse_result_file loads fs filename))
      as (a & H1 & H2 & H3).
    destruct (ParseResultsToDb.save_startups_to_db E st
                (ParseResultsToDb.parse_result_file loads fs filename))
      as [st' n].
    exists a. cbn [fst snd outcome_saved] in *.
    split; [exact H1|]. split; [exact H2|exact H3].
Qed.

End CommandLine.

Section Research.

Variable E : engine.
Variable loads : string -> load_result.

Lemma research_save_grows (st : store) (d : dict) :
  exists added : list row,
    appended st (ResearchStartups.save_startup_to_db E st d) added
    /\ (List.length added <= 1)%nat.
Proof.
  unfold ResearchStartups.save_startup_to_db.
  destruct (execute_insert E st (ResearchStartups.insert_args d)) as [st'|] eqn:H.
  - destruct (execute_insert_appended E st st' _ H) as (r & Hr & _).
    exists [r]. split; [exact Hr|]. cbn. lia.
  - exists []. split; [apply appended_nil|]. cbn. lia.
Qed.

Lemma research_save_all_grows (l : list value) :
  forall st : store,
  exists added : list row,
    appended st (ResearchStartups.save_all_startups_to_db E st l) added
    /\ (List.length added <= List.length l)%nat.
Proof.
  unfold ResearchStartups.save_all_startups_to_db.
  induction l as [|v l IH]; intros st; cbn [fold_left].
  - exists []. split; [apply appended_nil|]. cbn. lia.
  - assert (H : exists a : list row,
               appended st (match v with
                            | VDict d => ResearchStartups.save_startup_to_db E st d
                            | _ => st
                            end) a /\ (List.length a <= 1)%nat).
    { destruct v as [| | | | |d]; try (exists []; split; [apply appended_nil|cbn; lia]).
      apply research_save_grows. }
    destruct H as (a & Ha1 & Ha2).
    destruct (IH (match v with
                  | VDict d => ResearchStartups.save_startup_to_db E st d
                  | _ => st
                  end)) as (b & Hb1 & Hb2).
    exists (a ++ b)%list. split; [exact (appended_app _ _ _ _ _ Ha1 Hb1)|].
    rewrite length_app. cbn [List.length]. lia.
Qed.

Lemma parse_and_save_grows (fs : filesystem) (st : store) (filename : string) :
  exists added : list row,
    appended st
      (fst (ResearchStartups.parse_and_save_result_file E loads fs st filename))
      added.
Proof.
  assert (Hnone : exists added : list row, appended st st added)
    by (exists []; apply appended_nil).
  unfold ResearchStartups.parse_and_save_result_file.
  destruct (read_text fs filename) as [text|]; [|exact Hnone].
  destruct (strip text =? "")%string; [exact Hnone|].
  match goal with
  | |- context [match ?data with Some _ => _ | None => _ end] =>
      destruct data as [[| | | |l|d]|]; try exact Hnone
  end.
  - destruct (filter ResearchStartups.has_company_key l) as [|v vs];
      [exact Hnone|].
    destruct (research_save_all_grows (v :: vs) st) as (a & Ha & _).
    now exists a.
  - destruct (contains d "Company Name" || contains d "company_name");
      [|exact Hnone].
    destruct (research_save_all_grows [VDict d] st) as (a & Ha & _).
    now exists a.
Qed.

Lemma parse_and_save_false (fs : filesystem) (st : store) (filename : string) :
  snd (ResearchStartups.parse_and_save_result_file E loads fs st filename) = false ->
  fst (ResearchStartups.parse_and_save_result_file E loads fs st filename) = st.
Proof.
  unfold ResearchStartups.parse_and_save_result_file.
  destruct (read_text fs filename) as [text|]; [|reflexivity].
  destruct (strip text =? "")%string; [reflexivity|].
  match goal with
  | |- context [match ?data with Some _ => _ | None => _ end] =>
      destruct data as [[| | | |l|d]|]; try reflexivity
  end.
  - destruct (filter ResearchStartups.has_company_key l) as [|v vs];
      [reflexivity|discriminate].
  - destruct (contains d "Company Name" || contains d "company_name");
      [discriminate|reflexivity].
Qed.

End Research.

(** ** Ingestion: rows, ids and counts *)

(** X1.  The endpoint [POST /save-from-file] only appends.  Whatever it
    answers, the table afterwards is the table before followed by new
    rows that carry the next ids in order, and the count of saved
    records in the answer (none for an error answer) is the number of
    rows added. *)
Theorem endpoint_appends_what_it_reports (E : engine)
  (loads : string -> load_result) (fs : filesystem) (st : store)
  (filename : string) :
  exists added : list row,
    appended st (fst (Api.save_from_file E loads fs st filename)) added
    /\ reported_saved (snd (Api.save_from_file E loads fs st filename))
       = Z.of_nat (List.length added).
Proof.
  destruct (save_from_file_grows E loads fs st filename) as (a & H1 & H2 & _).
  now exists a.
Qed.

(** X2.  Ids are never reused.  If the ids of the table increase
    strictly along the rows and none exceeds the AUTOINCREMENT
    sequence, the same holds after an ingestion through the endpoint of
    [api.py], through the command line of [parse_results_to_db.py], and
    through [parse_and_save_result_file] of [research_startups.py]. *)
Theorem ingestion_keeps_ids_in_order (E : engine)
  (loads : string -> load_result) (fs : filesystem) (st : store)
  (filename : string) :
  ids_in_order st ->
  ids_in_order (fst (Api.save_from_file E loads fs st filename))
  /\ ids_in_order (fst (ParseResultsToDb.main E loads fs st filename))
  /\ ids_in_order
       (fst (ResearchStartups.parse_and_save_result_file E loads fs st filename)).
Proof.
  intros H.
  destruct (save_from_file_grows E loads fs st filename) as (a & Ha & _).
  destruct (main_grows E loads fs st filename) as (b & Hb & _).
  destruct (parse_and_save_grows E loads fs st filename) as (c & Hc).
  split; [exact (appended_ids_in_order _ _ _ Ha H)|].
  split; [exact (appended_ids_in_order _ _ _ Hb H)|].
  exact (appended_ids_in_order _ _ _ Hc H).
Qed.

(** X3.  The endpoint of [api.py] and the command line of
    [parse_results_to_db.py] never store a row without a name: if every
    row of the table has a non-empty text as [company_name], so has
    every row after the ingestion. *)
Theorem ingestion_stores_named_rows (E : engine)
  (loads : string -> load_result) (fs : filesystem) (st : store)
  (filename : string) :
  Forall named (rows st) ->
  Forall named (rows (fst (Api.save_from_file E loads fs st filename)))
  /\ Forall named (rows (fst (ParseResultsToDb.main E loads fs st filename))).
Proof.
  intros H.
  destruct (save_from_file_grows E loads fs st filename) as (a & Ha & _ & Ha').
  destruct (main_grows E loads fs st filename) as (b & Hb & _ & Hb').
  split; [exact (appended_named _ _ _ Ha Ha' H)|].
  exact (appended_named _ _ _ Hb Hb' H).
Qed.

(** X4.  In the report of a single file the endpoint never claims more
    saved records than it found, and it found at least one. *)
Theorem saved_at_most_found (E : engine) (loads : string -> load_result)
  (fs : filesystem) (st : store) (filename message : string) (found saved : Z) :
  snd (Api.save_from_file E loads fs st filename)
  = OK (Api.FileReport message found saved) ->
  1 <= found /\ 0 <= saved <= found.
Proof.
  unfold Api.save_from_file.
  destruct (negb (path_exists fs filename)).
  - destruct (filename =? "all")%string; [|discriminate].
    destruct (all_result_files fs) as [|f files]; [discriminate|].
    destruct (fold_left (Api.save_file E loads fs) (f :: files) (st, 0, []))
      as [[st' total] processed].
    discriminate.
  - destruct (Api.parse_result_file loads fs filename) as [|v l]; [discriminate|].
    destruct (save_candidates_appended E st (v :: l)) as (a & _ & H2 & H3 & _).
    destruct (Api.save_candidates E st (v :: l)) as [st' n].
    cbn [fst snd] in *. intros [= _ <- <-].
    cbn [List.length] in *. lia.
Qed.

(** X5.  The report of "all" lists the matched files in the order of
    the patterns, each with the count that ingesting that file alone
    would save (into any table), and its total is the sum of these
    counts. *)
Theorem all_report_adds_up (E : engine) (loads : string -> load_result)
  (fs : filesystem) (st : store) (filename message : string) (total : Z)
  (files : list (string * Z)) :
  snd (Api.save_from_file E loads fs st filename)
  = OK (Api.AllReport message total files) ->
  map fst files = all_result_files fs
  /\ total = sum_Z (map snd files)
  /\ Forall (fun entry =>
               forall st0 : store,
                 snd (Api.save_candidates E st0
                        (Api.parse_result_file loads fs (fst entry)))
                 = snd entry) files.
Proof.
  unfold Api.save_from_file.
  destruct (negb (path_exists fs filename)).
  - destruct (filename =? "all")%string; [|discriminate].
    destruct (all_result_files fs) as [|f fl] eqn:Hfiles; [discriminate|].
    destruct (save_files_grow E loads fs (f :: fl) st 0 []) as (a & Ha).
    destruct (fold_left (Api.save_file E loads fs) (f :: fl) (st, 0, []))
      as [[st' total'] processed].
    destruct Ha as (_ & _ & _ & Ht & Hp).
    cbn [snd app] in *. intros [= _ <- <-]. subst processed.
    rewrite !map_map. cbn [fst snd]. rewrite map_id.
    split; [reflexivity|]. split; [rewrite Ht; apply Z.add_0_l|].
    apply Forall_forall. intros entry Hin. apply in_map_iff in Hin.
    destruct Hin as (x & <- & _). intros st0. cbn [fst snd].
    apply save_candidates_any_store.
  - destruct (Api.parse_result_file loads fs filename) as [|v l]; [discriminate|].
    destruct (Api.save_candidates E st (v :: l)) as [st' n]. discriminate.
Qed.

(** X6.  Nothing is checked against the rows already stored: the answer
    of the endpoint - status, message and counts - is the same whatever
    the table holds, so the same file ingested again is saved again. *)
Theorem answer_ignores_stored_rows (E : engine) (loads : string -> load_result)
  (fs : filesystem) (st st' : store) (filename : string) :
  snd (Api.save_from_file E loads fs st filename)
  = snd (Api.save_from_file E loads fs st' filename).
Proof.
  unfold Api.save_from_file.
  destruct (negb (path_exists fs filename)).
  - destruct (filename =? "all")%string; [|reflexivity].
    destruct (all_result_files fs) as [|f fl] eqn:Hfiles; [reflexivity|].
    destruct (save_files_grow E loads fs (f :: fl) st 0 []) as (a & Ha).
    destruct (save_files_grow E loads fs (f :: fl) st' 0 []) as (b & Hb).
    destruct (fold_left (Api.save_file E loads fs) (f :: fl) (st, 0, []))
      as [[s1 t1] p1].
    destruct (fold_left (Api.save_file E loads fs) (f :: fl) (st', 0, []))
      as [[s2 t2] p2].
    destruct Ha as (_ & _ & _ & Ht1 & Hp1), Hb as (_ & _ & _ & Ht2 & Hp2).
    cbn [snd]. now rewrite Ht1, Ht2, Hp1, Hp2.
  - destruct (Api.parse_result_file loads fs filename) as [|v l]; [reflexivity|].
    pose proof (save_candidates_any_store E st st' (v :: l)) as H.
    destruct (Api.save_candidates E st (v :: l)) as [s1 n1],
             (Api.save_candidates E st' (v :: l)) as [s2 n2].
    cbn [snd] in *. now subst n2.
Qed.

(** X7.  The command line of [parse_results_to_db.py] and the endpoint
    of [api.py] ingest alike.  For an existing file that is not named
    "all", and for the keyword "all" where no file has that name, both
    leave the same table and report the same count of saved records. *)
Theorem command_line_matches_endpoint (E : engine)
  (loads : string -> load_result) (fs : filesystem) (st : store)
  (filename : string) :
  path_exists fs filename = negb (filename =? "all")%string ->
  fst (ParseResultsToDb.main E loads fs st filename)
  = fst (Api.save_from_file E loads fs st filename)
  /\ outcome_saved (snd (ParseResultsToDb.main E loads fs st filename))
     = reported_saved (snd (Api.save_from_file E loads fs st filename)).
Proof.
  intros H. unfold ParseResultsToDb.main, Api.save_from_file. rewrite H.
  destruct (filename =? "all")%string; cbn [negb].
  - destruct (all_result_files fs) as [|f fl]; [split; reflexivity|].
    rewrite (save_files_same E loads fs (f :: fl) st 0 []).
    destruct (fold_left (Api.save_file E loads fs) (f :: fl) (st, 0, []))
      as [[st' total] processed].
    split; reflexivity.
  - rewrite save_startups_to_db_same, parse_result_file_same.
    destruct (Api.parse_result_file loads fs filename) as [|v l];
      [split; reflexivity|].
    destruct (Api.save_candidates E st (v :: l)) as [st' n].
    split; reflexivity.
Qed.

(** X8.  [parse_and_save_result_file] of [research_startups.py] answers
    [False] only when it stored nothing: the table is then the table
    before the call. *)
Theorem research_failure_stores_nothing (E : engine)
  (loads : string -> load_result) (fs : filesystem) (st : store)
  (filename : string) :
  snd (ResearchStartups.parse_and_save_result_file E loads fs st filename) = false ->
  fst (ResearchStartups.parse_and_save_result_file E loads fs st filename) = st.
Proof.
  unfold ResearchStartups.parse_and_save_result_file.
  destruct (read_text fs filename) as [text|]; [|reflexivity].
  destruct (strip text =? "")%string; [reflexivity|].
  match goal with
  | |- context [match ?data with Some _ => _ | None => _ end] =>
      destruct data as [[| | | |l|d]|]; try reflexivity
  end.
  - destruct (filter ResearchStartups.has_company_key l) as [|v vs];
      [reflexivity|discriminate].
  - destruct (contains d "Company Name" || contains d "company_name");
      [discriminate|reflexivity].
Qed.

(** ** Looking a record up by its id *)

Lemma StronglySorted_lt_NoDup (l : list Z) : StronglySorted Z.lt l -> NoDup l.
Proof.
  induction 1 as [|x l _ IH Hx]; constructor; [|exact IH].
  intros Hin. rewrite Forall_forall in Hx. specialize (Hx x Hin). lia.
Qed.

Lemma NoDup_map_eq {A B : Type} (f : A -> B) (l : list A) (a b : A) :
  NoDup (map f l) -> In a l -> In b l -> f a = f b -> a = b.
Proof.
  induction l as [|x l IH]; cbn [map]; [contradiction|].
  intros Hnd Ha Hb Hf. inversion Hnd as [|? ? Hx Hl]; subst.
  destruct Ha as [<-|Ha], Hb as [<-|Hb].
  - reflexivity.
  - exfalso. apply Hx. rewrite Hf. now apply in_map.
  - exfalso. apply Hx. rewrite <- Hf. now apply in_map.
  - now apply IH.
Qed.

Lemma int64_bindable (n : Z) : int64 n -> bindable (VInt n) = true.
Proof.
  unfold int64, bindable, adapt. intros [H1 H2].
  destruct (Z.leb_spec (- 2 ^ 63) n); [|lia].
  destruct (Z.ltb_spec n (2 ^ 63)); [reflexivity|lia].
Qed.

Section Lookup.

Variable loads : string -> load_result.

Lemma startup_of_row_id (r : row) (s : startup) :
  Api.startup_of_row loads r = Some s -> s_id s = row_id r.
Proof.
  unfold Api.startup_of_row. destruct (forallb _ columns); [|discriminate].
  now intros [= <-].
Qed.

Lemma startups_of_rows_In (l : list row) (ss : list startup) (s : startup) :
  Api.startups_of_rows loads l = Some ss -> In s ss ->
  exists r, In r l /\ Api.startup_of_row loads r = Some s.
Proof.
  revert ss. induction l as [|r l IH]; intros ss; cbn [Api.startups_of_rows].
  - intros [= <-] [].
  - destruct (Api.startup_of_row loads r) as [s0|] eqn:Hr; [|discriminate].
    destruct (Api.startups_of_rows loads l) as [ss0|]; [|discriminate].
    intros [= <-] [<-|Hin].
    + exists r. split; [now left|exact Hr].
    + destruct (IH ss0 eq_refl Hin) as (r' & Hr' & Hs).
      exists r'. split; [now right|exact Hs].
Qed.

Lemma startups_of_rows_unreadable (l : list row) (r : row) :
  In r l -> Api.startup_of_row loads r = None ->
  Api.startups_of_rows loads l = None.
Proof.
  induction l as [|x l IH]; [contradiction|].
  intros [->|Hin] Hr; cbn [Api.startups_of_rows].
  - now rewrite Hr.
  - rewrite (IH Hin Hr). now destruct (Api.startup_of_row loads x).
Qed.

Lemma listed_record_has_row (st : store) (s : startup) :
  In s (Api.get_all_startups_from_db loads st) ->
  exists r, In r (rows st) /\ Api.startup_of_row loads r = Some s.
Proof.
  unfold Api.get_all_startups_from_db.
  destruct (Api.startups_of_rows loads (order_by_created_at_desc (rows st)))
    as [ss|] eqn:H; [|contradiction].
  intros Hin. destruct (startups_of_rows_In _ ss s H Hin) as (r & Hr & Hs).
  exists r. split; [|exact Hs].
  now apply (Permutation_in _ (order_by_perm (rows st))).
Qed.

(** X9.  [GET /startups/{startup_id}] for an id that fits 64 bits:
    the answer is 404 with the id in its detail exactly when no row has
    that id, and a record that is returned carries the id asked for and
    is the reading of a row of the table with that id. *)
Theorem lookup_by_id_answers (st : store) (startup_id : Z) :
  int64 startup_id ->
  (Api.get_startup_by_id loads st startup_id
   = Api.NotFound ("Startup with ID " ++ Z_repr startup_id ++ " not found")
   <-> forall r, In r (rows st) -> row_id r <> startup_id)
  /\ (forall s, Api.get_startup_by_id loads st startup_id = Api.Found s ->
        s_id s = startup_id
        /\ exists r, In r (rows st) /\ row_id r = startup_id
                     /\ Api.startup_of_row loads r = Some s).
Proof.
  intros Hid. unfold Api.get_startup_by_id. rewrite (int64_bindable _ Hid).
  destruct (List.find (fun r => row_id r =? startup_id) (rows st)) as [r|] eqn:Hf.
  - apply find_some in Hf. destruct Hf as (Hin & Heq). apply Z.eqb_eq in Heq.
    split.
    + split.
      * destruct (Api.startup_of_row loads r); discriminate.
      * intros H. exfalso. exact (H r Hin Heq).
    + intros s. destruct (Api.startup_of_row loads r) as [s0|] eqn:Hr;
        [|discriminate].
      intros [= <-]. split.
      * rewrite (startup_of_row_id r s0 Hr). exact Heq.
      * exists r. now repeat split.
  - split.
    + split; [|reflexivity]. intros _ r Hin Heq.
      pose proof (find_none _ _ Hf r Hin) as Hn. cbn beta in Hn.
      apply Z.eqb_neq in Hn. contradiction.
    + intros s. discriminate.
Qed.

Lemma find_unique_id (st : store) (r : row) :
  NoDup (map row_id (rows st)) -> In r (rows st) ->
  List.find (fun x => row_id x =? row_id r) (rows st) = Some r.
Proof.
  intros Hnd Hin.
  destruct (List.find (fun x => row_id x =? row_id r) (rows st)) as [x|] eqn:Hf.
  - apply find_some in Hf. destruct Hf as (Hx & Heq). apply Z.eqb_eq in Heq.
    f_equal. exact (NoDup_map_eq row_id (rows st) x r Hnd Hx Hin Heq).
  - pose proof (find_none _ _ Hf r Hin) as Hn. cbn beta in Hn.
    rewrite Z.eqb_refl in Hn. discriminate.
Qed.

(** X10.  The two read paths of [api.py] agree: over a table whose ids
    are in order, every record of the listing is the record that the
    lookup by its id returns. *)
Theorem listing_agrees_with_lookup (st : store) (s : startup) :
  ids_in_order st ->
  int64 (s_id s) ->
  In s (Api.get_all_startups_from_db loads st) ->
  Api.get_startup_by_id loads st (s_id s) = Api.Found s.
Proof.
  intros [Hs _] Hid Hin.
  destruct (listed_record_has_row st s Hin) as (r & Hr & Hrs).
  unfold Api.get_startup_by_id. rewrite (int64_bindable _ Hid).
  rewrite (startup_of_row_id r s Hrs).
  rewrite (find_unique_id st r (StronglySorted_lt_NoDup _ Hs) Hr).
  now rewrite Hrs.
Qed.

Lemma filter_industry_incl (i : string) (all : list startup) :
  forall l, Api.filter_industry i all = Some l -> incl l all.
Proof.
  induction all as [|s all IH]; cbn [Api.filter_industry].
  - intros l [= <-]. apply incl_refl.
  - intros l. destruct (Api.industry_matches i s) as [b|]; [|discriminate].
    destruct (Api.filter_industry i all) as [kept|]; [|discriminate].
    intros [= <-]. specialize (IH kept eq_refl).
    destruct b; [|now apply incl_tl].
    intros x [<-|Hx]; [now left | right; now apply IH].
Qed.

(** X11.  Whatever the filters, [GET /startups] with a limit that is
    not negative (100 when none is given) returns no more records than
    the limit, reports their number as [total_returned], and returns
    only records of the full listing. *)
Theorem listing_respects_limit (st : store) (limit : option Z)
  (industry : option string) (year : option Z) (body : Api.listing) :
  (forall n, limit = Some n -> 0 <= n) ->
  Api.get_startups loads st limit industry year = OK body ->
  Api.total_returned body = Z.of_nat (List.length (Api.startups body))
  /\ Api.total_returned body <= match limit with Some n => n | None => 100 end
  /\ incl (Api.startups body) (Api.get_all_startups_from_db loads st).
Proof.
  intros Hlimit. unfold Api.get_startups.
  set (lim := match limit with Some n => n | None => 100 end).
  assert (Hlim : 0 <= lim) by (unfold lim; destruct limit; [now apply Hlimit|lia]).
  set (all := Api.get_all_startups_from_db loads st).
  match goal with
  | |- match ?a with Some _ => _ | None => _ end = _ -> _ =>
      destruct a as [kept|] eqn:Hk; [|discriminate]
  end.
  assert (Hkept : incl kept all).
  { destruct industry as [i|]; [|injection Hk as <-; apply incl_refl].
    destruct (i =? "")%string; [injection Hk as <-; apply incl_refl|].
    now apply (filter_industry_incl i). }
  intros [= <-]. cbn [Api.total_returned Api.startups].
  split; [reflexivity|].
  unfold take_upto. destruct (Z.ltb_spec lim 0); [lia|].
  split.
  - match goal with
    | |- Z.of_nat (List.length (firstn ?n ?l)) <= _ =>
        pose proof (firstn_le_length n l) as Hle
    end. lia.
  - intros s Hs. apply Hkept.
    assert (Hyear : incl (match year with
                          | Some y => if y =? 0 then kept
                                      else filter (Api.year_matches y) kept
                          | None => kept
                          end) kept).
    { destruct year as [y|]; [|apply incl_refl].
      destruct (y =? 0); [apply incl_refl|]. apply incl_filter. }
    apply Hyear.
    match goal with
    | H : In s (firstn ?n ?l) |- _ =>
        rewrite <- (firstn_skipn n l); apply in_or_app; now left
    end.
Qed.

End Lookup.

(** X12.  A record saved through the endpoint is found under its new
    id, whatever else the table holds: after the loop of the endpoint
    saved a well-formed record into a table whose ids are in order, the
    lookup by the next id returns it, with each sequence column read
    back as the sequence the record gave and each other column as the
    stored cell. *)
Theorem saved_record_found_by_id (E : engine) (st st' : store) (n : Z)
  (d : dict) :
  well_formed (VDict d) = true ->
  ids_in_order st ->
  int64 (last_id st + 1) ->
  Api.save_candidate E (st, n) (VDict d) = (st', n + 1) ->
  exists s : startup,
    Api.get_startup_by_id json_loads st' (last_id st + 1) = Api.Found s
    /\ s_id s = last_id st + 1
    /\ (forall c, is_sequence_column c = true ->
                  s_field s c = original_sequence d c)
    /\ (forall c, is_sequence_column c = false ->
                  s_field s c = py_of_sql (stored_cell E (Api.insert_args d) c)).
Proof.
  intros Hwf [_ Hb] Hid Hsave.
  destruct (save_candidate_saved E st st' n d Hsave) as (_ & Hins).
  destruct (execute_insert_rows E st st' _ Hins) as (r & Hrows & Hrid & Hcell).
  pose proof (stored_row_readable E d r Hwf Hcell) as Hread.
  exists (Api.row_startup json_loads r).
  split; [|split; [exact Hrid|split]].
  - unfold Api.get_startup_by_id. rewrite (int64_bindable _ Hid), Hrows.
    assert (Hf : List.find (fun x => row_id x =? last_id st + 1)
                   (rows st ++ [r]) = Some r).
    { rewrite Forall_forall in Hb. clear Hrows.
      induction (rows st) as [|x l IH]; cbn [app List.find].
      - now rewrite Hrid, Z.eqb_refl.
      - assert (Hx : row_id x <= last_id st) by (apply Hb; now left).
        destruct (Z.eqb_spec (row_id x) (last_id st + 1)); [lia|].
        apply IH. intros y Hy. apply Hb. now right. }
    rewrite Hf. now rewrite (startup_of_row_readable json_loads r Hread).
  - intros c Hc. cbn [s_field Api.row_startup].
    now rewrite (read_stored_cell E d r c Hwf Hcell), Hc.
  - intros c Hc. rewrite (row_startup_scalar json_loads r c Hc).
    now rewrite Hcell.
Qed.

(** X13.  One row that cannot be read back hides every record: if a
    cell of a sequence column of some row is not a JSON text, the
    listing is empty with status 200 for every limit and filter, since
    [get_all_startups_from_db] answers any exception with the empty
    list. *)
Theorem unreadable_row_empties_listing (loads : string -> load_result)
  (st : store) (r : row) (limit : option Z) (industry : option string)
  (year : option Z) :
  In r (rows st) ->
  Api.startup_of_row loads r = None ->
  Api.get_all_startups_from_db loads st = []
  /\ Api.get_startups loads st limit industry year
     = OK {| Api.total_returned := 0; Api.startups := [] |}.
Proof.
  intros Hin Hr.
  assert (Hall : Api.get_all_startups_from_db loads st = []).
  { unfold Api.get_all_startups_from_db.
    rewrite (startups_of_rows_unreadable loads _ r); [reflexivity| |exact Hr].
    now apply (Permutation_in _ (Permutation_sym (order_by_perm (rows st)))). }
  split; [exact Hall|].
  unfold Api.get_startups. rewrite Hall.
  assert (Hi : match industry with
               | Some i => if (i =? "")%string then Some []
                           else Api.filter_industry i []
               | None => Some []
               end = Some (@nil startup)).
  { destruct industry as [i|]; [|reflexivity]. now destruct (i =? "")%string. }
  rewrite Hi.
  assert (Hy : match year with
               | Some y => if y =? 0 then [] else filter (Api.year_matches y) []
               | None => []
               end = @nil startup).
  { destruct year as [y|]; [|reflexivity]. now destruct (y =? 0). }
  rewrite Hy. unfold take_upto. rewrite !firstn_nil.
  now destruct (_ <? 0).
Qed.

(** ** Bounds of the statistics *)

Lemma distinct_length (l seen : list sqlval) :
  (List.length (Api.distinct seen l) <= List.length l)%nat.
Proof.
  revert seen. induction l as [|v l IH]; intros seen; cbn [Api.distinct];
    [apply Nat.le_refl|].
  destruct (existsb (sqlval_eqb v) seen); cbn [List.length].
  - specialize (IH seen). lia.
  - specialize (IH (v :: seen)). lia.
Qed.

(** X14.  The statistics of any table: the average founding year is
    null exactly when no row has a founding year; the count of rows
    with disclosed funding and the number of industries never exceed
    the total. *)
Theorem stats_average_and_bounds (E : engine) (st : store) :
  (Api.avg_founding_year (Api.get_database_stats E st) = None
   <-> Forall (fun r => cell r founding_year = SNull) (rows st))
  /\ 0 <= Api.total_funding_disclosed (Api.get_database_stats E st)
     <= Api.total_startups (Api.get_database_stats E st)
  /\ Z.of_nat (List.length (Api.industries (Api.get_database_stats E st)))
     <= Api.total_startups (Api.get_database_stats E st).
Proof.
  cbn [Api.get_database_stats Api.avg_founding_year Api.total_funding_disclosed
       Api.total_startups Api.industries].
  split; [|split].
  - unfold Api.sql_avg.
    induction (rows st) as [|r l IH]; cbn [map filter].
    + split; [constructor|reflexivity].
    + destruct (cell r founding_year) as [|y|t] eqn:Hc; cbn [Api.is_not_null].
      * rewrite IH. split; [now constructor|].
        intros H. now inversion H.
      * split; [discriminate|]. intros H. inversion H; congruence.
      * split; [discriminate|]. intros H. inversion H; congruence.
  - pose proof (filter_length_le Api.funding_disclosed (rows st)). lia.
  - rewrite length_map.
    pose proof (distinct_length
                  (filter (fun v => Api.is_not_null v && Api.sql_ne_text v "")
                     (map (fun r => cell r industry_sector) (rows st))) []) as H1.
    pose proof (filter_length_le
                  (fun v => Api.is_not_null v && Api.sql_ne_text v "")
                  (map (fun r => cell r industry_sector) (rows st))) as H2.
    rewrite length_map in H2. lia.
Qed.

(** ** Files without records *)

Lemma lstrip_all_space (s : string) : all_space s = true -> lstrip s = "".
Proof.
  induction s as [|c r IH]; cbn [all_space lstrip]; [reflexivity|].
  intros H. apply andb_true_iff in H. destruct H as (Hc & Hr).
  rewrite Hc. now apply IH.
Qed.

Lemma strip_all_space (s : string) : all_space s = true -> strip s = "".
Proof. intros H. unfold strip. now rewrite (lstrip_all_space s H). Qed.

(** X15.  A file that cannot be read, or that holds nothing but white
    space, yields no record on any path, whatever [json.loads] would
    make of it: [parse_result_file] of [api.py] and of
    [parse_results_to_db.py] return the empty list, and
    [parse_and_save_result_file] of [research_startups.py] returns
    [False] and leaves the table as it was. *)
Theorem blank_file_yields_nothing (E : engine) (loads : string -> load_result)
  (fs : filesystem) (st : store) (filename : string) :
  (forall text, read_text fs filename = Some text -> all_space text = true) ->
  Api.parse_result_file loads fs filename = []
  /\ ParseResultsToDb.parse_result_file loads fs filename = []
  /\ ResearchStartups.parse_and_save_result_file E loads fs st filename
     = (st, false).
Proof.
  intros H.
  unfold Api.parse_result_file, ParseResultsToDb.parse_result_file,
    ResearchStartups.parse_and_save_result_file.
  destruct (read_text fs filename) as [text|]; [|repeat split].
  rewrite (strip_all_space text (H text eq_refl)). repeat split.
Qed.

(** ** The normalisers *)

Lemma truthy_get_or (d : dict) (k : string) (default : value) :
  truthy (get d k) = true -> get_or d k default = get d k.
Proof.
  unfold get, get_or. destruct (lookup d k); [reflexivity|discriminate].
Qed.

(** X16.  [save_startup_to_db] of [research_startups.py] reads only the
    label keys.  For a column that the record gives under its label key
    (a truthy value for a text or a number, the key itself for a
    sequence) it binds the same parameter as [save_startup_to_db] of
    [api.py] and of [parse_results_to_db.py]. *)
Theorem research_agrees_on_label_keys (d : dict) (c : column) :
  label_given d c = true ->
  ResearchStartups.insert_args d c = Api.insert_args d c
  /\ ResearchStartups.insert_args d c = ParseResultsToDb.insert_args d c.
Proof.
  unfold label_given.
  assert (Hseq : forall k x y, contains d k = true -> get_or d k x = get_or d k y).
  { intros k x y. unfold contains, get_or. now destruct (lookup d k). }
  destruct c; cbn [is_sequence_column label_of rule_of]; intros H;
    cbn [ResearchStartups.insert_args Api.insert_args ParseResultsToDb.insert_args];
    unfold py_or;
    try (rewrite H; split; apply truthy_get_or; exact H);
    split; f_equal; f_equal; apply Hseq; exact H.
Qed.

(** ** The batch of [research_startups.py] *)

Section ResearchBatch.

Variable E : engine.
Variable loads : string -> load_result.

Lemma process_file_eq (fs : filesystem) (st : store) (n : Z) (f : string) :
  ResearchStartups.process_file E loads fs (st, n) f
  = (fst (ResearchStartups.parse_and_save_result_file E loads fs st f),
     if snd (ResearchStartups.parse_and_save_result_file E loads fs st f)
     then n + 1 else n).
Proof.
  unfold ResearchStartups.process_file.
  now destruct (ResearchStartups.parse_and_save_result_file E loads fs st f).
Qed.

Lemma process_files_grow (fs : filesystem) (files : list string) :
  forall (st : store) (n : Z),
  exists added : list row,
    appended st
      (fst (fold_left (ResearchStartups.process_file E loads fs) files (st, n)))
      added
    /\ n <= snd (fold_left (ResearchStartups.process_file E loads fs) files (st, n))
       <= n + Z.of_nat (List.length files)
    /\ (snd (fold_left (ResearchStartups.process_file E loads fs) files (st, n)) = n ->
        fst (fold_left (ResearchStartups.process_file E loads fs) files (st, n)) = st).
Proof.
  induction files as [|f files IH]; intros st n; cbn [fold_left].
  - exists []. split; [apply appended_nil|]. cbn. split; [lia|reflexivity].
  - rewrite process_file_eq.
    destruct (parse_and_save_grows E loads fs st f) as (a & Ha).
    pose proof (parse_and_save_false E loads fs st f) as Hfalse.
    destruct (ResearchStartups.parse_and_save_result_file E loads fs st f)
      as [st1 ok]. cbn [fst snd] in Ha, Hfalse |- *.
    destruct (IH st1 (if ok then n + 1 else n)) as (b & Hb1 & Hb2 & Hb3).
    exists (a ++ b)%list. split; [exact (appended_app _ _ _ _ _ Ha Hb1)|].
    cbn [List.length]. destruct ok; cbn [fst snd].
    + split; [lia|]. intros Heq. lia.
    + split; [lia|]. intros Heq. rewrite (Hb3 Heq). now apply Hfalse.
Qed.

(** X17.  [parse_all_result_files] of [research_startups.py]: the count
    of files it reports as processed lies between 0 and the number of
    files the patterns match; the table it leaves is the table before
    with rows appended, and the total it prints is the number of rows
    before plus the rows appended; when it reports no file as
    processed, the table is unchanged. *)
Theorem research_batch_counts (fs : filesystem) (st : store) :
  0 <= snd (fst (ResearchStartups.parse_all_result_files E loads fs st))
    <= Z.of_nat (List.length (all_result_files fs))
  /\ (exists added : list row,
        appended st
          (fst (fst (ResearchStartups.parse_all_result_files E loads fs st)))
          added
        /\ snd (ResearchStartups.parse_all_result_files E loads fs st)
           = Z.of_nat (List.length (rows st)) + Z.of_nat (List.length added))
  /\ (snd (fst (ResearchStartups.parse_all_result_files E loads fs st)) = 0 ->
      fst (fst (ResearchStartups.parse_all_result_files E loads fs st)) = st).
Proof.
  unfold ResearchStartups.parse_all_result_files, all_result_files.
  destruct (process_files_grow fs (flat_map (glob fs) file_patterns) st 0)
    as (a & Ha & Hn & Hz).
  destruct (fold_left (ResearchStartups.process_file E loads fs)
              (flat_map (glob fs) file_patterns) (st, 0)) as [st' n].
  cbn [fst snd] in *. split; [lia|]. split; [|exact Hz].
  exists a. split; [exact Ha|].
  destruct Ha as (Hrows & _). rewrite Hrows, length_app. lia.
Qed.

End ResearchBatch.

(** ** The files that "all" picks up *)

Lemma code_eqb_refl (c : ascii) : (code c =? code c)%N = true.
Proof. apply N.eqb_refl. Qed.

Lemma fnmatch_plain (p name : string) :
  has_magic p = false -> (fnmatch p name = true <-> name = p).
Proof.
  revert name. induction p as [|c p IH]; intros name Hp.
  - destruct name; cbn; split; congruence.
  - cbn [has_magic] in Hp. apply orb_false_iff in Hp. destruct Hp as (Hc & Hp).
    apply orb_false_iff in Hc. destruct Hc as (Hc & _).
    apply orb_false_iff in Hc. destruct Hc as (H42 & H63).
    cbn [fnmatch]. rewrite H42, H63.
    destruct name as [|x name]; [split; discriminate|].
    rewrite andb_true_iff, orb_false_l, (IH name Hp). split.
    + intros (Hx & ->). apply code_eqb_eq in Hx. now subst.
    + intros [= -> ->]. split; [apply code_eqb_refl|reflexivity].
Qed.

Lemma fnmatch_plain_prefix (pre p name : string) :
  has_magic pre = false ->
  (fnmatch (pre ++ p) name = true
   <-> exists rest, name = (pre ++ rest)%string /\ fnmatch p rest = true).
Proof.
  revert name. induction pre as [|c pre IH]; intros name Hp.
  - cbn [append]. split; [intros H; now exists name|now intros (rest & -> & H)].
  - cbn [has_magic] in Hp. apply orb_false_iff in Hp. destruct Hp as (Hc & Hp).
    apply orb_false_iff in Hc. destruct Hc as (Hc & _).
    apply orb_false_iff in Hc. destruct Hc as (H42 & H63).
    cbn [append fnmatch]. rewrite H42, H63.
    destruct name as [|x name].
    + split; [discriminate|]. intros (rest & Hr & _). discriminate Hr.
    + rewrite andb_true_iff, orb_false_l, (IH name Hp). split.
      * intros (Hx & rest & -> & Hr). apply code_eqb_eq in Hx. subst x.
        now exists rest.
      * intros (rest & [= -> ->] & Hr). split; [apply code_eqb_refl|].
        now exists rest.
Qed.

Lemma fnmatch_star (p name : string) :
  fnmatch (String "*" p) name = true
  <-> exists a b, name = (a ++ b)%string /\ fnmatch p b = true.
Proof.
  cbn [fnmatch]. change (code "*" =? 42)%N with true. cbv iota.
  induction name as [|x name IH].
  - rewrite orb_false_r. split.
    + intros H. now exists "", "".
    + intros (a & b & Hab & Hb). destruct a; [|discriminate].
      cbn in Hab. now subst b.
  - rewrite orb_true_iff, IH. split.
    + intros [H|(a & b & -> & Hb)].
      * now exists "", (String x name).
      * now exists (String x a), b.
    + intros (a & b & Hab & Hb). destruct a as [|y a].
      * left. cbn in Hab. now subst b.
      * right. injection Hab as -> ->. now exists a, b.
Qed.

Lemma fnmatch_around_star (pre suf name : string) :
  has_magic pre = false -> has_magic suf = false ->
  (fnmatch (pre ++ String "*" suf) name = true
   <-> exists mid, name = (pre ++ mid ++ suf)%string).
Proof.
  intros Hpre Hsuf. rewrite (fnmatch_plain_prefix pre _ name Hpre). split.
  - intros (rest & -> & H). apply fnmatch_star in H.
    destruct H as (a & b & -> & Hb). apply (fnmatch_plain suf b Hsuf) in Hb.
    subst b. now exists a.
  - intros (mid & ->). exists (mid ++ suf)%string. split; [reflexivity|].
    apply fnmatch_star. exists mid, suf. split; [reflexivity|].
    now apply fnmatch_plain.
Qed.

(** X18.  The keyword "all" picks up exactly: the file
    [research_results.json] when it exists, and the names of the
    working directory of the form [research_results_backup_*.json] or
    [batch_results_*.json], the star standing for any text, empty
    or not. *)
Theorem all_picks_up_result_files (fs : filesystem) (name : string) :
  In name (all_result_files fs)
  <-> (name = "research_results.json" /\ path_exists fs name = true)
      \/ (In name (listdir fs)
          /\ exists mid, name = ("research_results_backup_" ++ mid ++ ".json")%string)
      \/ (In name (listdir fs)
          /\ exists mid, name = ("batch_results_" ++ mid ++ ".json")%string).
Proof.
  unfold all_result_files, file_patterns. cbn [flat_map].
  rewrite !in_app_iff. cbn [In].
  assert (H1 : In name (glob fs "research_results.json")
               <-> name = "research_results.json" /\ path_exists fs name = true).
  { unfold glob. change (has_magic "research_results.json") with false. cbv iota.
    destruct (path_exists fs "research_results.json") eqn:He; cbn [In].
    - split; [intros [<-|[]]; now split | intros (-> & _); now left].
    - split; [intros [] | intros (-> & H); congruence]. }
  assert (H2 : forall pre,
             has_magic pre = false ->
             In name (glob fs (pre ++ String "*" ".json"))
             <-> In name (listdir fs)
                 /\ exists mid, name = (pre ++ mid ++ ".json")%string).
  { intros pre Hpre. unfold glob.
    assert (Hm : has_magic (pre ++ String "*" ".json") = true).
    { clear Hpre. induction pre as [|c pre IH]; [reflexivity|].
      cbn [append has_magic]. rewrite IH. apply orb_true_r. }
    rewrite Hm, filter_In.
    now rewrite (fnmatch_around_star pre ".json" name Hpre eq_refl). }
  rewrite H1.
  change "research_results_backup_*.json"
    with ("research_results_backup_" ++ String "*" ".json")%string.
  change "batch_results_*.json" with ("batch_results_" ++ String "*" ".json")%string.
  rewrite (H2 "research_results_backup_" eq_refl), (H2 "batch_results_" eq_refl).
  tauto.
Qed.

(** ** Export and ingestion *)

Section Exporting.

Variable E : engine.

Lemma clean_startup_label (s : startup) (c : column) :
  lookup (QueryStartupDb.clean_startup s) (QueryStartupDb.key_of c)
  = Some (s_field s c).
Proof. destruct c; reflexivity. Qed.

Lemma py_or_truthy (x y : value) : truthy x = true -> py_or x y = x.
Proof. unfold py_or. now intros ->. Qed.

Lemma py_or_falsy (x y : value) : truthy x = false -> py_or x y = y.
Proof. unfold py_or. now intros ->. Qed.

(** The parameter bound for a scalar column of an exported dictionary:
    the exported value when it is truthy, the default of the column
    otherwise. *)
Lemma insert_args_clean_scalar (s : startup) (c : column) :
  is_sequence_column c = false ->
  Api.insert_args (QueryStartupDb.clean_startup s) c
  = if truthy (s_field s c) then s_field s c
    else match column_affinity c with
         | INTEGER => VNone
         | TEXT => VStr ""
         end.
Proof.
  destruct c; try discriminate; intros _;
    cbn [Api.insert_args column_affinity];
    unfold get, get_or;
    cbn [QueryStartupDb.clean_startup QueryStartupDb.key_of map columns lookup
         String.eqb Ascii.eqb Bool.eqb];
    unfold py_or; cbn [truthy];
    match goal with
    | |- context [truthy ?x] => destruct (truthy x); reflexivity
    end.
Qed.

Lemma insert_args_clean_sequence (s : startup) (c : column) :
  is_sequence_column c = true ->
  Api.insert_args (QueryStartupDb.clean_startup s) c
  = VStr (json_dumps (s_field s c)).
Proof. destruct c; try discriminate; intros _; reflexivity. Qed.

(** The cells that come back when the dictionary of a row is ingested
    again. *)
Lemma reimported_cells (r : row) (c : column) :
  (forall s, is_sequence_column c = false -> column_affinity c = TEXT ->
             cell r c = SText s -> reimported E json_loads r c = SText s)
  /\ (forall v, is_sequence_column c = true -> well_formed v = true ->
                cell r c = SText (json_dumps v) ->
                reimported E json_loads r c = SText (json_dumps v))
  /\ (forall n, column_affinity c = INTEGER -> n <> 0 -> int64 n ->
                cell r c = SInt n -> reimported E json_loads r c = SInt n)
  /\ (cell r c = SNull ->
      reimported E json_loads r c
      = if is_sequence_column c then SText "[]"
        else match column_affinity c with
             | INTEGER => SNull
             | TEXT => SText ""
             end)
  /\ (column_affinity c = INTEGER -> cell r c = SInt 0 ->
      reimported E json_loads r c = SNull).
Proof.
  unfold reimported, stored_cell.
  split; [|split; [|split; [|split]]].
  - intros s Hc Ha Hs.
    rewrite (insert_args_clean_scalar _ c Hc), Ha.
    rewrite (row_startup_scalar json_loads r c Hc), Hs. cbn [py_of_sql truthy].
    destruct (String.eqb_spec s "") as [->|Hne]; reflexivity.
  - intros v Hc Hwf Hs.
    rewrite (insert_args_clean_sequence _ c Hc).
    cbn [s_field Api.row_startup]. unfold Api.read_cell. rewrite Hc, Hs.
    cbn [py_of_sql]. unfold Api.read_sequence.
    rewrite truthy_json_dumps, (json_loads_dumps v Hwf). cbn [Api.or_none adapt].
    now replace (column_affinity c) with TEXT
      by (destruct c; try discriminate; reflexivity).
  - intros n Ha Hn Hid Hs.
    assert (Hc : is_sequence_column c = false)
      by (destruct c; try discriminate; reflexivity).
    rewrite (insert_args_clean_scalar _ c Hc), Ha.
    rewrite (row_startup_scalar json_loads r c Hc), Hs. cbn [py_of_sql truthy].
    destruct (Z.eqb_spec n 0) as [->|_]; [contradiction|]. cbn [negb].
    pose proof (int64_bindable n Hid) as Hb. unfold bindable in Hb.
    cbn [adapt] in *. destruct ((- 2 ^ 63 <=? n) && (n <? 2 ^ 63));
      [reflexivity|discriminate Hb].
  - intros Hs. destruct (is_sequence_column c) eqn:Hc.
    + rewrite (insert_args_clean_sequence _ c Hc).
      cbn [s_field Api.row_startup]. unfold Api.read_cell. rewrite Hc, Hs.
      cbn. now replace (column_affinity c) with TEXT
        by (destruct c; try discriminate; reflexivity).
    + rewrite (insert_args_clean_scalar _ c Hc).
      rewrite (row_startup_scalar json_loads r c Hc), Hs. cbn [py_of_sql truthy].
      destruct (column_affinity c); reflexivity.
  - intros Ha Hs.
    assert (Hc : is_sequence_column c = false)
      by (destruct c; try discriminate; reflexivity).
    rewrite (insert_args_clean_scalar _ c Hc), Ha.
    rewrite (row_startup_scalar json_loads r c Hc), Hs. reflexivity.
Qed.


Lemma startups_of_rows_Some (loads : string -> load_result) (l : list row) :
  forall ss, Api.startups_of_rows loads l = Some ss ->
             ss = map (Api.row_startup loads) l.
Proof.
  induction l as [|r l IH]; cbn [Api.startups_of_rows map].
  - now intros ss [= <-].
  - intros ss. unfold Api.startup_of_row at 1.
    destruct (forallb _ columns); [|discriminate].
    destruct (Api.startups_of_rows loads l) as [ss1|]; [|discriminate].
    intros [= <-]. now rewrite (IH ss1 eq_refl).
Qed.

(** X19.  What [export_to_json] of [query_startup_db.py] hands to
    [json.dump] is read back by the ingestion of [api.py] into the same
    cells, with three exceptions.  The export holds, for every row, the
    dictionary of the row under the label keys.  When that dictionary
    is ingested again as it is: the record is accepted if the row has a
    name; a text cell of a text column comes back as it is; the JSON
    text of a well-formed sequence comes back as it is; a non-zero
    number in a numeric column comes back as it is; but a null text
    comes back as the empty text, a null sequence as the text of the
    empty list, and the number 0 as null. *)
Theorem export_then_import (st : store) (timestamp filename : string)
  (clean_startups : list dict) (r : row) (c : column) :
  QueryStartupDb.export_to_json json_loads timestamp st
  = QueryStartupDb.Exported filename clean_startups ->
  In r (rows st) ->
  In (QueryStartupDb.clean_startup (Api.row_startup json_loads r)) clean_startups
  /\ (named r ->
      truthy (Api.candidate_name
                (QueryStartupDb.clean_startup (Api.row_startup json_loads r)))
      = true)
  /\ (forall s, is_sequence_column c = false -> column_affinity c = TEXT ->
                cell r c = SText s -> reimported E json_loads r c = SText s)
  /\ (forall v, is_sequence_column c = true -> well_formed v = true ->
                cell r c = SText (json_dumps v) ->
                reimported E json_loads r c = SText (json_dumps v))
  /\ (forall n, column_affinity c = INTEGER -> n <> 0 -> int64 n ->
                cell r c = SInt n -> reimported E json_loads r c = SInt n)
  /\ (cell r c = SNull ->
      reimported E json_loads r c
      = if is_sequence_column c then SText "[]"
        else match column_affinity c with
             | INTEGER => SNull
             | TEXT => SText ""
             end)
  /\ (column_affinity c = INTEGER -> cell r c = SInt 0 ->
      reimported E json_loads r c = SNull).
Proof.
  intros Hexp Hin. split; [|split].
  - unfold QueryStartupDb.export_to_json, QueryStartupDb.get_all_startups in Hexp.
    destruct (Api.startups_of_rows json_loads (order_by_created_at_desc (rows st)))
      as [ss|] eqn:Hss; [|discriminate Hexp].
    apply startups_of_rows_Some in Hss. subst ss.
    assert (Hds : clean_startups
                  = map QueryStartupDb.clean_startup
                      (map (Api.row_startup json_loads)
                         (order_by_created_at_desc (rows st)))).
    { destruct (map (Api.row_startup json_loads)
                  (order_by_created_at_desc (rows st))) as [|x l];
        [discriminate Hexp|]. now injection Hexp as _ <-. }
    rewrite Hds. apply in_map, in_map.
    now apply (Permutation_in _ (Permutation_sym (order_by_perm (rows st)))).
  - intros (s & Hs & Hne). unfold Api.candidate_name, get.
    change (get_or (QueryStartupDb.clean_startup (Api.row_startup json_loads r))
              "Company Name" VNone)
      with (s_field (Api.row_startup json_loads r) company_name).
    rewrite (row_startup_scalar json_loads r company_name eq_refl), Hs.
    cbn [py_of_sql]. unfold py_or. cbn [truthy].
    apply String.eqb_neq in Hne. rewrite Hne. cbn [negb truthy]. now rewrite Hne.
  - exact (reimported_cells r c).
Qed.

End Exporting.

Lemma glob_around_star (fs : filesystem) (pre name : string) :
  has_magic pre = false ->
  In name (glob fs (pre ++ String "*" ".json"))
  <-> In name (listdir fs) /\ exists mid, name = (pre ++ mid ++ ".json")%string.
Proof.
  intros Hpre. unfold glob.
  assert (Hm : has_magic (pre ++ String "*" ".json") = true).
  { clear Hpre. induction pre as [|c pre IH]; [reflexivity|].
    cbn [append has_magic]. rewrite IH. apply orb_true_r. }
  rewrite Hm, filter_In.
  now rewrite (fnmatch_around_star pre ".json" name Hpre eq_refl).
Qed.

(** X20.  [export_to_json] of [query_startup_db.py] exports one
    dictionary a row, fourteen label keys each and neither ['id'] nor
    ['created_at'], and names its file so that the keyword "all" of the
    ingestion never picks it up. *)
Theorem export_is_not_ingested_by_all (loads : string -> load_result)
  (fs : filesystem) (st : store) (timestamp filename : string)
  (clean_startups : list dict) :
  QueryStartupDb.export_to_json loads timestamp st
  = QueryStartupDb.Exported filename clean_startups ->
  ~ In filename (all_result_files fs)
  /\ Z.of_nat (List.length clean_startups) = QueryStartupDb.get_startup_count st
  /\ Forall (fun d => map fst d = map QueryStartupDb.key_of columns
                      /\ lookup d "id" = None /\ lookup d "created_at" = None)
       clean_startups.
Proof.
  unfold QueryStartupDb.export_to_json, QueryStartupDb.get_all_startups,
    QueryStartupDb.get_startup_count.
  destruct (Api.startups_of_rows loads (order_by_created_at_desc (rows st)))
    as [ss|] eqn:Hss; [|discriminate].
  destruct ss as [|s rest]; [discriminate|].
  intros [= <- <-]. split; [|split].
  - unfold all_result_files, file_patterns. cbn [flat_map].
    rewrite !in_app_iff. cbn [In]. intros [H|[H|[H|[]]]].
    + unfold glob in H. change (has_magic "research_results.json") with false in H.
      cbv iota in H. destruct (path_exists fs "research_results.json");
        [|contradiction]. destruct H as [H|[]]. cbn in H. discriminate H.
    + apply (glob_around_star fs "research_results_backup_" _ eq_refl) in H.
      destruct H as (_ & mid & H). cbn in H. discriminate H.
    + apply (glob_around_star fs "batch_results_" _ eq_refl) in H.
      destruct H as (_ & mid & H). cbn in H. discriminate H.
  - change (QueryStartupDb.clean_startup s :: map QueryStartupDb.clean_startup rest)
      with (map QueryStartupDb.clean_startup (s :: rest)).
    rewrite length_map.
    assert (Hlen : forall l ss0, Api.startups_of_rows loads l = Some ss0 ->
                                 List.length ss0 = List.length l).
    { induction l as [|r l IH]; cbn [Api.startups_of_rows].
      - now intros ss0 [= <-].
      - intros ss0. destruct (Api.startup_of_row loads r); [|discriminate].
        destruct (Api.startups_of_rows loads l) as [ss1|]; [|discriminate].
        intros [= <-]. cbn [List.length]. now rewrite (IH ss1 eq_refl). }
    rewrite (Hlen _ _ Hss).
    now rewrite (Permutation_length (order_by_perm (rows st))).
  - change (QueryStartupDb.clean_startup s :: map QueryStartupDb.clean_startup rest)
      with (map QueryStartupDb.clean_startup (s :: rest)).
    apply Forall_forall. intros d Hd. apply in_map_iff in Hd.
    destruct Hd as (x & <- & _). repeat split.
Qed.

(** X21.  The listing of [query_startup_db.py] reads the rows as the
    listing of [api.py] does, but does not catch what [json.loads]
    raises: it fails exactly when some row cannot be read back, where
    [get_all_startups_from_db] answers with the empty list; otherwise
    both give the same records in the same order (here under the label
    keys, there under the column names), as many as
    [get_startup_count] counts. *)
Theorem query_listing_matches_api (loads : string -> load_result) (st : store) :
  (QueryStartupDb.get_all_startups loads st = None
   <-> exists r, In r (rows st) /\ Api.startup_of_row loads r = None)
  /\ (QueryStartupDb.get_all_startups loads st = None ->
      Api.get_all_startups_from_db loads st = [])
  /\ (forall l, QueryStartupDb.get_all_startups loads st = Some l ->
        Api.get_all_startups_from_db loads st = l
        /\ Z.of_nat (List.length l) = QueryStartupDb.get_startup_count st).
Proof.
  unfold QueryStartupDb.get_all_startups, Api.get_all_startups_from_db,
    QueryStartupDb.get_startup_count.
  split; [|split].
  - split.
    + intros H.
      assert (Hex : forall l, Api.startups_of_rows loads l = None ->
                              exists r, In r l /\ Api.startup_of_row loads r = None).
      { induction l as [|r l IH]; cbn [Api.startups_of_rows]; [discriminate|].
        destruct (Api.startup_of_row loads r) eqn:Hr.
        - destruct (Api.startups_of_rows loads l); [discriminate|].
          intros _. destruct (IH eq_refl) as (x & Hx & Hn).
          exists x. split; [now right|exact Hn].
        - intros _. exists r. split; [now left|exact Hr]. }
      destruct (Hex _ H) as (r & Hr & Hn). exists r. split; [|exact Hn].
      now apply (Permutation_in _ (order_by_perm (rows st))).
    + intros (r & Hr & Hn).
      apply (startups_of_rows_unreadable loads _ r); [|exact Hn].
      now apply (Permutation_in _ (Permutation_sym (order_by_perm (rows st)))).
  - now intros ->.
  - intros l Hl. rewrite Hl. split; [reflexivity|].
    rewrite (startups_of_rows_Some loads _ l Hl), length_map.
    now rewrite (Permutation_length (order_by_perm (rows st))).
Qed.

(** ** Which records are saved *)

Section Saved.

Variable E : engine.

Lemma save_candidate_cases (st : store) (n : Z) (v : value) :
  (exists d, v = VDict d /\ truthy (Api.candidate_name d) = true
             /\ insertable d = true
             /\ snd (Api.save_candidate E (st, n) v) = n + 1)
  \/ ((forall d, v = VDict d -> truthy (Api.candidate_name d) = true ->
                 insertable d = false)
      /\ Api.save_candidate E (st, n) v = (st, n)).
Proof.
  destruct v as [| | | | |d]; try (right; split; [discriminate|reflexivity]).
  unfold Api.save_candidate, Api.save_startup_to_db.
  destruct (truthy (Api.candidate_name d)) eqn:Hname.
  - destruct (insertable d) eqn:Hins.
    + left. exists d. split; [reflexivity|]. split; [exact Hname|].
      split; [exact Hins|].
      destruct (accepted_insert_succeeds E st d Hname Hins) as (st' & Hsave & _).
      unfold Api.save_startup_to_db in Hsave.
      destruct (execute_insert E st (Api.insert_args d)); [reflexivity|].
      discriminate Hsave.
    + right. split; [intros d' [= <-] _; exact Hins|].
      unfold execute_insert. unfold insertable in Hins. now rewrite Hins.
  - right. split; [|reflexivity]. intros d' [= <-] H. congruence.
Qed.

(** X22.  What the loop of the endpoint saves.  An item counts as saved
    exactly when it is a dictionary with a truthy company name all of
    whose parameters can be bound (no list or dictionary under a text or
    number key, no number beyond 64 bits).  Any other item is passed
    over without a trace: table and count stay as they were, and the
    batch gives the same result as the batch without the item, in
    [api.py] and in [parse_results_to_db.py]. *)
Theorem saved_exactly_when_insertable (st : store) (n : Z) (v : value)
  (before after : list value) :
  (snd (Api.save_candidate E (st, n) v) = n + 1
   <-> exists d, v = VDict d /\ truthy (Api.candidate_name d) = true
                 /\ insertable d = true)
  /\ (snd (Api.save_candidate E (st, n) v) <> n + 1 ->
      Api.save_candidate E (st, n) v = (st, n)
      /\ Api.save_candidates E st (before ++ v :: after)
         = Api.save_candidates E st (before ++ after)
      /\ ParseResultsToDb.save_startups_to_db E st (before ++ v :: after)
         = ParseResultsToDb.save_startups_to_db E st (before ++ after)).
Proof.
  split.
  - destruct (save_candidate_cases st n v) as [(d & -> & Hn & Hi & Hs)|(Hno & Hs)].
    + split; [intros _; now exists d | intros _; exact Hs].
    + rewrite Hs. cbn [snd]. split; [lia|].
      intros (d & -> & Hn & Hi). rewrite (Hno d eq_refl Hn) in Hi. discriminate Hi.
  - intros Hnot.
    assert (Hskip : forall st0 n0, Api.save_candidate E (st0, n0) v = (st0, n0)).
    { intros st0 n0.
      destruct (save_candidate_cases st0 n0 v) as [(d & -> & Hn & Hi & _)|(_ & Hs)];
        [|exact Hs].
      destruct (save_candidate_cases st n (VDict d))
        as [(d' & _ & _ & _ & Hs)|(Hno & _)]; [contradiction|].
      rewrite (Hno d eq_refl Hn) in Hi. discriminate Hi. }
    split; [apply Hskip|].
    assert (Hfold : Api.save_candidates E st (before ++ v :: after)
                    = Api.save_candidates E st (before ++ after)).
    { unfold Api.save_candidates. rewrite !fold_left_app. cbn [fold_left].
      destruct (fold_left (Api.save_candidate E) before (st, 0)) as [st1 n1].
      now rewrite Hskip. }
    split; [exact Hfold|].
    now rewrite !save_startups_to_db_same.
Qed.

End Saved.

(** ** The industry filter *)

Lemma lower_empty (s : string) : (lower s =? "")%string = (s =? "")%string.
Proof. destruct s; reflexivity. Qed.

Lemma filter_industry_lower (i j : string) (l : list startup) :
  lower i = lower j -> Api.filter_industry i l = Api.filter_industry j l.
Proof.
  intros H. induction l as [|s l IH]; cbn [Api.filter_industry]; [reflexivity|].
  rewrite IH. unfold Api.industry_matches. now rewrite H.
Qed.

(** X23.  The industry filter of [GET /startups] does not look at the
    case of the industry given: two industries that are equal once
    lowered get the same answer, records, count or error alike. *)
Theorem industry_filter_ignores_case (loads : string -> load_result)
  (st : store) (limit : option Z) (i j : string) (year : option Z) :
  lower i = lower j ->
  Api.get_startups loads st limit (Some i) year
  = Api.get_startups loads st limit (Some j) year.
Proof.
  intros H. unfold Api.get_startups.
  rewrite <- (lower_empty i), <- (lower_empty j), H.
  now rewrite (filter_industry_lower i j _ H).
Qed.

(** ** The backup of a research run *)

Lemma sum_Z_nonneg (l : list (string * Z)) :
  Forall (fun e => 0 <= snd e) l -> 0 <= sum_Z (map snd l).
Proof.
  induction 1 as [|z l Hz _ IH]; cbn [map sum_Z]; [lia|].
  cbn beta in Hz. lia.
Qed.

Lemma sum_Z_one (l : list (string * Z)) (x : string * Z) :
  Forall (fun e => 0 <= snd e) l -> In x l -> snd x <= sum_Z (map snd l).
Proof.
  induction 1 as [|z l Hz Hl IH]; [contradiction|].
  cbn [map sum_Z]. cbn beta in Hz. pose proof (sum_Z_nonneg l Hl) as H0.
  intros [->|Hx]; [lia|]. specialize (IH Hx). lia.
Qed.

Lemma sum_Z_two (l : list (string * Z)) (a b : string * Z) :
  Forall (fun e => 0 <= snd e) l -> In a l -> In b l -> fst a <> fst b ->
  snd a + snd b <= sum_Z (map snd l).
Proof.
  induction 1 as [|z l Hz Hl IH]; [contradiction|].
  cbn [map sum_Z]. cbn beta in Hz. intros [->|Ha] [->|Hb] Hne.
  - contradiction.
  - pose proof (sum_Z_one l b Hl Hb). lia.
  - pose proof (sum_Z_one l a Hl Ha). lia.
  - specialize (IH Ha Hb Hne). lia.
Qed.

Section Backup.

Variable E : engine.
Variable loads : string -> load_result.

Lemma parse_result_file_text (fs : filesystem) (f g : string) :
  read_text fs f = read_text fs g ->
  Api.parse_result_file loads fs f = Api.parse_result_file loads fs g.
Proof. intros H. unfold Api.parse_result_file. now rewrite H. Qed.

(** X24.  A research run writes its result to [research_results.json]
    and, with the same text, to its backup
    [research_results_backup_<timestamp>.json].  The keyword "all"
    picks up both: the report of the endpoint lists them with the same
    count, and the total is at least twice that count, every record of
    the run being saved once for each file. *)
Theorem backup_is_ingested_again (fs : filesystem) (st : store)
  (timestamp : string) :
  path_exists fs "all" = false ->
  path_exists fs "research_results.json" = true ->
  In (ResearchStartups.backup_filename timestamp) (listdir fs) ->
  read_text fs (ResearchStartups.backup_filename timestamp)
  = read_text fs "research_results.json" ->
  exists (message : string) (total : Z) (files : list (string * Z)) (n : Z),
    snd (Api.save_from_file E loads fs st "all")
    = OK (Api.AllReport message total files)
    /\ In ("research_results.json", n) files
    /\ In (ResearchStartups.backup_filename timestamp, n) files
    /\ 0 <= n /\ 2 * n <= total.
Proof.
  intros Hall Hres Hdir Htext.
  set (count := fun f => snd (Api.save_candidates E empty_store
                                (Api.parse_result_file loads fs f))).
  assert (Hin1 : In "research_results.json" (all_result_files fs)).
  { unfold all_result_files, file_patterns. cbn [flat_map]. apply in_or_app. left.
    unfold glob. change (has_magic "research_results.json") with false.
    cbv iota. rewrite Hres. now left. }
  assert (Hin2 : In (ResearchStartups.backup_filename timestamp)
                   (all_result_files fs)).
  { unfold all_result_files, file_patterns. cbn [flat_map].
    apply in_or_app. right. apply in_or_app. left.
    apply (glob_around_star fs "research_results_backup_" _ eq_refl).
    split; [exact Hdir|]. now exists timestamp. }
  assert (Hcount : count (ResearchStartups.backup_filename timestamp)
                   = count "research_results.json").
  { unfold count. now rewrite (parse_result_file_text fs _ _ Htext). }
  assert (Hpos : forall f, 0 <= count f).
  { intros f. unfold count.
    destruct (save_candidates_appended E empty_store
                (Api.parse_result_file loads fs f)) as (a & _ & -> & _). lia. }
  unfold Api.save_from_file. rewrite Hall. cbn [negb String.eqb Ascii.eqb Bool.eqb].
  destruct (all_result_files fs) as [|f fl] eqn:Hfiles; [contradiction|].
  destruct (save_files_grow E loads fs (f :: fl) st 0 []) as (a & Ha).
  destruct (fold_left (Api.save_file E loads fs) (f :: fl) (st, 0, []))
    as [[st' total] processed].
  destruct Ha as (_ & _ & _ & Ht & Hp). cbn [app] in Hp.
  fold count in Ht, Hp.
  exists ("Successfully processed "
          ++ Z_repr (Z.of_nat (List.length (f :: fl))) ++ " files")%string,
    total, processed, (count "research_results.json").
  split; [reflexivity|].
  assert (H1 : In ("research_results.json", count "research_results.json")
                 processed).
  { rewrite Hp. apply in_map_iff. now exists "research_results.json". }
  assert (H2 : In (ResearchStartups.backup_filename timestamp,
                   count "research_results.json") processed).
  { rewrite Hp, <- Hcount. apply in_map_iff.
    now exists (ResearchStartups.backup_filename timestamp). }
  split; [exact H1|]. split; [exact H2|]. split; [apply Hpos|].
  assert (Hall0 : Forall (fun e : string * Z => 0 <= snd e) processed).
  { rewrite Hp. apply Forall_forall. intros e He. apply in_map_iff in He.
    destruct He as (x & <- & _). apply Hpos. }
  pose proof (sum_Z_two processed _ _ Hall0 H1 H2) as Hsum.
  cbn [fst snd] in Hsum.
  assert (Hne : "research_results.json"
                <> ResearchStartups.backup_filename timestamp)
    by (unfold ResearchStartups.backup_filename; cbn; discriminate).
  specialize (Hsum Hne).
  assert (Htot : total = sum_Z (map snd processed)).
  { rewrite Ht, Hp, map_map. apply Z.add_0_l. }
  lia.
Qed.

End Backup.

(** ** What [json.loads] returns is well formed *)

Lemma existsb_dict_set (x k : string) (d : dict) (v : value) :
  existsb (String.eqb x) (map fst (dict_set d k v))
  = existsb (String.eqb x) (map fst d) || (x =? k)%string.
Proof.
  induction d as [|[k' v'] d IH]; cbn [dict_set map fst existsb].
  - now rewrite orb_false_r.
  - destruct (String.eqb_spec k' k) as [->|Hne]; cbn [map fst existsb].
    + destruct (String.eqb_spec x k); [reflexivity | now rewrite orb_false_r].
    + rewrite IH. now rewrite orb_assoc.
Qed.

Lemma dict_set_well_formed (d : dict) (k : string) (v : value) :
  well_formed (VDict d) = true -> well_formed v = true ->
  well_formed (VDict (dict_set d k v)) = true.
Proof.
  cbn [well_formed]. induction d as [|[k' v'] d IH]; intros Hd Hv.
  - cbn. now rewrite Hv.
  - cbn [map fst keys_unique forallb snd] in Hd.
    apply andb_true_iff in Hd. destruct Hd as (Hk & Hf).
    apply andb_true_iff in Hk. destruct Hk as (Hk & Hu).
    apply andb_true_iff in Hf. destruct Hf as (Hv' & Hf).
    cbn [dict_set]. destruct (String.eqb_spec k' k) as [->|Hne].
    + cbn [map fst keys_unique forallb snd]. now rewrite Hk, Hu, Hv, Hf.
    + cbn [map fst keys_unique forallb snd].
      assert (H : keys_unique (map fst d) && forallb (fun kv => well_formed (snd kv)) d
                  = true) by now rewrite Hu, Hf.
      specialize (IH H Hv). apply andb_true_iff in IH. destruct IH as (IH1 & IH2).
      rewrite existsb_dict_set, IH1, IH2, Hv'.
      apply negb_true_iff in Hk. rewrite Hk.
      destruct (String.eqb_spec k' k); [contradiction|reflexivity].
Qed.

Lemma dict_of_pairs_well_formed (pairs : list (string * value)) :
  forallb (fun kv => well_formed (snd kv)) pairs = true ->
  well_formed (VDict (dict_of_pairs pairs)) = true.
Proof.
  unfold dict_of_pairs.
  assert (H : forall acc, well_formed (VDict acc) = true ->
                          forallb (fun kv => well_formed (snd kv)) pairs = true ->
                          well_formed
                            (VDict (fold_left (fun d kv => dict_set d (fst kv) (snd kv))
                                      pairs acc)) = true).
  { induction pairs as [|[k v] ps IH]; intros acc Hacc Hps; cbn [fold_left];
      [exact Hacc|].
    cbn [forallb snd] in Hps. apply andb_true_iff in Hps. destruct Hps as (Hv & Hps).
    apply IH; [|exact Hps]. now apply dict_set_well_formed. }
  apply H. reflexivity.
Qed.

Lemma match_number_well_formed (s : string) (v : value) (rest : string) :
  match_number s = Some (v, rest) -> well_formed v = true.
Proof.
  unfold match_number.
  destruct (match s with
            | String c r => if (code c =? 45)%N then (true, r) else (false, s)
            | EmptyString => (false, s)
            end) as [neg s1].
  destruct (match_integer s1) as [[n r]|]; [|discriminate].
  destruct (float_tail r); [discriminate|]. now intros [= <- _].
Qed.

Lemma scan_once_step (f : nat) (s : string) :
  scan_once (S f) s
  = match s with
    | EmptyString => None
    | String c r =>
        if (code c =? 34)%N then
          match scanstring r with
          | Some (str, rest) => Some (VStr str, rest)
          | None => None
          end
        else if (code c =? 123)%N then JSONObject f r
        else if (code c =? 91)%N then JSONArray f r
        else if prefix "null" s then Some (VNone, drop 4 s)
        else if prefix "true" s then Some (VBool true, drop 4 s)
        else if prefix "false" s then Some (VBool false, drop 5 s)
        else match_number s
    end.
Proof. reflexivity. Qed.

(** Every value the scanner returns is well formed: the parser builds a
    dictionary with [dict], in which a repeated key keeps one entry. *)
Lemma scanner_well_formed (f : nat) :
  (forall s v rest, scan_once f s = Some (v, rest) -> well_formed v = true)
  /\ (forall s v rest, JSONArray f s = Some (v, rest) -> well_formed v = true)
  /\ (forall s vs rest, array_items f s = Some (vs, rest) ->
                        forallb well_formed vs = true)
  /\ (forall s v rest, JSONObject f s = Some (v, rest) -> well_formed v = true)
  /\ (forall s ps rest, object_members f s = Some (ps, rest) ->
                        forallb (fun kv => well_formed (snd kv)) ps = true).
Proof.
  induction f as [|f (IHs & IHa & IHi & IHo & IHm)].
  - repeat split; intros; discriminate.
  - split; [|split; [|split; [|split]]].
    + intros s v rest. rewrite scan_once_step.
      destruct s as [|c r]; [discriminate|].
      destruct (code c =? 34)%N.
      { destruct (scanstring r) as [[str r']|]; [|discriminate]. now intros [= <- _]. }
      destruct (code c =? 123)%N; [apply IHo|].
      destruct (code c =? 91)%N; [apply IHa|].
      destruct (prefix "null" (String c r)); [now intros [= <- _]|].
      destruct (prefix "true" (String c r)); [now intros [= <- _]|].
      destruct (prefix "false" (String c r)); [now intros [= <- _]|].
      apply match_number_well_formed.
    + intros s v rest. rewrite JSONArray_step.
      destruct (skip_ws s) as [|c r]; [discriminate|].
      destruct (code c =? 93)%N; [now intros [= <- _]|].
      destruct (array_items f (String c r)) as [[vs r']|] eqn:Hi; [|discriminate].
      intros [= <- _]. cbn [well_formed]. exact (IHi _ _ _ Hi).
    + intros s vs rest. rewrite array_items_step.
      destruct (scan_once f s) as [[v r0]|] eqn:Hv; [|discriminate].
      destruct (skip_ws r0) as [|c r]; [discriminate|].
      destruct (code c =? 93)%N.
      { intros [= <- _]. cbn [forallb]. now rewrite (IHs _ _ _ Hv). }
      destruct (code c =? 44)%N; [|discriminate].
      destruct (array_items f (skip_ws r)) as [[vs' r']|] eqn:Hi; [|discriminate].
      intros [= <- _]. cbn [forallb]. now rewrite (IHs _ _ _ Hv), (IHi _ _ _ Hi).
    + intros s v rest. rewrite JSONObject_step.
      destruct (skip_ws s) as [|c r]; [discriminate|].
      destruct (code c =? 125)%N; [now intros [= <- _]|].
      destruct (code c =? 34)%N; [|discriminate].
      destruct (object_members f r) as [[ps r']|] eqn:Hm; [|discriminate].
      intros [= <- _]. apply dict_of_pairs_well_formed. exact (IHm _ _ _ Hm).
    + intros s ps rest. rewrite object_members_step.
      destruct (scanstring s) as [[key r0]|]; [|discriminate].
      destruct (skip_ws r0) as [|c r]; [discriminate|].
      destruct (code c =? 58)%N; [|discriminate].
      destruct (scan_once f (skip_ws r)) as [[v r1]|] eqn:Hv; [|discriminate].
      destruct (skip_ws r1) as [|c1 r2]; [discriminate|].
      destruct (code c1 =? 125)%N.
      { intros [= <- _]. cbn [forallb snd]. now rewrite (IHs _ _ _ Hv). }
      destruct (code c1 =? 44)%N; [|discriminate].
      destruct (skip_ws r2) as [|c2 r3]; [discriminate|].
      destruct (code c2 =? 34)%N; [|discriminate].
      destruct (object_members f r3) as [[ps' r']|] eqn:Hm; [|discriminate].
      intros [= <- _]. cbn [forallb snd].
      now rewrite (IHs _ _ _ Hv), (IHm _ _ _ Hm).
Qed.

Lemma json_loads_well_formed (s : string) (v : value) :
  json_loads s = Loaded v -> well_formed v = true.
Proof.
  unfold json_loads.
  destruct (scan_once (2 * String.length s + 2) (skip_ws s)) as [[x rest]|] eqn:H;
    [|discriminate].
  destruct (skip_ws rest); [|discriminate]. intros [= <-].
  exact (proj1 (scanner_well_formed _) _ _ _ H).
Qed.

Lemma parse_result_file_well_formed (fs : filesystem) (filename : string) :
  Forall (fun v => well_formed v = true)
    (Api.parse_result_file json_loads fs filename).
Proof.
  unfold Api.parse_result_file.
  destruct (read_text fs filename) as [text|]; [|constructor].
  destruct (strip text =? "")%string; [constructor|].
  assert (H : forall x, Api.load_with_recovery json_loads (strip text) = Some x ->
                        well_formed x = true).
  { intros x. unfold Api.load_with_recovery.
    destruct (json_loads (strip text)) as [v| |] eqn:Hl.
    - intros [= <-]. exact (json_loads_well_formed _ _ Hl).
    - destruct (_ && _); [|discriminate].
      destruct (json_loads (slice _ _ _)) as [v| |] eqn:Hs; try discriminate.
      intros [= <-]. exact (json_loads_well_formed _ _ Hs).
    - discriminate. }
  destruct (Api.load_with_recovery json_loads (strip text)) as [[| | | |l|d]|];
    try constructor.
  - specialize (H _ eq_refl). cbn [well_formed] in H.
    rewrite forallb_forall in H. apply Forall_forall. exact H.
  - exact (H _ eq_refl).
  - constructor.
Qed.

(** ** Ingestion and the read side *)

Section ReadSide.

Variable E : engine.

(** A row written from parameters whose sequence columns hold the JSON
    text of well-formed values can be read back. *)
Lemma written_row_readable (a : args) (r : row) :
  (forall c, is_sequence_column c = true ->
             exists v, well_formed v = true /\ a c = VStr (json_dumps v)) ->
  cell r = stored_cell E a ->
  readable json_loads r.
Proof.
  intros Hseq Hcell. unfold readable, Api.startup_of_row.
  replace (forallb _ columns) with true; [discriminate|].
  symmetry. apply forallb_forall. intros c _. unfold Api.read_cell.
  destruct (is_sequence_column c) eqn:Hc; [|reflexivity].
  destruct (Hseq c Hc) as (v & Hwf & Ha).
  rewrite Hcell. unfold stored_cell. rewrite Ha. cbn [adapt].
  replace (column_affinity c) with TEXT
    by (destruct c; try discriminate; reflexivity).
  cbn [apply_affinity py_of_sql]. unfold Api.read_sequence.
  now rewrite truthy_json_dumps, (json_loads_dumps v Hwf).
Qed.

Lemma get_or_well_formed (d : dict) (k : string) (default : value) :
  well_formed (VDict d) = true -> well_formed default = true ->
  well_formed (get_or d k default) = true.
Proof.
  intros H Hd. cbn [well_formed] in H. apply andb_true_iff in H.
  destruct H as (_ & H). unfold get_or.
  destruct (lookup d k) eqn:Hl; [now apply (lookup_well_formed d k)|exact Hd].
Qed.

Lemma research_save_keeps_readable (st : store) (d : dict) :
  well_formed (VDict d) = true ->
  Forall (readable json_loads) (rows st) ->
  Forall (readable json_loads) (rows (ResearchStartups.save_startup_to_db E st d)).
Proof.
  intros Hwf Hread. unfold ResearchStartups.save_startup_to_db.
  destruct (execute_insert E st (ResearchStartups.insert_args d)) as [st'|] eqn:Hins;
    [|exact Hread].
  destruct (execute_insert_rows E st st' _ Hins) as (r & Hrows & _ & Hcell).
  rewrite Hrows. apply Forall_app. split; [exact Hread|].
  constructor; [|constructor].
  apply (written_row_readable (ResearchStartups.insert_args d)); [|exact Hcell].
  intros c Hc. destruct c; try discriminate Hc;
    (eexists; split; [|reflexivity]);
    apply get_or_well_formed; try exact Hwf; reflexivity.
Qed.

Lemma research_save_all_keeps_readable (l : list value) :
  Forall (fun v => well_formed v = true) l ->
  forall st : store,
    Forall (readable json_loads) (rows st) ->
    Forall (readable json_loads)
      (rows (ResearchStartups.save_all_startups_to_db E st l)).
Proof.
  unfold ResearchStartups.save_all_startups_to_db.
  induction 1 as [|v l Hv _ IH]; intros st Hread; cbn [fold_left]; [exact Hread|].
  apply IH. destruct v as [| | | | |d]; try exact Hread.
  now apply research_save_keeps_readable.
Qed.

Lemma save_files_keep_readable (fs : filesystem) (files : list string) :
  forall (st : store) (total : Z) (processed : list (string * Z)),
    Forall (readable json_loads) (rows st) ->
    Forall (readable json_loads)
      (rows (fst (fst (fold_left (Api.save_file E json_loads fs) files
                         (st, total, processed))))).
Proof.
  induction files as [|f files IH]; intros st total processed Hread;
    cbn [fold_left]; [exact Hread|].
  unfold Api.save_file at 2.
  pose proof (save_candidates_keep_readable E _
                (parse_result_file_well_formed fs f) (st, 0) Hread) as H.
  fold (Api.save_candidates E st (Api.parse_result_file json_loads fs f)) in H.
  destruct (Api.save_candidates E st (Api.parse_result_file json_loads fs f))
    as [st1 n1].
  now apply IH.
Qed.

Lemma save_from_file_keeps_readable (fs : filesystem) (st : store)
  (filename : string) :
  Forall (readable json_loads) (rows st) ->
  Forall (readable json_loads)
    (rows (fst (Api.save_from_file E json_loads fs st filename))).
Proof.
  intros Hread. unfold Api.save_from_file.
  destruct (negb (path_exists fs filename)).
  - destruct (filename =? "all")%string; [|exact Hread].
    destruct (all_result_files fs) as [|f files]; [exact Hread|].
    pose proof (save_files_keep_readable fs (f :: files) st 0 [] Hread) as H.
    now destruct (fold_left (Api.save_file E json_loads fs) (f :: files) (st, 0, []))
      as [[st' total] processed].
  - pose proof (parse_result_file_well_formed fs filename) as Hwf.
    destruct (Api.parse_result_file json_loads fs filename) as [|v l];
      [exact Hread|].
    pose proof (save_candidates_keep_readable E _ Hwf (st, 0) Hread) as H.
    fold (Api.save_candidates E st (v :: l)) in H.
    now destruct (Api.save_candidates E st (v :: l)) as [st' n].
Qed.

(** X25.  Ingestion never makes the table unreadable.  If every row
    can be read back, so can every row after a file - whatever it
    holds - was ingested through the endpoint of [api.py], the command
    line of [parse_results_to_db.py] or [parse_and_save_result_file] of
    [research_startups.py]: what [json.loads] returned is stored as
    JSON text that [json.loads] reads. *)
Theorem ingestion_keeps_table_readable (fs : filesystem) (st : store)
  (filename : string) :
  Forall (readable json_loads) (rows st) ->
  Forall (readable json_loads)
    (rows (fst (Api.save_from_file E json_loads fs st filename)))
  /\ Forall (readable json_loads)
       (rows (fst (ParseResultsToDb.main E json_loads fs st filename)))
  /\ Forall (readable json_loads)
       (rows (fst (ResearchStartups.parse_and_save_result_file E json_loads fs st
                     filename))).
Proof.
  intros Hread. split; [now apply save_from_file_keeps_readable|]. split.
  - unfold ParseResultsToDb.main. destruct (filename =? "all")%string.
    + destruct (all_result_files fs) as [|f files]; [exact Hread|].
      rewrite (save_files_same E json_loads fs (f :: files) st 0 []).
      pose proof (save_files_keep_readable fs (f :: files) st 0 [] Hread) as H.
      now destruct (fold_left (Api.save_file E json_loads fs) (f :: files)
                      (st, 0, [])) as [[st' total] processed].
    + rewrite save_startups_to_db_same, parse_result_file_same.
      pose proof (save_candidates_keep_readable E _
                    (parse_result_file_well_formed fs filename) (st, 0) Hread)
        as H.
      fold (Api.save_candidates E st (Api.parse_result_file json_loads fs filename))
        in H.
      now destruct (Api.save_candidates E st
                      (Api.parse_result_file json_loads fs filename)) as [st' n].
  - unfold ResearchStartups.parse_and_save_result_file.
    destruct (read_text fs filename) as [text|]; [|exact Hread].
    destruct (strip text =? "")%string; [exact Hread|].
    assert (H : forall x,
               match json_loads (strip text) with
               | Loaded data => Some data
               | OtherException => None
               | JSONDecodeError =>
                   if negb (find (strip text) "[" =? -1)
                      && negb (rfind (strip text) "]" =? -1)
                      && (find (strip text) "[" <? rfind (strip text) "]")
                   then
                     match json_loads (slice (strip text) (find (strip text) "[")
                                         (rfind (strip text) "]" + 1)) with
                     | Loaded data => Some data
                     | JSONDecodeError => None
                     | OtherException => None
                     end
                   else None
               end = Some x -> well_formed x = true).
    { intros x. destruct (json_loads (strip text)) as [v| |] eqn:Hl.
      - intros [= <-]. exact (json_loads_well_formed _ _ Hl).
      - destruct (_ && _); [|discriminate].
        destruct (json_loads (slice _ _ _)) as [v| |] eqn:Hs; try discriminate.
        intros [= <-]. exact (json_loads_well_formed _ _ Hs).
      - discriminate. }
    match goal with
    | |- context [match ?data with Some _ => _ | None => _ end] =>
        destruct data as [[| | | |l|d]|]; try exact Hread
    end.
    + specialize (H _ eq_refl). cbn [well_formed] in H.
      assert (Hf : Forall (fun v => well_formed v = true)
                     (filter ResearchStartups.has_company_key l)).
      { rewrite forallb_forall in H. apply Forall_forall. intros v Hv.
        apply filter_In in Hv. now apply H. }
      destruct (filter ResearchStartups.has_company_key l) as [|v vs];
        [exact Hread|].
      now apply research_save_all_keeps_readable.
    + destruct (contains d "Company Name" || contains d "company_name");
        [|exact Hread].
      apply research_save_all_keeps_readable; [|exact Hread].
      constructor; [exact (H _ eq_refl)|constructor].
Qed.

Lemma listing_length (st : store) :
  Forall (readable json_loads) (rows st) ->
  List.length (Api.get_all_startups_from_db json_loads st) = List.length (rows st).
Proof.
  intros H. rewrite (get_all_readable json_loads st H), length_map.
  apply Permutation_length, order_by_perm.
Qed.

(** X26.  Every record the endpoint saves shows up in the listing.
    Over a table whose rows can all be read back, the full listing
    after an ingestion holds every record it held before, and as many
    more as the answer reports saved. *)
Theorem saved_records_are_listed (fs : filesystem) (st : store)
  (filename : string) :
  Forall (readable json_loads) (rows st) ->
  Z.of_nat (List.length
              (Api.get_all_startups_from_db json_loads
                 (fst (Api.save_from_file E json_loads fs st filename))))
  = Z.of_nat (List.length (Api.get_all_startups_from_db json_loads st))
    + reported_saved (snd (Api.save_from_file E json_loads fs st filename))
  /\ incl (Api.get_all_startups_from_db json_loads st)
       (Api.get_all_startups_from_db json_loads
          (fst (Api.save_from_file E json_loads fs st filename))).
Proof.
  intros Hread.
  pose proof (save_from_file_keeps_readable fs st filename Hread) as Hread'.
  destruct (save_from_file_grows E json_loads fs st filename)
    as (a & (Hrows & _) & Hn & _).
  split.
  - rewrite (listing_length _ Hread'), (listing_length _ Hread), Hn, Hrows,
      length_app. lia.
  - rewrite (get_all_readable json_loads _ Hread'),
      (get_all_readable json_loads st Hread).
    intros s Hs. apply in_map_iff in Hs. destruct Hs as (r & <- & Hr).
    apply in_map.
    apply (Permutation_in _ (Permutation_sym (order_by_perm _))).
    rewrite Hrows. apply in_or_app. left.
    now apply (Permutation_in _ (order_by_perm (rows st))).
Qed.

End ReadSide.

Lemma find_app_none {A : Type} (f : A -> bool) (l l' : list A) :
  List.find f l' = None -> List.find f (l ++ l') = List.find f l.
Proof.
  intros H. induction l as [|x l IH]; cbn [app List.find]; [exact H|].
  now destruct (f x).
Qed.

(** X27.  Ingestion leaves the records it found where they were: the
    lookup of an id that the AUTOINCREMENT sequence had reached gives
    the same answer after an ingestion through the endpoint as
    before. *)
Theorem ingestion_keeps_existing_records (E : engine)
  (loads : string -> load_result) (fs : filesystem) (st : store)
  (filename : string) (startup_id : Z) :
  startup_id <= last_id st ->
  Api.get_startup_by_id loads (fst (Api.save_from_file E loads fs st filename))
    startup_id
  = Api.get_startup_by_id loads st startup_id.
Proof.
  intros Hid.
  destruct (save_from_file_grows E loads fs st filename)
    as (a & (Hrows & _ & Hids) & _).
  unfold Api.get_startup_by_id. rewrite Hrows.
  rewrite find_app_none; [reflexivity|].
  destruct (List.find (fun r => row_id r =? startup_id) a) as [r|] eqn:Hf;
    [|reflexivity].
  apply find_some in Hf. destruct Hf as (Hin & Heq). apply Z.eqb_eq in Heq.
  assert (Hr : In (row_id r) (map row_id a)) by now apply in_map.
  rewrite Hids in Hr. apply in_map_iff in Hr. destruct Hr as (i & Hi & Hseq).
  apply in_seq in Hseq. lia.
Qed.

(** X28.  The counts of the read side follow the ingestion: after an
    ingestion through the endpoint, [total_startups] of the statistics
    and [get_startup_count] of [query_startup_db.py] are what they were
    before plus the count of saved records in the answer. *)
Theorem counts_follow_ingestion (E : engine) (loads : string -> load_result)
  (fs : filesystem) (st : store) (filename : string) :
  Api.total_startups
    (Api.get_database_stats E (fst (Api.save_from_file E loads fs st filename)))
  = Api.total_startups (Api.get_database_stats E st)
    + reported_saved (snd (Api.save_from_file E loads fs st filename))
  /\ QueryStartupDb.get_startup_count
       (fst (Api.save_from_file E loads fs st filename))
     = QueryStartupDb.get_startup_count st
       + reported_saved (snd (Api.save_from_file E loads fs st filename)).
Proof.
  destruct (save_from_file_grows E loads fs st filename)
    as (a & (Hrows & _) & Hn & _).
  unfold QueryStartupDb.get_startup_count.
  cbn [Api.get_database_stats Api.total_startups].
  rewrite Hn, Hrows, length_app. lia.
Qed.

(** ** The further properties at sample inputs *)

(** Decidable forms of the invariants. *)
Lemma ids_in_order_check (st : store) :
  increasing (map row_id (rows st)) = true ->
  forallb (fun r => row_id r <=? last_id st) (rows st) = true ->
  ids_in_order st.
Proof.
  intros Hi Hb. split.
  - clear Hb. induction (map row_id (rows st)) as [|x l IH]; [constructor|].
    cbn [increasing] in Hi. apply andb_true_iff in Hi. destruct Hi as (Hx & Hl).
    constructor; [now apply IH|].
    rewrite forallb_forall in Hx. apply Forall_forall. intros y Hy.
    now apply Z.ltb_lt, Hx.
  - rewrite forallb_forall in Hb. apply Forall_forall. intros r Hr.
    now apply Z.leb_le, Hb.
Defined.

Lemma named_check (l : list row) : forallb has_name l = true -> Forall named l.
Proof.
  intros H. rewrite forallb_forall in H. apply Forall_forall. intros r Hr.
  specialize (H r Hr). unfold has_name in H. unfold named.
  destruct (cell r company_name) as [| |s]; try discriminate H.
  exists s. split; [reflexivity|].
  apply negb_true_iff in H. now apply String.eqb_neq.
Defined.

Lemma int64_check (n : Z) :
  ((- 2 ^ 63 <=? n) && (n <? 2 ^ 63)) = true -> int64 n.
Proof.
  intros H. apply andb_true_iff in H. destruct H as (H1 & H2).
  split; [now apply Z.leb_le | now apply Z.ltb_lt].
Defined.

(** Ingestion of "all" into [sample_store] keeps the ids in order. *)
Lemma ingestion_keeps_ids_in_order_witness :
  ids_in_order sample_store
  /\ ids_in_order
       (fst (Api.save_from_file sample_engine json_loads result_directory
               sample_store "all"))
  /\ ids_in_order
       (fst (ParseResultsToDb.main sample_engine json_loads result_directory
               sample_store "all"))
  /\ ids_in_order
       (fst (ResearchStartups.parse_and_save_result_file sample_engine json_loads
               result_directory sample_store "all")).
Proof.
  assert (H : ids_in_order sample_store)
    by (apply ids_in_order_check; vm_compute; reflexivity).
  split; [exact H|].
  exact (ingestion_keeps_ids_in_order sample_engine json_loads result_directory
           sample_store "all" H).
Defined.

(** Ingestion of "all" into [sample_store] stores named rows only. *)
Lemma ingestion_stores_named_rows_witness :
  Forall named (rows sample_store)
  /\ Forall named
       (rows (fst (Api.save_from_file sample_engine json_loads result_directory
                     sample_store "all")))
  /\ Forall named
       (rows (fst (ParseResultsToDb.main sample_engine json_loads
                     result_directory sample_store "all"))).
Proof.
  assert (H : Forall named (rows sample_store))
    by (apply named_check; vm_compute; reflexivity).
  split; [exact H|].
  exact (ingestion_stores_named_rows sample_engine json_loads result_directory
           sample_store "all" H).
Defined.

(** The report for a file of two items, one of them without a name. *)
Lemma saved_at_most_found_witness :
  snd (Api.save_from_file sample_engine json_loads
         (single_file "two.json" two_candidates_text) sample_store "two.json")
  = OK (Api.FileReport "Successfully processed two.json" 2 1)
  /\ 1 <= 2 /\ 0 <= 1 <= 2.
Proof.
  assert (H : snd (Api.save_from_file sample_engine json_loads
                     (single_file "two.json" two_candidates_text) sample_store
                     "two.json")
              = OK (Api.FileReport "Successfully processed two.json" 2 1))
    by (vm_compute; reflexivity).
  split; [exact H|].
  exact (saved_at_most_found sample_engine json_loads
           (single_file "two.json" two_candidates_text) sample_store "two.json"
           "Successfully processed two.json" 2 1 H).
Defined.

(** The report of "all" in a directory with two result files. *)
Lemma all_report_adds_up_witness :
  snd (Api.save_from_file sample_engine json_loads result_directory
         sample_store "all")
  = OK (Api.AllReport "Successfully processed 2 files" 2
          [("research_results.json", 1); ("batch_results_1.json", 1)])
  /\ map fst [("research_results.json", 1); ("batch_results_1.json", 1)]
     = all_result_files result_directory
  /\ 2 = sum_Z (map snd [("research_results.json", 1); ("batch_results_1.json", 1)])
  /\ Forall (fun entry =>
               forall st0 : store,
                 snd (Api.save_candidates sample_engine st0
                        (Api.parse_result_file json_loads result_directory
                           (fst entry)))
                 = snd entry)
       [("research_results.json", 1); ("batch_results_1.json", 1)].
Proof.
  assert (H : snd (Api.save_from_file sample_engine json_loads result_directory
                     sample_store "all")
              = OK (Api.AllReport "Successfully processed 2 files" 2
                      [("research_results.json", 1); ("batch_results_1.json", 1)]))
    by (vm_compute; reflexivity).
  split; [exact H|].
  exact (all_report_adds_up sample_engine json_loads result_directory
           sample_store "all" "Successfully processed 2 files" 2
           [("research_results.json", 1); ("batch_results_1.json", 1)] H).
Defined.

(** The command line and the endpoint on "all". *)
Lemma command_line_matches_endpoint_witness :
  path_exists result_directory "all" = negb ("all" =? "all")%string
  /\ fst (ParseResultsToDb.main sample_engine json_loads result_directory
            sample_store "all")
     = fst (Api.save_from_file sample_engine json_loads result_directory
              sample_store "all")
  /\ outcome_saved (snd (ParseResultsToDb.main sample_engine json_loads
                           result_directory sample_store "all"))
     = reported_saved (snd (Api.save_from_file sample_engine json_loads
                              result_directory sample_store "all")).
Proof.
  split; [reflexivity|].
  exact (command_line_matches_endpoint sample_engine json_loads result_directory
           sample_store "all" eq_refl).
Defined.

(** A file whose only item has no company name, on the research path. *)
Lemma research_failure_stores_nothing_witness :
  snd (ResearchStartups.parse_and_save_result_file sample_engine json_loads
         (single_file "r.json" anonymous_text) sample_store "r.json") = false
  /\ fst (ResearchStartups.parse_and_save_result_file sample_engine json_loads
            (single_file "r.json" anonymous_text) sample_store "r.json")
     = sample_store.
Proof.
  assert (H : snd (ResearchStartups.parse_and_save_result_file sample_engine
                     json_loads (single_file "r.json" anonymous_text)
                     sample_store "r.json") = false)
    by (vm_compute; reflexivity).
  split; [exact H|].
  exact (research_failure_stores_nothing sample_engine json_loads
           (single_file "r.json" anonymous_text) sample_store "r.json" H).
Defined.

(** The lookup of the id 2 in [sample_store]. *)
Lemma lookup_by_id_answers_witness :
  int64 2
  /\ (Api.get_startup_by_id json_loads sample_store 2
      = Api.NotFound ("Startup with ID " ++ Z_repr 2 ++ " not found")
      <-> forall r, In r (rows sample_store) -> row_id r <> 2)
  /\ (forall s, Api.get_startup_by_id json_loads sample_store 2 = Api.Found s ->
        s_id s = 2
        /\ exists r, In r (rows sample_store) /\ row_id r = 2
                     /\ Api.startup_of_row json_loads r = Some s).
Proof.
  assert (H : int64 2) by (apply int64_check; reflexivity).
  split; [exact H|].
  exact (lookup_by_id_answers json_loads sample_store 2 H).
Defined.

(** The first record of the listing of [sample_store], looked up. *)
Lemma listing_agrees_with_lookup_witness :
  ids_in_order sample_store
  /\ int64 (s_id first_listed)
  /\ In first_listed (Api.get_all_startups_from_db json_loads sample_store)
  /\ Api.get_startup_by_id json_loads sample_store (s_id first_listed)
     = Api.Found first_listed.
Proof.
  assert (H1 : ids_in_order sample_store)
    by (apply ids_in_order_check; vm_compute; reflexivity).
  assert (H2 : int64 (s_id first_listed))
    by (apply int64_check; vm_compute; reflexivity).
  assert (H3 : In first_listed
                 (Api.get_all_startups_from_db json_loads sample_store)).
  { rewrite get_all_readable
      by (apply readable_forallb; vm_compute; reflexivity).
    apply in_map.
    apply (Permutation_in _ (Permutation_sym (order_by_perm (rows sample_store)))).
    assert (Hne : exists r l, rows sample_store = r :: l).
    { destruct (rows sample_store) as [|r l] eqn:Hr.
      - apply (f_equal (@List.length row)) in Hr. vm_compute in Hr. discriminate Hr.
      - now exists r, l. }
    destruct Hne as (r & l & Hr). rewrite Hr. now left. }
  split; [exact H1|]. split; [exact H2|]. split; [exact H3|].
  exact (listing_agrees_with_lookup json_loads sample_store first_listed H1 H2 H3).
Defined.

(** The listing of [sample_store] with the limit 1. *)
Lemma listing_respects_limit_witness :
  (forall n, Some 1 = Some n -> 0 <= n)
  /\ Api.get_startups json_loads sample_store (Some 1) None None
     = OK {| Api.total_returned :=
               Z.of_nat (List.length
                           (take_upto 1 (Api.get_all_startups_from_db json_loads
                                           sample_store)));
             Api.startups :=
               take_upto 1 (Api.get_all_startups_from_db json_loads sample_store) |}
  /\ Z.of_nat (List.length
                 (take_upto 1 (Api.get_all_startups_from_db json_loads sample_store)))
     <= 1
  /\ incl (take_upto 1 (Api.get_all_startups_from_db json_loads sample_store))
       (Api.get_all_startups_from_db json_loads sample_store).
Proof.
  assert (H1 : forall n, Some 1 = Some n -> 0 <= n)
    by (intros n Hn; injection Hn as <-; lia).
  split; [exact H1|]. split; [reflexivity|].
  exact (proj2 (listing_respects_limit json_loads sample_store (Some 1) None None
                  _ H1 eq_refl)).
Defined.

(** The record [acme], saved into the empty table and looked up. *)
Lemma saved_record_found_by_id_witness :
  well_formed (VDict acme) = true
  /\ ids_in_order empty_store
  /\ int64 (last_id empty_store + 1)
  /\ Api.save_candidate sample_engine (empty_store, 0) (VDict acme)
     = (fst (Api.save_candidate sample_engine (empty_store, 0) (VDict acme)), 0 + 1)
  /\ exists s : startup,
      Api.get_startup_by_id json_loads
        (fst (Api.save_candidate sample_engine (empty_store, 0) (VDict acme)))
        (last_id empty_store + 1) = Api.Found s
      /\ s_id s = last_id empty_store + 1
      /\ (forall c, is_sequence_column c = true ->
                    s_field s c = original_sequence acme c)
      /\ (forall c, is_sequence_column c = false ->
                    s_field s c
                    = py_of_sql (stored_cell sample_engine (Api.insert_args acme) c)).
Proof.
  assert (H2 : ids_in_order empty_store) by (split; constructor).
  assert (H3 : int64 (last_id empty_store + 1))
    by (apply int64_check; reflexivity).
  split; [reflexivity|]. split; [exact H2|]. split; [exact H3|].
  split; [reflexivity|].
  exact (saved_record_found_by_id sample_engine empty_store _ 0 acme
           eq_refl H2 H3 eq_refl).
Defined.

(** The listing of a table in which one row holds a text that is not
    JSON in [founders]. *)
Lemma unreadable_row_empties_listing_witness :
  In corrupt_row (rows corrupt_store)
  /\ Api.startup_of_row json_loads corrupt_row = None
  /\ Api.get_all_startups_from_db json_loads corrupt_store = []
  /\ Api.get_startups json_loads corrupt_store None (Some "fin") None
     = OK {| Api.total_returned := 0; Api.startups := [] |}.
Proof.
  assert (H1 : In corrupt_row (rows corrupt_store))
    by (apply in_or_app; right; now left).
  assert (H2 : Api.startup_of_row json_loads corrupt_row = None)
    by (vm_compute; reflexivity).
  split; [exact H1|]. split; [exact H2|].
  exact (unreadable_row_empties_listing json_loads corrupt_store corrupt_row
           None (Some "fin") None H1 H2).
Defined.

(** A file of white space. *)
Lemma blank_file_yields_nothing_witness :
  (forall text, read_text (single_file "blank.json" blank_text) "blank.json"
                = Some text -> all_space text = true)
  /\ Api.parse_result_file json_loads (single_file "blank.json" blank_text)
       "blank.json" = []
  /\ ParseResultsToDb.parse_result_file json_loads
       (single_file "blank.json" blank_text) "blank.json" = []
  /\ ResearchStartups.parse_and_save_result_file sample_engine json_loads
       (single_file "blank.json" blank_text) sample_store "blank.json"
     = (sample_store, false).
Proof.
  assert (H : forall text,
             read_text (single_file "blank.json" blank_text) "blank.json"
             = Some text -> all_space text = true)
    by (intros text Ht; injection Ht as <-; reflexivity).
  split; [exact H|].
  exact (blank_file_yields_nothing sample_engine json_loads
           (single_file "blank.json" blank_text) sample_store "blank.json" H).
Defined.

(** The name and the founders of [acme], given under their labels. *)
Lemma research_agrees_on_label_keys_witness :
  label_given acme founders = true
  /\ ResearchStartups.insert_args acme founders = Api.insert_args acme founders
  /\ ResearchStartups.insert_args acme founders
     = ParseResultsToDb.insert_args acme founders.
Proof.
  split; [reflexivity|].
  exact (research_agrees_on_label_keys acme founders eq_refl).
Defined.

(** The export of a table that is not empty and whose rows can all be
    read back. *)
Lemma export_of_readable (loads : string -> load_result) (timestamp : string)
  (st : store) :
  Forall (readable loads) (rows st) ->
  (0 < List.length (rows st))%nat ->
  QueryStartupDb.export_to_json loads timestamp st
  = QueryStartupDb.Exported ("startup_export_" ++ timestamp ++ ".json")
      (map QueryStartupDb.clean_startup
         (map (Api.row_startup loads) (order_by_created_at_desc (rows st)))).
Proof.
  intros Hread Hlen.
  unfold QueryStartupDb.export_to_json, QueryStartupDb.get_all_startups.
  rewrite startups_of_rows_readable.
  - rewrite <- (Permutation_length (order_by_perm (rows st))) in Hlen.
    destruct (order_by_created_at_desc (rows st)) as [|r l];
      [cbn in Hlen; lia | reflexivity].
  - rewrite Forall_forall in Hread |- *. intros r Hr. apply Hread.
    now apply (Permutation_in _ (order_by_perm (rows st))).
Defined.

Lemma first_row_In : In first_row (rows sample_store).
Proof.
  unfold first_row. destruct (rows sample_store) as [|r l] eqn:Hr.
  - apply (f_equal (@List.length row)) in Hr. vm_compute in Hr. discriminate Hr.
  - now left.
Defined.

(** The export of [sample_store] and its first row. *)
Lemma export_then_import_witness :
  QueryStartupDb.export_to_json json_loads "20240101_120000" sample_store
  = QueryStartupDb.Exported "startup_export_20240101_120000.json" sample_export
  /\ In first_row (rows sample_store)
  /\ In (QueryStartupDb.clean_startup (Api.row_startup json_loads first_row))
       sample_export
  /\ (named first_row ->
      truthy (Api.candidate_name
                (QueryStartupDb.clean_startup
                   (Api.row_startup json_loads first_row)))
      = true)
  /\ (forall s, is_sequence_column founders = false ->
                column_affinity founders = TEXT ->
                cell first_row founders = SText s ->
                reimported sample_engine json_loads first_row founders = SText s)
  /\ (forall v, is_sequence_column founders = true -> well_formed v = true ->
                cell first_row founders = SText (json_dumps v) ->
                reimported sample_engine json_loads first_row founders
                = SText (json_dumps v))
  /\ (forall n, column_affinity founders = INTEGER -> n <> 0 -> int64 n ->
                cell first_row founders = SInt n ->
                reimported sample_engine json_loads first_row founders = SInt n)
  /\ (cell first_row founders = SNull ->
      reimported sample_engine json_loads first_row founders
      = if is_sequence_column founders then SText "[]"
        else match column_affinity founders with
             | INTEGER => SNull
             | TEXT => SText ""
             end)
  /\ (column_affinity founders = INTEGER -> cell first_row founders = SInt 0 ->
      reimported sample_engine json_loads first_row founders = SNull).
Proof.
  assert (H1 : QueryStartupDb.export_to_json json_loads "20240101_120000"
                 sample_store
               = QueryStartupDb.Exported "startup_export_20240101_120000.json"
                   sample_export).
  { apply (export_of_readable json_loads "20240101_120000" sample_store).
    - apply readable_forallb. vm_compute. reflexivity.
    - apply Nat.ltb_lt. vm_compute. reflexivity. }
  split; [exact H1|]. split; [exact first_row_In|].
  exact (export_then_import sample_engine sample_store "20240101_120000"
           "startup_export_20240101_120000.json" sample_export first_row
           founders H1 first_row_In).
Defined.

(** The export of [sample_store] in a directory with result files. *)
Lemma export_is_not_ingested_by_all_witness :
  QueryStartupDb.export_to_json json_loads "20240101_120000" sample_store
  = QueryStartupDb.Exported "startup_export_20240101_120000.json" sample_export
  /\ ~ In "startup_export_20240101_120000.json" (all_result_files result_directory)
  /\ Z.of_nat (List.length sample_export)
     = QueryStartupDb.get_startup_count sample_store
  /\ Forall (fun d => map fst d = map QueryStartupDb.key_of columns
                      /\ lookup d "id" = None /\ lookup d "created_at" = None)
       sample_export.
Proof.
  assert (H1 : QueryStartupDb.export_to_json json_loads "20240101_120000"
                 sample_store
               = QueryStartupDb.Exported "startup_export_20240101_120000.json"
                   sample_export).
  { apply (export_of_readable json_loads "20240101_120000" sample_store).
    - apply readable_forallb. vm_compute. reflexivity.
    - apply Nat.ltb_lt. vm_compute. reflexivity. }
  split; [exact H1|].
  exact (export_is_not_ingested_by_all json_loads result_directory sample_store
           "20240101_120000" "startup_export_20240101_120000.json"
           sample_export H1).
Defined.

(** The filter by "FINTECH" and by "fintech". *)
Lemma industry_filter_ignores_case_witness :
  lower "FINTECH" = lower "fintech"
  /\ Api.get_startups json_loads sample_store None (Some "FINTECH") None
     = Api.get_startups json_loads sample_store None (Some "fintech") None.
Proof.
  split; [reflexivity|].
  exact (industry_filter_ignores_case json_loads sample_store None
           "FINTECH" "fintech" None eq_refl).
Defined.

(** The directory after a research run, ingested with "all". *)
Lemma backup_is_ingested_again_witness :
  path_exists run_directory "all" = false
  /\ path_exists run_directory "research_results.json" = true
  /\ In (ResearchStartups.backup_filename "20240101_120000") (listdir run_directory)
  /\ read_text run_directory (ResearchStartups.backup_filename "20240101_120000")
     = read_text run_directory "research_results.json"
  /\ exists (message : string) (total : Z) (files : list (string * Z)) (n : Z),
      snd (Api.save_from_file sample_engine json_loads run_directory
             sample_store "all")
      = OK (Api.AllReport message total files)
      /\ In ("research_results.json", n) files
      /\ In (ResearchStartups.backup_filename "20240101_120000", n) files
      /\ 0 <= n /\ 2 * n <= total.
Proof.
  assert (H3 : In (ResearchStartups.backup_filename "20240101_120000")
                 (listdir run_directory)) by (now left).
  split; [reflexivity|]. split; [reflexivity|]. split; [exact H3|].
  split; [reflexivity|].
  exact (backup_is_ingested_again sample_engine json_loads run_directory
           sample_store "20240101_120000" eq_refl eq_refl H3 eq_refl).
Defined.

(** Ingestion of "all" into [sample_store] and the read side. *)
Lemma ingestion_keeps_table_readable_witness :
  Forall (readable json_loads) (rows sample_store)
  /\ Forall (readable json_loads)
       (rows (fst (Api.save_from_file sample_engine json_loads result_directory
                     sample_store "all")))
  /\ Forall (readable json_loads)
       (rows (fst (ParseResultsToDb.main sample_engine json_loads
                     result_directory sample_store "all")))
  /\ Forall (readable json_loads)
       (rows (fst (ResearchStartups.parse_and_save_result_file sample_engine
                     json_loads result_directory sample_store "all"))).
Proof.
  assert (H : Forall (readable json_loads) (rows sample_store))
    by (apply readable_forallb; vm_compute; reflexivity).
  split; [exact H|].
  exact (ingestion_keeps_table_readable sample_engine result_directory
           sample_store "all" H).
Defined.

Lemma saved_records_are_listed_witness :
  Forall (readable json_loads) (rows sample_store)
  /\ Z.of_nat (List.length
                 (Api.get_all_startups_from_db json_loads
                    (fst (Api.save_from_file sample_engine json_loads
                            result_directory sample_store "all"))))
     = Z.of_nat (List.length (Api.get_all_startups_from_db json_loads sample_store))
       + reported_saved (snd (Api.save_from_file sample_engine json_loads
                                result_directory sample_store "all"))
  /\ incl (Api.get_all_startups_from_db json_loads sample_store)
       (Api.get_all_startups_from_db json_loads
          (fst (Api.save_from_file sample_engine json_loads result_directory
                  sample_store "all"))).
Proof.
  assert (H : Forall (readable json_loads) (rows sample_store))
    by (apply readable_forallb; vm_compute; reflexivity).
  split; [exact H|].
  exact (saved_records_are_listed sample_engine result_directory sample_store
           "all" H).
Defined.

(** The lookup of the id 1 before and after the ingestion of "all". *)
Lemma ingestion_keeps_existing_records_witness :
  1 <= last_id sample_store
  /\ Api.get_startup_by_id json_loads
       (fst (Api.save_from_file sample_engine json_loads result_directory
               sample_store "all")) 1
     = Api.get_startup_by_id json_loads sample_store 1.
Proof.
  assert (H : 1 <= last_id sample_store)
    by (apply Z.leb_le; vm_compute; reflexivity).
  split; [exact H|].
  exact (ingestion_keeps_existing_records sample_engine json_loads
           result_directory sample_store "all" 1 H).
Defined.
